(** * isravelo static file server: a shallow embedding of [server.py]

    [server.py] is ten lines: it fixes [PORT = 8888], takes
    [http.server.SimpleHTTPRequestHandler] as its [Handler], builds
    a [socketserver.TCPServer] on the empty host and [PORT] with that
    handler, prints one line and calls [serve_forever()].  Every request-level behaviour is the behaviour of the
    two library classes the script instantiates, so the embedding follows the
    text of CPython 3.11's [http/server.py] and [socketserver.py] method by
    method, with the helpers they call from [posixpath], [html] and
    [urllib.parse].

    Modelling conventions.
    - A Python [str] is a [list ascii] (the request line is decoded as
      ISO-8859-1, one character per byte); [bytes] likewise.
    - Library functions whose text is not followed here (percent decoding,
      URL splitting, MIME tables, [str.lower], [int], date formatting,
      encoders) are the fields of a record [Lib]; theorems that need a fact
      about one of them state it as a hypothesis.
    - The file system is an oracle from path strings to what [os.stat]
      finds or raises there ([OSError], or [ValueError] for a string
      that is no path name); sockets are an oracle for [bind].
    - What the handler writes to the connection is a list of [wire_item]s,
      what it logs to standard error a list of [log_line]s. *)

From Stdlib Require Import List Ascii String NArith ZArith Bool.
From Stdlib Require Import DecimalString Permutation Sorted.
Import ListNotations.

(* ================================================================= *)
(** ** Python strings *)

Definition str := list ascii.
Definition bytes := list ascii.

Definition py (s : string) : str := list_ascii_of_string s.

Definition chr (n : nat) : ascii := ascii_of_nat n.
Definition ord (c : ascii) : N := N_of_ascii c.

Definition slash : ascii := chr 47.
Definition dq : str := [chr 34].
Definition LF : str := [chr 10].
Definition CRLF : str := [chr 13; chr 10].

Fixpoint str_eqb (a b : str) : bool :=
  match a, b with
  | [], [] => true
  | c :: a', d :: b' => Ascii.eqb c d && str_eqb a' b'
  | _, _ => false
  end.

Definition is_empty (s : str) : bool :=
  match s with [] => true | _ => false end.

Definition no_items {A} (l : list A) : bool :=
  match l with [] => true | _ => false end.

(** [c in s] for a one-character [c]. *)
Definition has_char (c : ascii) (s : str) : bool :=
  existsb (Ascii.eqb c) s.

(** [s.startswith(p)] and [s.endswith(p)]. *)
Fixpoint startswith (s p : str) {struct p} : bool :=
  match p, s with
  | [], _ => true
  | c :: p', d :: s' => Ascii.eqb c d && startswith s' p'
  | _ :: _, [] => false
  end.

Definition endswith (s p : str) : bool := startswith (rev s) (rev p).

(** [s.split(sep)] for a one-character separator: never empty. *)
Fixpoint split (sep : ascii) (s : str) : list str :=
  match s with
  | [] => [[]]
  | c :: s' =>
      if Ascii.eqb c sep then [] :: split sep s'
      else match split sep s' with
           | w :: ws => (c :: w) :: ws
           | [] => [[c]]
           end
  end.

(** [s.split(sep, 1)[0]]: the text before the first [sep]. *)
Fixpoint before (sep : ascii) (s : str) : str :=
  match s with
  | [] => []
  | c :: s' => if Ascii.eqb c sep then [] else c :: before sep s'
  end.

(** [s.split(sep, 1)[1]], when [sep] occurs. *)
Fixpoint after (sep : ascii) (s : str) : option str :=
  match s with
  | [] => None
  | c :: s' => if Ascii.eqb c sep then Some s' else after sep s'
  end.

(** [sep.join(ws)]. *)
Fixpoint str_join (sep : str) (ws : list str) : str :=
  match ws with
  | [] => []
  | [w] => w
  | w :: ws' => w ++ sep ++ str_join sep ws'
  end.

(** [str.isspace] on the code points an ISO-8859-1 request line can hold. *)
Definition isspace (c : ascii) : bool :=
  let n := ord c in
  ((9 <=? n) && (n <=? 13) || (28 <=? n) && (n <=? 32)
   || (n =? 133) || (n =? 160))%N.

Fixpoint lstrip_by (p : ascii -> bool) (s : str) : str :=
  match s with
  | c :: s' => if p c then lstrip_by p s' else s
  | [] => []
  end.

Definition rstrip_by (p : ascii -> bool) (s : str) : str :=
  rev (lstrip_by p (rev s)).

(** [s.rstrip()] and [s.rstrip(chars)]. *)
Definition rstrip (s : str) : str := rstrip_by isspace s.
Definition rstrip_chars (chars : str) (s : str) : str :=
  rstrip_by (fun c => has_char c chars) s.

(** [s.split()]: the maximal runs of non-whitespace characters. *)
Fixpoint split_ws_aux (cur : str) (s : str) : list str :=
  match s with
  | [] => if is_empty cur then [] else [rev cur]
  | c :: s' =>
      if isspace c
      then (if is_empty cur then split_ws_aux [] s'
            else rev cur :: split_ws_aux [] s')
      else split_ws_aux (c :: cur) s'
  end.

Definition split_ws (s : str) : list str := split_ws_aux [] s.

(** [s.replace(c, t)] for a one-character [c]. *)
Definition replace (c : ascii) (t : str) (s : str) : str :=
  flat_map (fun d => if Ascii.eqb d c then t else [d]) s.

(** Lexicographic order on code points: [a <= b] on [str]. *)
Fixpoint str_leb (a b : str) : bool :=
  match a, b with
  | [], _ => true
  | _ :: _, [] => false
  | c :: a', d :: b' =>
      if (ord c <? ord d)%N then true
      else if (ord d <? ord c)%N then false
      else str_leb a' b'
  end.

Definition str_geb (a b : str) : bool := str_leb b a.

(** [str(n)] for a non-negative integer. *)
Definition str_of_N (n : N) : str :=
  py (NilEmpty.string_of_uint (N.to_uint n)).

(** [sub in s]. *)
Fixpoint contains (s sub : str) : bool :=
  startswith s sub ||
  match s with
  | [] => false
  | _ :: s' => contains s' sub
  end.

(* ================================================================= *)
(** ** [posixpath] *)

Module posixpath.

Definition sep : str := [slash].
Definition curdir : str := py ".".
Definition pardir : str := py "..".

(** [posixpath.join(a, b)]. *)
Definition join (a b : str) : str :=
  if startswith b sep then b
  else if is_empty a || endswith a sep then a ++ b
  else a ++ sep ++ b.

(** [p[:p.rfind('/') + 1]]. *)
Definition upto_last_sep (p : str) : str :=
  rev (lstrip_by (fun c => negb (Ascii.eqb c slash)) (rev p)).

(** [posixpath.dirname(p)]. *)
Definition dirname (p : str) : str :=
  let head := upto_last_sep p in
  if negb (is_empty head) && negb (forallb (Ascii.eqb slash) head)
  then rstrip_chars sep head
  else head.

(** One turn of the loop of [normpath] over [comps]. *)
Definition normpath_step (initial_slashes : nat) (new_comps : list str)
    (comp : str) : list str :=
  if str_eqb comp [] || str_eqb comp curdir then new_comps
  else if negb (str_eqb comp pardir)
          || (Nat.eqb initial_slashes 0 && no_items new_comps)
          || (negb (no_items new_comps)
              && str_eqb (last new_comps []) pardir)
  then new_comps ++ [comp]
  else if negb (no_items new_comps) then removelast new_comps
  else new_comps.

(** [posixpath.normpath(path)]. *)
Definition normpath (path : str) : str :=
  if is_empty path then curdir
  else
    let initial_slashes :=
      if startswith path sep
      then (if startswith path (sep ++ sep)
               && negb (startswith path (sep ++ sep ++ sep))
            then 2 else 1)
      else 0 in
    let comps := split slash path in
    let comps := fold_left (normpath_step initial_slashes) comps [] in
    let path := str_join sep comps in
    let path := List.concat (repeat sep initial_slashes) ++ path in
    if is_empty path then curdir else path.

(** The scan of [genericpath._splitext] from [filenameIndex] to
    [dotIndex]: is there a character other than a dot? *)
Definition has_non_dot (s : str) : bool :=
  existsb (fun c => negb (Ascii.eqb c (chr 46))) s.

(** [posixpath.splitext(p)[1]]: the extension, from the last dot of the
    last component, unless only dots precede it there. *)
Definition splitext_ext (p : str) : str :=
  let name := rev (before slash (rev p)) in
  if has_char (chr 46) name then
    let ext_body := rev (before (chr 46) (rev name)) in
    let stem := firstn (List.length name - List.length ext_body - 1) name in
    if has_non_dot stem then chr 46 :: ext_body else []
  else [].

End posixpath.

(* ================================================================= *)
(** ** [html.escape(s, quote=False)] *)

Definition html_escape (s : str) : str :=
  let s := replace (chr 38) (py "&amp;") s in
  let s := replace (chr 60) (py "&lt;") s in
  let s := replace (chr 62) (py "&gt;") s in
  s.

(* ================================================================= *)
(** ** Library functions taken as parameters *)

(** The five fields of [urllib.parse.SplitResult]. *)
Record SplitResult := {
  scheme : str;
  netloc : str;
  url_path : str;
  query : str;
  fragment : str
}.

(** Functions of the Python runtime that the handler calls and whose text
    is not followed here.  [None] stands for the exception named. *)
Record Lib := {
  (** [urllib.parse.unquote(s, errors='surrogatepass')];
      [None]: [UnicodeDecodeError]. *)
  unquote_surrogatepass : str -> option str;
  (** [urllib.parse.unquote(s)]. *)
  unquote : str -> str;
  (** [urllib.parse.quote(s, errors='surrogatepass')]. *)
  quote : str -> str;
  (** [urllib.parse.urlsplit(s)]; [None]: [ValueError]. *)
  urlsplit : str -> option SplitResult;
  (** [str.lower]. *)
  lower : str -> str;
  (** ['%r' % s]. *)
  repr : str -> str;
  (** [int(s)]; [None]: [ValueError]. *)
  int : str -> option Z;
  (** [mimetypes.guess_type(path)[0]]. *)
  mimetypes_guess_type : str -> option str;
  (** [sys.getfilesystemencoding()]. *)
  getfilesystemencoding : str;
  (** [s.encode(sys.getfilesystemencoding(), 'surrogateescape')]. *)
  encode_fs : str -> bytes;
  (** [s.encode('UTF-8', 'replace')]. *)
  encode_utf8 : str -> bytes;
  (** [email.utils.formatdate(t, usegmt=True)]. *)
  formatdate : Z -> str;
  (** [time.time()], in whole seconds. *)
  time_now : Z;
  (** ["Python/" + sys.version.split()[0]]. *)
  sys_version : str
}.

(** [urllib.parse.uses_netloc]. *)
Definition uses_netloc : list str :=
  [] :: map py ["ftp"; "http"; "gopher"; "nntp"; "telnet"; "imap"; "wais";
          "file"; "mms"; "https"; "shttp"; "snews"; "prospero"; "rtsp";
          "rtspu"; "rsync"; "svn"; "svn+ssh"; "sftp"; "nfs"; "git";
          "git+ssh"; "ws"; "wss"]%string.

(** [urllib.parse.urlunsplit(components)]. *)
Definition urlunsplit (c : SplitResult) : str :=
  let url := url_path c in
  let url :=
    if negb (is_empty (netloc c))
       || (negb (is_empty (scheme c))
           && existsb (str_eqb (scheme c)) uses_netloc
           && negb (str_eqb (firstn 2 url) (py "//")))
    then
      let url :=
        if negb (is_empty url) && negb (str_eqb (firstn 1 url) (py "/"))
        then py "/" ++ url else url in
      py "//" ++ netloc c ++ url
    else url in
  let url := if negb (is_empty (scheme c))
             then scheme c ++ py ":" ++ url else url in
  let url := if negb (is_empty (query c))
             then url ++ py "?" ++ query c else url in
  let url := if negb (is_empty (fragment c))
             then url ++ py "#" ++ fragment c else url in
  url.

(* ================================================================= *)
(** ** The file system, as the handler observes it *)

(** A regular file: whether [open(path, 'rb')] is permitted, what
    [os.fstat] reports of the open file (its size [st_size] and its
    modification time [st_mtime] in whole seconds), the bytes that reading
    it returns, and whether reading fails with an [OSError] after so many
    of them. *)
Record file := {
  f_readable : bool;
  f_size : N;
  f_mtime : Z;
  f_data : bytes;
  f_fails_after : option nat
}.

(** What lies at a path. A directory carries what [os.listdir] returns,
    [None] when listing raises [OSError]. *)
Inductive entry :=
| RegularFile (f : file)
| Directory (names : option (list str)).

(** What [os.stat] does with a path: it finds an entry, it raises
    [OSError] (nothing is there, or the way to it is barred), or it
    raises [ValueError] because the string is no path name for the
    system (it cannot be encoded for it). *)
Inductive stat_result :=
| Found (e : entry)
| NoEntry
| BadName.

Record FS := {
  stat : str -> stat_result;
  islink : str -> bool
}.

(** A call that returns or raises one of the two exceptions the handler
    meets in the file system. *)
Inductive attempt (A : Type) :=
| Returns (a : A)
| RaisesOSError
| RaisesValueError.

Arguments Returns {A} a.
Arguments RaisesOSError {A}.
Arguments RaisesValueError {A}.

Module os.

(** [os.stat(path)]: a string with a NUL character is refused before the
    system is asked ([ValueError: embedded null byte]). *)
Definition stat (fs : FS) (path : str) : stat_result :=
  if has_char (chr 0) path then BadName else stat fs path.

(** [os.path.isdir], [os.path.isfile] and [os.path.islink] catch both
    [OSError] and [ValueError] and answer [False]. *)
Definition isdir (fs : FS) (path : str) : bool :=
  match stat fs path with Found (Directory _) => true | _ => false end.

Definition isfile (fs : FS) (path : str) : bool :=
  match stat fs path with Found (RegularFile _) => true | _ => false end.

Definition islink (fs : FS) (path : str) : bool :=
  if has_char (chr 0) path then false else islink fs path.

(** [open(path, 'rb')]. *)
Definition open (fs : FS) (path : str) : attempt file :=
  match stat fs path with
  | Found (RegularFile f) =>
      if f_readable f then Returns f else RaisesOSError
  | Found (Directory _) | NoEntry => RaisesOSError
  | BadName => RaisesValueError
  end.

(** [os.listdir(path)]. *)
Definition listdir (fs : FS) (path : str) : attempt (list str) :=
  match stat fs path with
  | Found (Directory (Some names)) => Returns names
  | Found _ | NoEntry => RaisesOSError
  | BadName => RaisesValueError
  end.

End os.

(* ================================================================= *)
(** ** Requests, and what a handler writes *)

(** [email.utils.parsedate_to_datetime] of an [If-Modified-Since] value,
    as [send_head] uses it: ill-formed, a time in UTC (a naive time is
    taken as UTC), or a time in another zone. *)
Inductive ims_date :=
| ImsIllFormed
| ImsUtc (t : Z)
| ImsOtherZone.

(** The header fields the handler reads, after [http.client.parse_headers]. *)
Record headers := {
  If_Modified_Since : option ims_date;
  has_If_None_Match : bool;
  Connection : str;
  Expect : str
}.

Inductive headers_result :=
| HeadersOk (h : headers)
| HeadersLineTooLong (err : str)
| HeadersTooMany (err : str).

(** One request as read from the connection: the raw request line
    ([rfile.readline(65537)], decoded) and the outcome of reading the
    headers that follow it. *)
Record raw_request := {
  raw_requestline : str;
  raw_headers : headers_result
}.

Inductive wire_item :=
| StatusLine (version : str) (code : N) (message : str)
| HeaderLine (keyword value : str)
| EndHeaders
| Payload (data : bytes).

(** [errno] values the model distinguishes. *)
Inductive errno := EADDRINUSE | EACCES | EIO.

Inductive exn :=
| OSError (e : errno)
| ValueError
| KeyboardInterrupt.

(** [isinstance(e, Exception)]: [KeyboardInterrupt] derives from
    [BaseException] only. *)
Definition is_Exception (e : exn) : bool :=
  match e with
  | OSError _ | ValueError => true
  | KeyboardInterrupt => false
  end.

Inductive log_line :=
| LogRequest (requestline : str) (code : N)
| LogError (code : N) (message : str)
| LogTraceback (e : exn).

(** Output of a handler method: what went to [wfile], what went to
    [sys.stderr]. *)
Record out := {
  wire : list wire_item;
  log : list log_line
}.

Definition silent : out := {| wire := []; log := [] |}.
Definition emit (w : list wire_item) : out := {| wire := w; log := [] |}.
Definition note (l : log_line) : out := {| wire := []; log := [l] |}.
Definition seq (a b : out) : out :=
  {| wire := wire a ++ wire b; log := log a ++ log b |}.

Declare Scope out_scope.
Delimit Scope out_scope with out.
Infix ";;" := seq (at level 61, left associativity) : out_scope.
Local Open Scope out_scope.

(** The attributes of the handler object that the methods below read. *)
Record handler := {
  self_requestline : str;
  self_command : str;
  self_path : str;
  self_request_version : str;
  self_headers : headers
}.

(** The first status line written, if any. *)
Fixpoint status_of (w : list wire_item) : option N :=
  match w with
  | [] => None
  | StatusLine _ code _ :: _ => Some code
  | _ :: w' => status_of w'
  end.

(** Every status line written, in order. *)
Definition statuses_of (w : list wire_item) : list N :=
  flat_map (fun i => match i with StatusLine _ code _ => [code] | _ => [] end) w.

(** The value of the first header line with this keyword. *)
Fixpoint header_of (keyword : str) (w : list wire_item) : option str :=
  match w with
  | [] => None
  | HeaderLine k v :: w' =>
      if str_eqb k keyword then Some v else header_of keyword w'
  | _ :: w' => header_of keyword w'
  end.

(** Everything written after the headers. *)
Definition body_of (w : list wire_item) : bytes :=
  flat_map (fun i => match i with Payload d => d | _ => [] end) w.

(* ================================================================= *)
(** ** [http.server.BaseHTTPRequestHandler] *)

Definition protocol_version : str := py "HTTP/1.0".
Definition server_version : str := py "SimpleHTTP/0.6".
Definition error_content_type : str := py "text/html;charset=utf-8".

(** The entries of [BaseHTTPRequestHandler.responses] (phrase and
    description of [http.HTTPStatus]) for the codes the handler sends. *)
Definition responses_table : list (N * (str * str)) :=
  [ (100, (py "Continue", py "Request received, please continue"));
    (200, (py "OK", py "Request fulfilled, document follows"));
    (301, (py "Moved Permanently",
           py "Object moved permanently -- see URI list"));
    (304, (py "Not Modified",
           py "Document has not changed since given time"));
    (400, (py "Bad Request",
           py "Bad request syntax or unsupported method"));
    (404, (py "Not Found", py "Nothing matches the given URI"));
    (414, (py "Request-URI Too Long", py "URI is too long"));
    (431, (py "Request Header Fields Too Large",
           py "The server is unwilling to process the request because its "
           ++ py "header fields are too large"));
    (501, (py "Not Implemented",
           py "Server does not support this operation"));
    (505, (py "HTTP Version Not Supported", py "Cannot fulfill request")) ]%N.

Definition responses (code : N) : option (str * str) :=
  option_map snd (find (fun e => N.eqb (fst e) code) responses_table).

(** [DEFAULT_ERROR_MESSAGE % {'code': .., 'message': .., 'explain': ..}]. *)
Definition error_message_format (code : N) (message explain : str) : str :=
  py "<!DOCTYPE HTML>" ++ LF ++
  py "<html lang=" ++ dq ++ py "en" ++ dq ++ py ">" ++ LF ++
  py "    <head>" ++ LF ++
  py "        <meta charset=" ++ dq ++ py "utf-8" ++ dq ++ py ">" ++ LF ++
  py "        <title>Error response</title>" ++ LF ++
  py "    </head>" ++ LF ++
  py "    <body>" ++ LF ++
  py "        <h1>Error response</h1>" ++ LF ++
  py "        <p>Error code: " ++ str_of_N code ++ py "</p>" ++ LF ++
  py "        <p>Message: " ++ message ++ py ".</p>" ++ LF ++
  py "        <p>Error code explanation: " ++ str_of_N code ++ py " - "
     ++ explain ++ py ".</p>" ++ LF ++
  py "    </body>" ++ LF ++
  py "</html>" ++ LF.

Section BaseHTTPRequestHandler.

Variable L : Lib.

Definition version_string : str := server_version ++ py " " ++ sys_version L.

Definition date_time_string (timestamp : option Z) : str :=
  formatdate L (match timestamp with Some t => t | None => time_now L end).

Definition is_http09 (self : handler) : bool :=
  str_eqb (self_request_version self) (py "HTTP/0.9").

Definition send_response_only (self : handler) (code : N)
    (message : option str) : out :=
  if negb (is_http09 self) then
    let message :=
      match message with
      | Some m => m
      | None => match responses code with
                | Some (phrase, _) => phrase
                | None => []
                end
      end in
    emit [StatusLine protocol_version code message]
  else silent.

Definition send_header (self : handler) (keyword value : str) : out :=
  if negb (is_http09 self) then emit [HeaderLine keyword value]
  else silent.

Definition end_headers (self : handler) : out :=
  if negb (is_http09 self) then emit [EndHeaders] else silent.

Definition log_request (self : handler) (code : N) : out :=
  note (LogRequest (self_requestline self) code).

Definition send_response (self : handler) (code : N)
    (message : option str) : out :=
  log_request self code ;;
  send_response_only self code message ;;
  send_header self (py "Server") version_string ;;
  send_header self (py "Date") (date_time_string None).

(** [send_error(code, message, explain)].  It always sends
    [Connection: close], which sets [close_connection]. *)
Definition send_error (self : handler) (code : N)
    (message explain : option str) : out :=
  let '(shortmsg, longmsg) :=
    match responses code with
    | Some p => p
    | None => (py "???", py "???")
    end in
  let message := match message with Some m => m | None => shortmsg end in
  let explain := match explain with Some e => e | None => longmsg end in
  let body :=
    if (200 <=? code)%N
       && negb (existsb (N.eqb code) [204; 205; 304]%N)
    then Some (encode_utf8 L (error_message_format code
                                (html_escape message)
                                (html_escape explain)))
    else None in
  note (LogError code message) ;;
  send_response self code (Some message) ;;
  send_header self (py "Connection") (py "close") ;;
  match body with
  | Some b =>
      send_header self (py "Content-Type") error_content_type ;;
      send_header self (py "Content-Length")
        (str_of_N (N.of_nat (List.length b)))
  | None => silent
  end ;;
  end_headers self ;;
  match body with
  | Some b =>
      if negb (str_eqb (self_command self) (py "HEAD")) && negb (is_empty b)
      then emit [Payload b] else silent
  | None => silent
  end.

(** The version check of [parse_request]: the [try] block that turns
    [version] into [version_number]; [None] is the [ValueError] (or
    [IndexError]) it catches. *)
Definition version_number (version : str) : option (Z * Z) :=
  if negb (startswith version (py "HTTP/")) then None
  else
    match after slash version with
    | None => None
    | Some base_version_number =>
        match split (chr 46) base_version_number with
        | [major; minor] =>
            match int L major, int L minor with
            | Some a, Some b => Some (a, b)
            | _, _ => None
            end
        | _ => None
        end
    end.

(** [version_number >= (a, b)] on tuples. *)
Definition version_geb (v : Z * Z) (w : Z * Z) : bool :=
  ((fst w <? fst v) || ((fst v =? fst w) && (snd w <=? snd v)))%Z.

(** What [parse_request] leaves behind: on success the handler
    attributes, anything already written (the reply to
    [Expect: 100-continue]) and [close_connection]; on failure the error
    response it has sent. *)
Inductive parsed :=
| ParseOk (self : handler) (sent : out) (close_connection : bool)
| ParseFailed (sent : out).

Definition handle_expect_100 (self : handler) : out :=
  send_response_only self 100 None ;; end_headers self.

Definition parse_request (raw : raw_request) : parsed :=
  let requestline := rstrip_chars CRLF (raw_requestline raw) in
  let words := split_ws requestline in
  (* [self.command = None], [self.request_version = "HTTP/0.9"] *)
  let self0 := {| self_requestline := requestline; self_command := [];
                  self_path := []; self_request_version := py "HTTP/0.9";
                  self_headers := {| If_Modified_Since := None;
                             has_If_None_Match := false;
                             Connection := []; Expect := [] |} |} in
  if no_items words then ParseFailed silent
  else
    let check_version :=
      if (3 <=? List.length words)%nat then
        let version := last words [] in
        match version_number version with
        | None =>
            inr (send_error self0 400
                   (Some (py "Bad request version (" ++ repr L version
                          ++ py ")")) None)
        | Some vn =>
            let close :=
              negb (version_geb vn (1, 1)%Z
                    && str_geb protocol_version (py "HTTP/1.1")) in
            if version_geb vn (2, 0)%Z then
              inr (send_error self0 505
                     (Some (py "Invalid HTTP version ("
                            ++ match after slash version with
                               | Some b => b | None => [] end
                            ++ py ")")) None)
            else inl (version, close)
        end
      else inl (py "HTTP/0.9", true) in
    match check_version with
    | inr sent => ParseFailed sent
    | inl (version, close) =>
        let self1 := {| self_requestline := requestline; self_command := [];
                        self_path := []; self_request_version := version;
                        self_headers := self_headers self0 |} in
        match words with
        | command :: path :: rest =>
            if negb (List.length rest <=? 1)%nat then
              ParseFailed (send_error self1 400
                (Some (py "Bad request syntax (" ++ repr L requestline
                       ++ py ")")) None)
            else if no_items rest
                    && negb (str_eqb command (py "GET")) then
              ParseFailed (send_error self1 400
                (Some (py "Bad HTTP/0.9 request type (" ++ repr L command
                       ++ py ")")) None)
            else
              let close := if no_items rest then true else close in
              let path :=
                if startswith path (py "//")
                then py "/" ++ lstrip_by (Ascii.eqb slash) path
                else path in
              let self2 := {| self_requestline := requestline;
                              self_command := command; self_path := path;
                              self_request_version := version;
                              self_headers := self_headers self0 |} in
              match raw_headers raw with
              | HeadersLineTooLong err =>
                  ParseFailed (send_error self2 431
                                 (Some (py "Line too long")) (Some err))
              | HeadersTooMany err =>
                  ParseFailed (send_error self2 431
                                 (Some (py "Too many headers")) (Some err))
              | HeadersOk h =>
                  let self3 := {| self_requestline := requestline;
                                  self_command := command; self_path := path;
                                  self_request_version := version;
                                  self_headers := h |} in
                  let conntype := lower L (Connection h) in
                  let close :=
                    if str_eqb conntype (py "close") then true
                    else if str_eqb conntype (py "keep-alive")
                            && str_geb protocol_version (py "HTTP/1.1")
                    then false
                    else close in
                  if str_eqb (lower L (Expect h)) (py "100-continue")
                     && str_geb protocol_version (py "HTTP/1.1")
                     && str_geb version (py "HTTP/1.1")
                  then ParseOk self3 (handle_expect_100 self3) close
                  else ParseOk self3 silent close
              end
        | _ =>
            ParseFailed (send_error self1 400
              (Some (py "Bad request syntax (" ++ repr L requestline
                     ++ py ")")) None)
        end
    end.

End BaseHTTPRequestHandler.

(* ================================================================= *)
(** ** [http.server.SimpleHTTPRequestHandler] *)

(** [SimpleHTTPRequestHandler.extensions_map]. *)
Definition extensions_map : list (str * str) :=
  [ (py ".gz", py "application/gzip");
    (py ".Z", py "application/octet-stream");
    (py ".bz2", py "application/x-bzip2");
    (py ".xz", py "application/x-xz") ].

Definition extensions_map_get (ext : str) : option str :=
  option_map snd (find (fun e => str_eqb (fst e) ext) extensions_map).

(** [list.sort(key=...)]: a stable sort on the keys, by insertion. *)
Fixpoint insert_by (key : str -> str) (x : str) (l : list str) : list str :=
  match l with
  | [] => [x]
  | y :: l' =>
      if str_leb (key y) (key x) then y :: insert_by key x l'
      else x :: l
  end.

Definition sort_by (key : str -> str) (l : list str) : list str :=
  fold_left (fun acc x => insert_by key x acc) l [].

(** What [send_head] returns to [do_GET] and [do_HEAD]. *)
Inductive fileobj :=
| DiskFile (f : file)
| BytesIO (data : bytes).

Inductive head_result :=
| Opened (sent : out) (f : fileobj)
| Finished (sent : out)
| Raised (sent : out) (e : exn).

(** What handling one request amounts to. *)
Record result := {
  sent : out;
  raised : option exn;
  close_connection : bool
}.

Section SimpleHTTPRequestHandler.

Variable L : Lib.
Variable fs : FS.

(** [self.directory]: [os.getcwd()] when the handler was built. *)
Variable directory : str.

(** The [try/except UnicodeDecodeError] around [unquote]. *)
Definition unquote_path (s : str) (fallback : str) : str :=
  match unquote_surrogatepass L s with
  | Some t => t
  | None => unquote L fallback
  end.

(** The loop body of [translate_path]. *)
Definition translate_step (path word : str) : str :=
  if negb (is_empty (posixpath.dirname word))
     || str_eqb word posixpath.curdir || str_eqb word posixpath.pardir
  then path
  else posixpath.join path word.

Definition translate_path (path : str) : str :=
  let path := before (chr 63) path in
  let path := before (chr 35) path in
  let trailing_slash := endswith (rstrip path) (py "/") in
  let path := unquote_path path path in
  let path := posixpath.normpath path in
  let words := split slash path in
  let words := filter (fun w => negb (is_empty w)) words in
  let path := fold_left translate_step words directory in
  if trailing_slash then path ++ py "/" else path.

Definition guess_type (path : str) : str :=
  let ext := posixpath.splitext_ext path in
  match extensions_map_get ext with
  | Some t => t
  | None =>
      let ext := lower L ext in
      match extensions_map_get ext with
      | Some t => t
      | None =>
          match mimetypes_guess_type L path with
          | Some guess =>
              if negb (is_empty guess) then guess
              else py "application/octet-stream"
          | None => py "application/octet-stream"
          end
      end
  end.

(** One [<li>] of the listing, for the directory entry [name]. *)
Definition list_item (path name : str) : str :=
  let fullname := posixpath.join path name in
  let displayname := name in
  let linkname := name in
  let '(displayname, linkname) :=
    if os.isdir fs fullname then (name ++ py "/", name ++ py "/")
    else (displayname, linkname) in
  let displayname :=
    if os.islink fs fullname then name ++ py "@" else displayname in
  py "<li><a href=" ++ dq ++ quote L linkname ++ dq ++ py ">"
    ++ html_escape displayname ++ py "</a></li>".

(** The text [list_directory] builds, before it is encoded. *)
Definition listing_text (self : handler) (path : str) (names : list str)
    : str :=
  let names := sort_by (lower L) names in
  let displaypath := unquote_path (self_path self) path in
  let displaypath := html_escape displaypath in
  let enc := getfilesystemencoding L in
  let title := py "Directory listing for " ++ displaypath in
  let r :=
    [ py "<!DOCTYPE HTML>";
      py "<html lang=" ++ dq ++ py "en" ++ dq ++ py ">";
      py "<head>";
      py "<meta charset=" ++ dq ++ enc ++ dq ++ py ">";
      py "<title>" ++ title ++ py "</title>" ++ LF ++ py "</head>";
      py "<body>" ++ LF ++ py "<h1>" ++ title ++ py "</h1>";
      py "<hr>" ++ LF ++ py "<ul>" ]
    ++ map (list_item path) names
    ++ [ py "</ul>" ++ LF ++ py "<hr>" ++ LF ++ py "</body>" ++ LF
         ++ py "</html>" ++ LF ] in
  str_join LF r.

(** [list_directory]: the [try] around [os.listdir] catches [OSError]
    only. *)
Definition list_directory (self : handler) (path : str) : head_result :=
  match os.listdir fs path with
  | RaisesValueError => Raised silent ValueError
  | RaisesOSError =>
      Finished (send_error L self 404
                  (Some (py "No permission to list directory")) None)
  | Returns names =>
      let encoded := encode_fs L (listing_text self path names) in
      Opened
        (send_response L self 200 None ;;
         send_header self (py "Content-type")
           (py "text/html; charset=" ++ getfilesystemencoding L) ;;
         send_header self (py "Content-Length")
           (str_of_N (N.of_nat (List.length encoded))) ;;
         end_headers self)
        (BytesIO encoded)
  end.

(** The [for index in "index.html", "index.htm"] loop of [send_head]:
    the first of the two that is a regular file. *)
Definition find_index (path : str) : option str :=
  find (os.isfile fs)
    (map (posixpath.join path) [py "index.html"; py "index.htm"]).

(** The browser-cache test of [send_head]: is the file unchanged since
    the time the request names? *)
Definition not_modified (self : handler) (f : file) : bool :=
  match If_Modified_Since (self_headers self) with
  | Some ims =>
      if negb (has_If_None_Match (self_headers self)) then
        match ims with
        | ImsUtc t => (f_mtime f <=? t)%Z
        | ImsIllFormed | ImsOtherZone => false
        end
      else false
  | None => false
  end.

(** The status line and headers [send_head] writes for an opened
    file; size and time are those of [os.fstat(f.fileno())]. *)
Definition file_headers (self : handler) (ctype : str) (f : file) : out :=
  send_response L self 200 None ;;
  send_header self (py "Content-type") ctype ;;
  send_header self (py "Content-Length") (str_of_N (f_size f)) ;;
  send_header self (py "Last-Modified")
    (date_time_string L (Some (f_mtime f))) ;;
  end_headers self.

(** The part of [send_head] from [ctype = self.guess_type(path)] on.
    The [try] around [open] catches [OSError] only: a [ValueError]
    leaves the method before anything is written. *)
Definition send_file (self : handler) (path : str) : head_result :=
  let ctype := guess_type path in
  if endswith path (py "/") then
    Finished (send_error L self 404 (Some (py "File not found")) None)
  else
    match os.open fs path with
    | RaisesValueError => Raised silent ValueError
    | RaisesOSError =>
        Finished (send_error L self 404 (Some (py "File not found")) None)
    | Returns f =>
        if not_modified self f then
          Finished (send_response L self 304 None ;; end_headers self)
        else
          Opened (file_headers self ctype f) (DiskFile f)
    end.

Definition send_head (self : handler) : head_result :=
  let path := translate_path (self_path self) in
  if os.isdir fs path then
    match urlsplit L (self_path self) with
    | None => Raised silent ValueError
    | Some parts =>
        if negb (endswith (url_path parts) (py "/")) then
          let new_parts :=
            {| scheme := scheme parts; netloc := netloc parts;
               url_path := url_path parts ++ py "/";
               query := query parts; fragment := fragment parts |} in
          let new_url := urlunsplit new_parts in
          Finished
            (send_response L self 301 None ;;
             send_header self (py "Location") new_url ;;
             send_header self (py "Content-Length") (py "0") ;;
             end_headers self)
        else
          match find_index path with
          | Some index => send_file self index
          | None => list_directory self path
          end
    end
  else send_file self path.

(** [copyfile(f, self.wfile)] followed by [f.close()]. *)
Definition copyfile (f : fileobj) : out * option exn :=
  match f with
  | BytesIO data => (emit [Payload data], None)
  | DiskFile d =>
      match f_fails_after d with
      | None => (emit [Payload (f_data d)], None)
      | Some n => (emit [Payload (firstn n (f_data d))], Some (OSError EIO))
      end
  end.

Definition do_GET (self : handler) : out * option exn :=
  match send_head self with
  | Opened o f => let '(c, e) := copyfile f in (o ;; c, e)
  | Finished o => (o, None)
  | Raised o e => (o, Some e)
  end.

Definition do_HEAD (self : handler) : out * option exn :=
  match send_head self with
  | Opened o f => (o, None)
  | Finished o => (o, None)
  | Raised o e => (o, Some e)
  end.

(** [getattr(self, 'do_' + self.command)]: the class defines [do_GET]
    and [do_HEAD] and no other [do_] method. *)
Definition method (command : str) : option (handler -> out * option exn) :=
  if str_eqb command (py "GET") then Some do_GET
  else if str_eqb command (py "HEAD") then Some do_HEAD
  else None.

(** [handle_one_request], for a request line that was read (the caller
    [handle] deals with end of input). *)
Definition handle_one_request (raw : raw_request) : result :=
  if (65536 <? N.of_nat (List.length (raw_requestline raw)))%N then
    let self := {| self_requestline := []; self_command := []; self_path := [];
                   self_request_version := [];
                   self_headers := {| If_Modified_Since := None;
                              has_If_None_Match := false;
                              Connection := []; Expect := [] |} |} in
    {| sent := send_error L self 414 None None; raised := None;
       close_connection := true |}
  else if is_empty (raw_requestline raw) then
    {| sent := silent; raised := None; close_connection := true |}
  else
    match parse_request L raw with
    | ParseFailed o =>
        {| sent := o; raised := None; close_connection := true |}
    | ParseOk self o close =>
        match method (self_command self) with
        | None =>
            {| sent := o ;; send_error L self 501
                          (Some (py "Unsupported method ("
                                 ++ repr L (self_command self) ++ py ")")) None;
               raised := None; close_connection := true |}
        | Some m =>
            let '(o', e) := m self in
            {| sent := o ;; o'; raised := e; close_connection := close |}
        end
    end.

(** [handle]: requests are served from the connection until
    [close_connection] is set, the input ends or a method raises. *)
Fixpoint handle (requests : list raw_request) : out * option exn :=
  match requests with
  | [] => (silent, None)
  | raw :: rest =>
      let r := handle_one_request raw in
      match raised r with
      | Some e => (sent r, Some e)
      | None =>
          if close_connection r then (sent r, None)
          else let '(o, e) := handle rest in (sent r ;; o, e)
      end
  end.

End SimpleHTTPRequestHandler.

(* ================================================================= *)
(** ** [socketserver.TCPServer] and [server.py] *)

(** The operating system, as [server.py] meets it: [socket.bind] on an
    address ([None]: success), the working directory and the files. *)
Record OS := {
  bind : str -> N -> option errno;
  getcwd : str;
  files : FS
}.

(** What the accept loop meets, in order: a client that connects and
    sends requests, an [accept] that fails, or an interruption of the
    process from outside. *)
Inductive incoming :=
| Client (requests : list raw_request)
| AcceptFails
| Interrupt.

Inductive event :=
| EvBind (host : str) (port : N) (failure : option errno)
| EvListen
| EvStdout (text : str)
| EvStderr (l : log_line)
| EvSend (w : list wire_item)
| EvShutdownRequest
| EvServerClose.

(** Where the process stands after the events: still inside
    [serve_forever], or ended by an exception nobody caught. *)
Inductive status :=
| Serving
| Uncaught (e : exn).

Definition PORT : N := 8888.

Section Server.

Variable L : Lib.
Variable sys : OS.

(** [Handler = http.server.SimpleHTTPRequestHandler]. *)
Definition Handler (requests : list raw_request) : out * option exn :=
  handle L (files sys) (getcwd sys) requests.

(** The body of [_handle_request_noblock] once a connection is
    accepted: [process_request], with [handle_error] for an
    [Exception] and [shutdown_request] in every case.  The exception
    returned is one that is raised again. *)
Definition process_request (requests : list raw_request)
    : list event * option exn :=
  let '(o, e) := Handler requests in
  let served := EvSend (wire o) :: map EvStderr (log o) in
  match e with
  | None => (served ++ [EvShutdownRequest], None)
  | Some e =>
      if is_Exception e
      then (served ++ [EvStderr (LogTraceback e); EvShutdownRequest], None)
      else (served ++ [EvShutdownRequest], Some e)
  end.

(** [serve_forever], over what arrives. *)
Fixpoint serve_forever (arrivals : list incoming)
    : list event * option exn :=
  match arrivals with
  | [] => ([], None)
  | Client requests :: rest =>
      match process_request requests with
      | (t, Some e) => (t, Some e)
      | (t, None) => let '(t', e) := serve_forever rest in (t ++ t', e)
      end
  | AcceptFails :: rest => serve_forever rest
  | Interrupt :: _ => ([], Some KeyboardInterrupt)
  end.

(** [server.py], top to bottom. *)
Definition main (arrivals : list incoming) : list event * status :=
  match bind sys [] PORT with
  | Some err =>
      ([EvBind [] PORT (Some err); EvServerClose;
        EvStderr (LogTraceback (OSError err))],
       Uncaught (OSError err))
  | None =>
      let announce :=
        EvStdout (py "Serving at http://localhost:" ++ str_of_N PORT ++ LF) in
      match serve_forever arrivals with
      | (t, None) =>
          ([EvBind [] PORT None; EvListen; announce] ++ t, Serving)
      | (t, Some e) =>
          ([EvBind [] PORT None; EvListen; announce] ++ t
           ++ [EvServerClose; EvStderr (LogTraceback e)],
           Uncaught e)
      end
  end.

End Server.

(** The lines written to standard output. *)
Definition stdout_of (t : list event) : list str :=
  flat_map (fun e => match e with EvStdout s => [s] | _ => [] end) t.

(** The bind attempts made. *)
Definition binds_of (t : list event) : list (str * N) :=
  flat_map (fun e => match e with EvBind h p _ => [(h, p)] | _ => [] end) t.

(** The connections that were handled and closed. *)
Definition served_of (t : list event) : nat :=
  List.length (filter (fun e => match e with EvShutdownRequest => true
                                        | _ => false end) t).

Definition clients_of (arrivals : list incoming) : nat :=
  List.length (filter (fun a => match a with Client _ => true
                                        | _ => false end) arrivals).

Definition interrupted (arrivals : list incoming) : bool :=
  existsb (fun a => match a with Interrupt => true | _ => false end) arrivals.

(* ================================================================= *)
(** ** Vocabulary of the statements *)

(** A file name as [os.listdir] returns them: not empty, without ['/'],
    and neither ["."] nor [".."]. *)
Definition simple_name (w : str) : bool :=
  negb (is_empty w) && negb (has_char slash w)
  && negb (str_eqb w posixpath.curdir) && negb (str_eqb w posixpath.pardir).

(** A character that stands for itself in a request target: no
    whitespace (the request line is split on it), no NUL or ['/'] (no
    file name holds them), no ['%'], ['?'] or ['#']. *)
Definition plain_char (c : ascii) : bool :=
  negb (isspace c)
  && negb (existsb (Ascii.eqb c) [chr 0; slash; chr 37; chr 63; chr 35]).

(** A file name that can be requested as it is spelled. *)
Definition plain_name (w : str) : bool :=
  negb (is_empty w) && forallb plain_char w
  && negb (str_eqb w posixpath.curdir) && negb (str_eqb w posixpath.pardir).

(** [os.path.join(directory, w1, ..., wn)]. *)
Definition join_all (directory : str) (ws : list str) : str :=
  fold_left posixpath.join ws directory.

(** The request targets ["/w1/.../wn"] and ["/w1/.../wn/"]. *)
Definition url_of (ws : list str) : str := py "/" ++ str_join (py "/") ws.
Definition dir_url_of (ws : list str) : str :=
  py "/" ++ List.concat (map (fun w => w ++ py "/") ws).

(** [p] is [d] followed by components none of which is ["."] or [".."]:
    read component by component, [p] does not leave [d]. *)
Definition no_dots (w : str) : bool :=
  negb (str_eqb w posixpath.curdir) && negb (str_eqb w posixpath.pardir).

Definition under (d p : str) : Prop :=
  exists rest,
    p = d ++ rest
    /\ (is_empty rest || startswith rest (py "/")
        || is_empty d || endswith d (py "/")) = true
    /\ forallb no_dots (split slash rest) = true.

(** Two file systems that cannot be told apart under [d]. *)
Definition agree_under (d : str) (fs1 fs2 : FS) : Prop :=
  forall p, under d p -> stat fs1 p = stat fs2 p /\ islink fs1 p = islink fs2 p.

(** Directory listings hold file names. *)
Definition listings_hold_names (fs : FS) : Prop :=
  forall p names,
    stat fs p = Found (Directory (Some names)) ->
    forallb simple_name names = true.

(** [urllib.parse.unquote] returns a string without ['%'] as it is (its
    first test: [if '%' not in string: return string]). *)
Definition unquote_plain (L : Lib) : Prop :=
  forall s, has_char (chr 37) s = false -> unquote_surrogatepass L s = Some s.

(** A target that [urlsplit] takes for a path and nothing else: it starts
    with one ['/'] and holds no whitespace, ['?'] or ['#']. *)
Definition plain_url (u : str) : bool :=
  startswith u (py "/") && negb (startswith u (py "//"))
  && forallb (fun c => negb (isspace c)
                       && negb (existsb (Ascii.eqb c) [chr 63; chr 35])) u.

(** [urllib.parse.urlsplit] on such a target: nothing is stripped, no
    scheme is found (the first character is not a letter), no netloc
    (no leading ["//"]), no query, no fragment. *)
Definition urlsplit_plain (L : Lib) : Prop :=
  forall u, plain_url u = true ->
    urlsplit L u = Some {| scheme := []; netloc := []; url_path := u;
                           query := []; fragment := [] |}.

(** The request line was read within the 65536-byte limit and
    [parse_request] returned [True], leaving the attributes [self]. *)
Definition accepts (L : Lib) (raw : raw_request) (self : handler) : Prop :=
  (N.of_nat (List.length (raw_requestline raw)) <= 65536)%N
  /\ exists o c, parse_request L raw = ParseOk self o c.

(** The request names a version other than the default ["HTTP/0.9"], for
    which no status line and no header is written. *)
Definition http1x (self : handler) : Prop :=
  is_http09 self = false.

(** [raw] is read and parsed as a request with method [cmd] for the
    target [target], in a version that has status lines. *)
Definition is_request (L : Lib) (raw : raw_request) (self : handler)
    (cmd target : str) : Prop :=
  accepts L raw self /\ http1x self
  /\ self_command self = cmd /\ self_path self = target.

(** The request passes the browser-cache test of [send_head] for the
    file [f]: it names a time in UTC and no [If-None-Match], and [f] was
    last modified at or before that time. *)
Definition cache_hit (self : handler) (f : file) : Prop :=
  exists t,
    If_Modified_Since (self_headers self) = Some (ImsUtc t)
    /\ has_If_None_Match (self_headers self) = false
    /\ (f_mtime f <= t)%Z.

(** The target [t] percent-decodes to [u]: [unquote] with
    [errors='surrogatepass'] returns [u], or it raises
    [UnicodeDecodeError] and plain [unquote] returns [u]. *)
Definition decodes (L : Lib) (t u : str) : Prop :=
  unquote_surrogatepass L t = Some u
  \/ unquote_surrogatepass L t = None /\ unquote L t = u.

(** The target [t] is a spelling of the path ["/w1/.../wn"]: it holds no
    query and no fragment, and it percent-decodes to the names joined by
    slashes, with or without a final one. *)
Definition spells (L : Lib) (t : str) (ws : list str) : Prop :=
  has_char (chr 63) t = false /\ has_char (chr 35) t = false
  /\ (decodes L t (url_of ws) \/ decodes L t (dir_url_of ws)).

(** Nothing lies at the path [p], asked for with or without a final
    slash. *)
Definition nothing_at (fs : FS) (p : str) : Prop :=
  os.stat fs p = NoEntry /\ os.stat fs (p ++ py "/") = NoEntry.

(** [index] is the index file of the directory [D] (a path with its
    final slash): the regular file [D/index.html] or, when there is no
    regular file of that name, the regular file [D/index.htm]. *)
Definition index_of (fs : FS) (D index : str) : Prop :=
  (index = D ++ py "index.html"
   \/ index = D ++ py "index.htm"
      /\ os.isfile fs (D ++ py "index.html") = false)
  /\ os.isfile fs index = true.

(** The path of the file from which a GET for the target [t], a spelling
    of ["/w1/.../wn"], is answered: the path itself when [t] has no final
    slash, the index file of the directory when it has one. *)
Definition answered_from (fs : FS) (d t : str) (ws : list str) (p : str)
    : Prop :=
  endswith t (py "/") = false /\ ws <> [] /\ p = join_all d ws
  \/ endswith t (py "/") = true /\ startswith t (py "/") = true
     /\ os.isdir fs (join_all d ws ++ py "/") = true
     /\ index_of fs (join_all d ws ++ py "/") p.

(** Reading a regular file returns as many bytes as [os.fstat] reported:
    no file changes while it is served. *)
Definition sizes_are_exact (fs : FS) : Prop :=
  forall p f,
    stat fs p = Found (RegularFile f) ->
    f_size f = N.of_nat (List.length (f_data f)).

(** The path [send_head] passes to [open], when it gets that far: the
    translated target or, for a directory, its index file. *)
Definition opened_path (L : Lib) (fs : FS) (d : str) (self : handler)
    : option str :=
  let path := translate_path L d (self_path self) in
  if os.isdir fs path then find_index fs path else Some path.

(** [sub] occurs in [s]. *)
Definition infix (sub s : str) : Prop := exists a b, s = a ++ sub ++ b.

(** A character that may occur in a target spelled out of plain names. *)
Definition url_char (c : ascii) : bool :=
  negb (isspace c) && negb (existsb (Ascii.eqb c) [chr 37; chr 63; chr 35]).

(** Handling the connection [requests] leaves the accept loop running:
    whatever arrives next is served as it would have been without it. *)
Definition keeps_serving (L : Lib) (sys : OS) (requests : list raw_request)
    : Prop :=
  forall rest,
    serve_forever L sys (Client requests :: rest)
    = (fst (process_request L sys requests) ++ fst (serve_forever L sys rest),
       snd (serve_forever L sys rest)).

(** A 500-class status code. *)
Definition server_error (code : N) : bool := ((500 <=? code) && (code <? 600))%N.

(* ================================================================= *)
(** ** Vocabulary of the further properties *)

Definition header_lines (hs : list (str * str)) : list wire_item :=
  map (fun kv => HeaderLine (fst kv) (snd kv)) hs.

(** A whole reply: for an HTTP/0.9 request the body alone, otherwise
    the status line, the header lines, the blank line and the body. *)
Definition reply (http09 : bool) (code : N) (message : str)
    (hs : list (str * str)) (chunks : list bytes) : list wire_item :=
  (if http09 then []
   else StatusLine protocol_version code message
        :: header_lines hs ++ [EndHeaders])
  ++ map Payload chunks.

(** The value of the first field with this keyword. *)
Fixpoint field_of (keyword : str) (hs : list (str * str)) : option str :=
  match hs with
  | [] => None
  | (k, v) :: hs' => if str_eqb k keyword then Some v else field_of keyword hs'
  end.

Definition is_payload (i : wire_item) : bool :=
  match i with Payload _ => true | _ => false end.

(** Nothing but body bytes. *)
Definition payloads_only (w : list wire_item) : bool := forallb is_payload w.

(** Header lines, the blank line, then nothing but body bytes. *)
Fixpoint headers_then_body (w : list wire_item) : bool :=
  match w with
  | HeaderLine _ _ :: w' => headers_then_body w'
  | EndHeaders :: w' => payloads_only w'
  | _ => false
  end.

(** One status line first, then headers, the blank line and the body. *)
Definition framed (w : list wire_item) : bool :=
  match w with
  | StatusLine _ _ _ :: w' => headers_then_body w'
  | _ => false
  end.

(** The status codes the handler has a path to. *)
Definition sent_statuses : list N :=
  [200; 301; 304; 400; 404; 414; 431; 501; 505]%N.

(** The same request with another method. *)
Definition with_command (cmd : str) (self : handler) : handler :=
  {| self_requestline := self_requestline self; self_command := cmd;
     self_path := self_path self;
     self_request_version := self_request_version self;
     self_headers := self_headers self |}.

(** What [do_GET] and [do_HEAD] do with the result of [send_head]. *)
Definition finish_GET (r : head_result) : out * option exn :=
  match r with
  | Opened o f => let '(c, e) := copyfile f in (seq o c, e)
  | Finished o => (o, None)
  | Raised o e => (o, Some e)
  end.

Definition finish_HEAD (r : head_result) : out * option exn :=
  match r with
  | Opened o f => (o, None)
  | Finished o => (o, None)
  | Raised o e => (o, Some e)
  end.

(** The joint description of a reply to GET and to HEAD, for a result
    of [send_head] that may have opened the file at [path]: the same
    status line and headers, with the body for GET and without it for
    HEAD. *)
Definition joint_reply (fs : FS) (self : handler) (codes : list N)
    (path : option str) (rg rh : head_result) : Prop :=
  exists code m hs chunks,
    In code codes
    /\ wire (fst (finish_GET rg)) = reply (is_http09 self) code m hs chunks
    /\ wire (fst (finish_HEAD rh)) = reply (is_http09 self) code m hs []
    /\ (sizes_are_exact fs -> snd (finish_GET rg) = None ->
        forall v, field_of (py "Content-Length") hs = Some v ->
                  v = str_of_N (N.of_nat (List.length (List.concat chunks))))
    /\ (code = 304%N ->
        exists p f,
          path = Some p /\ os.open fs p = Returns f /\ cache_hit self f)
    /\ (forall e, snd (finish_GET rg) = Some e -> code = 200%N).

(** The request [raw] was accepted, [send_head] opened a file for it,
    and the request passes the browser-cache test for that file. *)
Definition served_from_cache (L : Lib) (fs : FS) (d : str)
    (raw : raw_request) : Prop :=
  exists self o cl p f,
    parse_request L raw = ParseOk self o cl
    /\ opened_path L fs d self = Some p
    /\ os.open fs p = Returns f
    /\ cache_hit self f.

(** What is left of a reply without its body. *)
Definition without_body (w : list wire_item) : list wire_item :=
  filter (fun i => negb (is_payload i)) w.

(* ================================================================= *)
(** ** A small environment for the examples *)

Module Demo.

Definition hex_val (c : ascii) : option N :=
  let n := ord c in
  if ((48 <=? n) && (n <=? 57))%N then Some (n - 48)%N
  else if ((65 <=? n) && (n <=? 70))%N then Some (n - 55)%N
  else if ((97 <=? n) && (n <=? 102))%N then Some (n - 87)%N
  else None.

Definition hex2 (a b : ascii) : option ascii :=
  match hex_val a, hex_val b with
  | Some x, Some y =>
      if (16 * x + y <? 128)%N then Some (ascii_of_N (16 * x + y)) else None
  | _, _ => None
  end.

(** Percent decoding of the escapes below [%80]. *)
Fixpoint pct_unquote (s : str) : str :=
  match s with
  | [] => []
  | c :: s' =>
      match s' with
      | a :: b :: s'' =>
          if Ascii.eqb c (chr 37) then
            match hex2 a b with
            | Some d => d :: pct_unquote s''
            | None => c :: pct_unquote s'
            end
          else c :: pct_unquote s'
      | _ => c :: pct_unquote s'
      end
  end.

Definition hex_digit (n : N) : ascii :=
  ascii_of_N (if (n <? 10)%N then 48 + n else 55 + n)%N.

(** Percent encoding of the ASCII characters outside [quote]'s safe
    set (letters, digits and [_.-~/]). *)
Definition quote_char (c : ascii) : str :=
  let n := ord c in
  if ((48 <=? n) && (n <=? 57) || (65 <=? n) && (n <=? 90)
      || (97 <=? n) && (n <=? 122))%N
     || existsb (Ascii.eqb c) (py "_.-~/")
  then [c]
  else [chr 37; hex_digit (n / 16); hex_digit (n mod 16)].

Definition lower_char (c : ascii) : ascii :=
  let n := ord c in
  if ((65 <=? n) && (n <=? 90))%N then ascii_of_N (n + 32) else c.

Definition digit (c : ascii) : option Z :=
  let n := ord c in
  if ((48 <=? n) && (n <=? 57))%N then Some (Z.of_N (n - 48)) else None.

Definition digits_int (s : str) : option Z :=
  if is_empty s then None
  else fold_left (fun acc c =>
                    match acc, digit c with
                    | Some a, Some d => Some (10 * a + d)%Z
                    | _, _ => None
                    end) s (Some 0%Z).

Definition path_urlsplit (u : str) : option SplitResult :=
  let url := before (chr 35) u in
  Some {| scheme := []; netloc := [];
          url_path := before (chr 63) url;
          query := match after (chr 63) url with Some q => q | None => [] end;
          fragment := match after (chr 35) u with Some f => f | None => [] end |}.

Definition mime (p : str) : option str :=
  let ext := posixpath.splitext_ext p in
  if str_eqb ext (py ".html") then Some (py "text/html")
  else if str_eqb ext (py ".txt") then Some (py "text/plain")
  else None.

Definition lib : Lib :=
  {| unquote_surrogatepass := fun s => Some (pct_unquote s);
     unquote := pct_unquote;
     quote := flat_map quote_char;
     urlsplit := path_urlsplit;
     lower := map lower_char;
     repr := fun s => py "'" ++ s ++ py "'";
     int := digits_int;
     mimetypes_guess_type := mime;
     getfilesystemencoding := py "utf-8";
     encode_fs := fun s => s;
     encode_utf8 := fun s => s;
     formatdate := fun t => py "@" ++ str_of_N (Z.to_N t);
     time_now := 1000%Z;
     sys_version := py "Python/3.11.2" |}.

Definition regular (readable : bool) (data : string) (fails : option nat)
    : file :=
  {| f_readable := readable; f_size := N.of_nat (List.length (py data));
     f_mtime := 500%Z; f_data := py data; f_fails_after := fails |}.

Definition plain (data : string) : entry :=
  RegularFile (regular true data None).

Definition locked (data : string) : entry :=
  RegularFile (regular false data None).

Definition failing (data : string) : entry :=
  RegularFile (regular true data (Some 2)).

Definition dir (names : list string) : entry :=
  Directory (Some (map py names)).

(** The tree served: the working directory is [/srv/www]. *)
Definition table : list (string * entry) :=
  [ ("/srv/www", dir ["a.txt"; "docs"; "pub"; "vault"; "dark"; "locked.txt";
                      "bad.bin"; "my dir"]);
    ("/srv/www/", dir ["a.txt"; "docs"; "pub"; "vault"; "dark"; "locked.txt";
                       "bad.bin"; "my dir"]);
    ("/srv/www/a.txt", plain "hello");
    ("/srv/www/locked.txt", locked "secret");
    ("/srv/www/bad.bin", failing "abcdef");
    ("/srv/www/docs", dir ["index.html"; "notes.txt"]);
    ("/srv/www/docs/", dir ["index.html"; "notes.txt"]);
    ("/srv/www/docs/index.html", plain "<h1>hi</h1>");
    ("/srv/www/docs/notes.txt", plain "notes");
    ("/srv/www/pub", dir ["b&w.txt"; "Zed"; "x.gz"]);
    ("/srv/www/pub/", dir ["b&w.txt"; "Zed"; "x.gz"]);
    ("/srv/www/pub/b&w.txt", plain "bw");
    ("/srv/www/pub/Zed", dir []);
    ("/srv/www/pub/Zed/", dir []);
    ("/srv/www/pub/x.gz", plain "gz");
    ("/srv/www/vault", dir ["index.html"]);
    ("/srv/www/vault/", dir ["index.html"]);
    ("/srv/www/vault/index.html", locked "keep out");
    ("/srv/www/dark", Directory None);
    ("/srv/www/dark/", Directory None);
    ("/srv/www/my dir", dir ["index.htm"; "torn.bin"]);
    ("/srv/www/my dir/", dir ["index.htm"; "torn.bin"]);
    ("/srv/www/my dir/index.htm", failing "<p>torn</p>");
    ("/srv/www/my dir/torn.bin", failing "abcdef") ]%string.

Definition lookup (tbl : list (string * entry)) (p : str) : stat_result :=
  match find (fun e => str_eqb (py (fst e)) p) tbl with
  | Some e => Found (snd e)
  | None => NoEntry
  end.

Definition fs : FS :=
  {| stat := lookup table; islink := fun _ => false |}.

(** The same tree, with a file outside the working directory. *)
Definition fs_with_passwd : FS :=
  {| stat := lookup (("/etc/passwd", plain "root:x:0:0")%string :: table);
     islink := fun _ => false |}.

Definition cwd : str := py "/srv/www".

Definition no_headers : headers :=
  {| If_Modified_Since := None; has_If_None_Match := false;
     Connection := []; Expect := [] |}.

Definition request (line : string) : raw_request :=
  {| raw_requestline := py line ++ CRLF; raw_headers := HeadersOk no_headers |}.

Definition conditional_request (line : string) (t : Z) : raw_request :=
  {| raw_requestline := py line ++ CRLF;
     raw_headers := HeadersOk {| If_Modified_Since := Some (ImsUtc t);
                                 has_If_None_Match := false;
                                 Connection := []; Expect := [] |} |}.

(** The attributes [parse_request] leaves for [request line]. *)
Definition parsed (cmd target version : string) (h : headers) : handler :=
  {| self_requestline :=
       py cmd ++ py " " ++ py target ++ py " " ++ py version;
     self_command := py cmd; self_path := py target;
     self_request_version := py version; self_headers := h |}.

Definition serve (raw : raw_request) : result :=
  handle_one_request lib fs cwd raw.

Definition free_port : OS :=
  {| bind := fun _ _ => None; getcwd := cwd; files := fs |}.

Definition busy_port : OS :=
  {| bind := fun _ port => if N.eqb port 8888 then Some EADDRINUSE else None;
     getcwd := cwd; files := fs |}.

End Demo.

(* ================================================================= *)
(** * Proofs *)

(** ** The model on concrete requests *)

Example normpath_parent :
  posixpath.normpath (py "/a/../../b//c/./d/") = py "/b/c/d".
Proof. reflexivity. Qed.

Example normpath_relative : posixpath.normpath (py "../x") = py "../x".
Proof. reflexivity. Qed.

Example splitext_tar_gz :
  posixpath.splitext_ext (py "/x.d/a.tar.gz") = py ".gz".
Proof. reflexivity. Qed.

Example splitext_dotfile : posixpath.splitext_ext (py "/x/.bashrc") = [].
Proof. reflexivity. Qed.

Example translate_path_escapes :
  translate_path Demo.lib Demo.cwd (py "/%2e%2e/%2e%2e/etc/passwd")
  = py "/srv/www/etc/passwd".
Proof. reflexivity. Qed.

Example translate_path_query :
  translate_path Demo.lib Demo.cwd (py "/docs/../a.txt?x#y")
  = py "/srv/www/a.txt".
Proof. reflexivity. Qed.

Example translate_path_root :
  translate_path Demo.lib Demo.cwd (py "/") = py "/srv/www/".
Proof. reflexivity. Qed.

(** The scenario of the specification: an HTML file is served with
    status 200 and content type [text/html]; a missing file gets 404. *)
Example get_html_file :
  let r := Demo.serve (Demo.request "GET /docs/index.html HTTP/1.1") in
  status_of (wire (sent r)) = Some 200%N
  /\ header_of (py "Content-type") (wire (sent r)) = Some (py "text/html")
  /\ body_of (wire (sent r)) = py "<h1>hi</h1>".
Proof. repeat split; vm_compute; reflexivity. Qed.

Example get_missing_file :
  status_of (wire (sent (Demo.serve
               (Demo.request "GET /missing.txt HTTP/1.1")))) = Some 404%N.
Proof. vm_compute. reflexivity. Qed.

(** HEAD sends the headers of GET and no body. *)
Example head_file :
  let r := Demo.serve (Demo.request "HEAD /a.txt HTTP/1.1") in
  status_of (wire (sent r)) = Some 200%N /\ body_of (wire (sent r)) = [].
Proof. repeat split; vm_compute; reflexivity. Qed.

(** A request line without a version is an HTTP/0.9 request: the file
    is sent with no status line and no header. *)
Example get_http09 :
  wire (sent (Demo.serve (Demo.request "GET /a.txt")))
  = [Payload (py "hello")].
Proof. vm_compute. reflexivity. Qed.

(** Malformed request lines are refused before the method is looked at,
    and the refusal is written while [request_version] is still
    ["HTTP/0.9"]: the error page goes out without a status line. *)
Example post_without_version :
  let r := Demo.serve (Demo.request "POST /a.txt") in
  status_of (wire (sent r)) = None
  /\ log (sent r)
     = [LogError 400 (py "Bad HTTP/0.9 request type ('POST')");
        LogRequest (py "POST /a.txt") 400].
Proof. repeat split; vm_compute; reflexivity. Qed.

Example version_2_refused :
  let r := Demo.serve (Demo.request "GET /a.txt HTTP/2.0") in
  status_of (wire (sent r)) = None
  /\ log (sent r)
     = [LogError 505 (py "Invalid HTTP version (2.0)");
        LogRequest (py "GET /a.txt HTTP/2.0") 505].
Proof. repeat split; vm_compute; reflexivity. Qed.

(** With a query string the redirect puts the slash before the ['?']. *)
Example redirect_keeps_query :
  header_of (py "Location")
    (wire (sent (Demo.serve (Demo.request "GET /docs?x=1 HTTP/1.0"))))
  = Some (py "/docs/?x=1").
Proof. vm_compute. reflexivity. Qed.

(** A file requested with a final slash is not found. *)
Example file_with_slash :
  status_of (wire (sent (Demo.serve (Demo.request "GET /a.txt/ HTTP/1.0"))))
  = Some 404%N.
Proof. vm_compute. reflexivity. Qed.

(** ** Strings *)

Lemma str_eqb_eq (a b : str) : str_eqb a b = true <-> a = b.
Proof.
  revert b; induction a as [|c a IH]; intros [|d b]; simpl;
    try (split; (discriminate || reflexivity)).
  rewrite andb_true_iff, Ascii.eqb_eq, IH.
  split; [intros [-> ->]; reflexivity | intros H; inversion H; auto].
Qed.

Lemma str_eqb_neq (a b : str) : str_eqb a b = false <-> a <> b.
Proof.
  split.
  - intros H E. apply str_eqb_eq in E. congruence.
  - intros H. destruct (str_eqb a b) eqn:E; [|reflexivity].
    apply str_eqb_eq in E. contradiction.
Qed.

Lemma has_char_app (c : ascii) (a b : str) :
  has_char c (a ++ b) = has_char c a || has_char c b.
Proof. unfold has_char. apply existsb_app. Qed.

Lemma startswith_app (p s : str) : startswith (p ++ s) p = true.
Proof.
  induction p as [|c p IH]; simpl; [reflexivity|].
  rewrite Ascii.eqb_refl. exact IH.
Qed.

(** The last character decides [endswith] for a one-character suffix. *)
Lemma endswith_snoc (s : str) (c d : ascii) :
  endswith (s ++ [c]) [d] = Ascii.eqb d c.
Proof.
  unfold endswith. rewrite rev_app_distr. simpl.
  apply andb_true_r.
Qed.

Lemma contains_unfold (s sub : str) :
  contains s sub
  = startswith s sub
    || match s with [] => false | _ :: s' => contains s' sub end.
Proof. destruct s; reflexivity. Qed.

Lemma contains_infix (sub s : str) : infix sub s -> contains s sub = true.
Proof.
  intros (a & b & ->).
  induction a as [|c a IH].
  - rewrite contains_unfold. simpl app. rewrite startswith_app. reflexivity.
  - simpl. rewrite IH. apply orb_true_r.
Qed.

Lemma infix_refl (s : str) : infix s s.
Proof. exists [], []. rewrite app_nil_r. reflexivity. Qed.

Lemma infix_trans (a b c : str) : infix a b -> infix b c -> infix a c.
Proof.
  intros (x & y & ->) (u & v & ->).
  exists (u ++ x), (y ++ v). rewrite <- !app_assoc. reflexivity.
Qed.

Lemma infix_app_l (sub a b : str) : infix sub a -> infix sub (a ++ b).
Proof.
  intros (x & y & ->). exists x, (y ++ b).
  rewrite <- !app_assoc. reflexivity.
Qed.

Lemma infix_app_r (sub a b : str) : infix sub b -> infix sub (a ++ b).
Proof.
  intros (x & y & ->). exists (a ++ x), y.
  rewrite <- !app_assoc. reflexivity.
Qed.

(** An element of a joined list occurs in the text. *)
Lemma infix_str_join (sep w : str) (ws : list str) :
  In w ws -> infix w (str_join sep ws).
Proof.
  induction ws as [|v ws IH]; intros H; [contradiction|].
  destruct H as [-> | H].
  - destruct ws; simpl; [apply infix_refl|].
    apply infix_app_l, infix_refl.
  - destruct ws as [|u ws]; [contradiction|].
    change (str_join sep (v :: u :: ws))
      with (v ++ sep ++ str_join sep (u :: ws)).
    apply infix_app_r, infix_app_r, IH, H.
Qed.

Lemma split_not_nil (c : ascii) (s : str) : split c s <> [].
Proof.
  induction s as [|d s IH]; simpl; [discriminate|].
  destruct (Ascii.eqb d c); [discriminate|].
  destruct (split c s); [contradiction | discriminate].
Qed.

(** Splitting a text in which the separator does not occur. *)
Lemma split_nosep (c : ascii) (w : str) :
  has_char c w = false -> split c w = [w].
Proof.
  induction w as [|d w IH]; simpl; intros H; [reflexivity|].
  apply orb_false_iff in H as [H1 H2].
  rewrite Ascii.eqb_sym, H1, (IH H2). reflexivity.
Qed.

(** Splitting distributes over a separator. *)
Lemma split_app_sep (c : ascii) (a b : str) :
  split c (a ++ c :: b) = split c a ++ split c b.
Proof.
  induction a as [|d a IH]; simpl.
  - rewrite Ascii.eqb_refl. reflexivity.
  - destruct (Ascii.eqb d c); rewrite IH; [reflexivity|].
    destruct (split c a) eqn:E; [|reflexivity].
    exfalso. exact (split_not_nil _ _ E).
Qed.

(** The pieces of a split do not hold the separator. *)
Lemma split_pieces (c : ascii) (s w : str) :
  In w (split c s) -> has_char c w = false.
Proof.
  revert w; induction s as [|d s IH]; simpl; intros w H.
  - destruct H as [<- | []]. reflexivity.
  - destruct (Ascii.eqb d c) eqn:E.
    + destruct H as [<- | H]; [reflexivity | apply IH, H].
    + destruct (split c s) as [|v vs] eqn:Es.
      * exfalso. exact (split_not_nil _ _ Es).
      * destruct H as [<- | H].
        -- simpl. rewrite Ascii.eqb_sym, E. simpl.
           apply IH. left; reflexivity.
        -- apply IH. right; exact H.
Qed.

Lemma lstrip_by_all (p : ascii -> bool) (s : str) :
  forallb p s = true -> lstrip_by p s = [].
Proof.
  induction s as [|c s IH]; simpl; [reflexivity|].
  intros H. apply andb_true_iff in H as [-> H]. exact (IH H).
Qed.

Lemma lstrip_by_none (p : ascii -> bool) (s : str) :
  forallb (fun c => negb (p c)) s = true -> lstrip_by p s = s.
Proof.
  destruct s as [|c s]; simpl; [reflexivity|].
  intros H. apply andb_true_iff in H as [H _].
  apply negb_true_iff in H. rewrite H. reflexivity.
Qed.

Lemma forallb_rev {A} (p : A -> bool) (l : list A) :
  forallb p (rev l) = forallb p l.
Proof.
  induction l as [|x l IH]; simpl; [reflexivity|].
  rewrite forallb_app, IH. simpl. rewrite andb_true_r. apply andb_comm.
Qed.

(** [rstrip] leaves a text without whitespace alone. *)
Lemma rstrip_none (s : str) :
  forallb (fun c => negb (isspace c)) s = true -> rstrip s = s.
Proof.
  intros H. unfold rstrip, rstrip_by.
  rewrite lstrip_by_none by (rewrite forallb_rev; exact H).
  apply rev_involutive.
Qed.

(** [html.escape] works character by character. *)
Lemma html_escape_app (a b : str) :
  html_escape (a ++ b) = html_escape a ++ html_escape b.
Proof.
  unfold html_escape, replace. rewrite !flat_map_app. reflexivity.
Qed.

(** ** Paths *)

Arguments Ascii.eqb : simpl never.

Lemma startswith_cons (s p : str) (c d : ascii) :
  startswith (d :: s) (c :: p) = Ascii.eqb c d && startswith s p.
Proof. reflexivity. Qed.

Lemma double_slash (c : ascii) (s : str) :
  Ascii.eqb slash c = false -> startswith (slash :: c :: s) (py "//") = false.
Proof.
  intros H. change (py "//") with [slash; slash].
  rewrite !startswith_cons, H. apply andb_false_r.
Qed.

Lemma simple_name_inv (w : str) :
  simple_name w = true ->
  is_empty w = false /\ has_char slash w = false
  /\ str_eqb w posixpath.curdir = false
  /\ str_eqb w posixpath.pardir = false.
Proof.
  unfold simple_name. rewrite !andb_true_iff, !negb_true_iff. tauto.
Qed.

Lemma plain_name_inv (w : str) :
  plain_name w = true ->
  is_empty w = false /\ forallb plain_char w = true
  /\ str_eqb w posixpath.curdir = false
  /\ str_eqb w posixpath.pardir = false.
Proof.
  unfold plain_name. rewrite !andb_true_iff, !negb_true_iff. tauto.
Qed.

(** If every character passes a test that [c] fails, [c] does not occur. *)
Lemma has_char_forallb (p : ascii -> bool) (c : ascii) (s : str) :
  p c = false -> forallb p s = true -> has_char c s = false.
Proof.
  intros Hc. induction s as [|d s IH]; simpl; [reflexivity|].
  intros H. apply andb_true_iff in H as [Hd H].
  rewrite (IH H), orb_false_r.
  destruct (Ascii.eqb c d) eqn:E; [|reflexivity].
  apply Ascii.eqb_eq in E. subst d. congruence.
Qed.

Lemma forallb_weaken {A} (p q : A -> bool) (l : list A) :
  (forall x, p x = true -> q x = true) ->
  forallb p l = true -> forallb q l = true.
Proof.
  intros Hpq. rewrite !forallb_forall. auto.
Qed.

Lemma plain_name_simple (w : str) : plain_name w = true -> simple_name w = true.
Proof.
  intros H. apply plain_name_inv in H as (H1 & H2 & H3 & H4).
  unfold simple_name. rewrite H1, H3, H4.
  rewrite (has_char_forallb plain_char slash w); [reflexivity| |exact H2].
  reflexivity.
Qed.

Lemma plain_names_simple (ws : list str) :
  forallb plain_name ws = true -> forallb simple_name ws = true.
Proof. apply forallb_weaken, plain_name_simple. Qed.

Lemma is_empty_eqb (w : str) : str_eqb w [] = is_empty w.
Proof. destruct w; reflexivity. Qed.

(** [normpath] keeps a component that is a file name and drops an empty
    one. *)
Lemma normpath_fold (n : nat) (ws acc : list str) :
  forallb (fun w => is_empty w || simple_name w) ws = true ->
  fold_left (posixpath.normpath_step n) ws acc
  = acc ++ filter (fun w => negb (is_empty w)) ws.
Proof.
  revert acc; induction ws as [|w ws IH]; intros acc H; simpl in *.
  - symmetry; apply app_nil_r.
  - apply andb_true_iff in H as [Hw H]. rewrite (IH _ H).
    unfold posixpath.normpath_step. rewrite is_empty_eqb.
    destruct (is_empty w) eqn:E; simpl; [reflexivity|].
    simpl in Hw. apply simple_name_inv in Hw as (_ & _ & H1 & H2).
    rewrite H1, H2. simpl. rewrite <- app_assoc. reflexivity.
Qed.

Lemma filter_simple (ws : list str) :
  forallb simple_name ws = true ->
  filter (fun w => negb (is_empty w)) ws = ws.
Proof.
  induction ws as [|w ws IH]; simpl; [reflexivity|].
  intros H. apply andb_true_iff in H as [Hw H].
  apply simple_name_inv in Hw as (-> & _). simpl. rewrite (IH H). reflexivity.
Qed.

(** Joining file names with ['/'] and splitting again. *)
Lemma split_str_join (ws : list str) :
  ws <> [] -> forallb simple_name ws = true ->
  split slash (str_join [slash] ws) = ws.
Proof.
  induction ws as [|w ws IH]; [congruence|].
  intros _ H. simpl in H. apply andb_true_iff in H as [Hw H].
  apply simple_name_inv in Hw as (_ & Hw & _).
  destruct ws as [|v ws].
  - simpl. apply split_nosep, Hw.
  - change (str_join [slash] (w :: v :: ws))
      with (w ++ slash :: str_join [slash] (v :: ws)).
    rewrite split_app_sep, (split_nosep _ _ Hw), IH; [reflexivity| |exact H].
    discriminate.
Qed.

Lemma url_of_cons (ws : list str) : url_of ws = slash :: str_join [slash] ws.
Proof. reflexivity. Qed.

Lemma split_url_of (ws : list str) :
  forallb simple_name ws = true ->
  filter (fun w => negb (is_empty w)) (split slash (url_of ws)) = ws.
Proof.
  intros H. rewrite url_of_cons.
  change (slash :: str_join [slash] ws) with ([] ++ slash :: str_join [slash] ws).
  rewrite split_app_sep. simpl.
  destruct ws as [|w ws]; [reflexivity|].
  rewrite split_str_join by (discriminate || exact H).
  apply filter_simple, H.
Qed.

Lemma dir_url_of_cons (w : str) (ws : list str) :
  dir_url_of (w :: ws) = slash :: w ++ dir_url_of ws.
Proof.
  unfold dir_url_of. simpl. rewrite <- app_assoc. reflexivity.
Qed.

Lemma split_concat_dirs (ws : list str) :
  forallb simple_name ws = true ->
  split slash (List.concat (map (fun w => w ++ py "/") ws)) = ws ++ [[]].
Proof.
  induction ws as [|w ws IH]; intros H; [reflexivity|].
  simpl in H. apply andb_true_iff in H as [Hw H].
  apply simple_name_inv in Hw as (_ & Hw & _).
  simpl map. simpl List.concat. rewrite <- app_assoc.
  change (split slash
            (w ++ slash :: List.concat (map (fun w => w ++ py "/") ws))
          = (w :: ws) ++ [[]]).
  rewrite split_app_sep, (split_nosep _ _ Hw), (IH H). reflexivity.
Qed.

Lemma split_dir_url_of (ws : list str) :
  forallb simple_name ws = true ->
  split slash (dir_url_of ws) = [] :: ws ++ [[]].
Proof.
  intros H. unfold dir_url_of.
  change (split slash
            ([] ++ slash :: List.concat (map (fun w => w ++ py "/") ws))
          = [] :: ws ++ [[]]).
  rewrite split_app_sep, (split_concat_dirs _ H). reflexivity.
Qed.

(** The first name of a target keeps it from starting with ["//"]. *)
Lemma url_of_single_slash (ws : list str) :
  forallb simple_name ws = true -> startswith (url_of ws) (py "//") = false.
Proof.
  destruct ws as [|w ws]; [reflexivity|]. simpl forallb. intros H.
  apply andb_true_iff in H as [Hw _].
  apply simple_name_inv in Hw as (He & Hs & _).
  destruct w as [|c w]; [discriminate|].
  simpl in Hs. apply orb_false_iff in Hs as [Hs _].
  rewrite url_of_cons.
  destruct ws; apply double_slash, Hs.
Qed.

Lemma dir_url_of_single_slash (ws : list str) :
  forallb simple_name ws = true -> startswith (dir_url_of ws) (py "//") = false.
Proof.
  destruct ws as [|w ws]; [reflexivity|]. simpl forallb. intros H.
  apply andb_true_iff in H as [Hw _].
  apply simple_name_inv in Hw as (He & Hs & _).
  destruct w as [|c w]; [discriminate|].
  simpl in Hs. apply orb_false_iff in Hs as [Hs _].
  rewrite dir_url_of_cons. apply double_slash, Hs.
Qed.

Lemma normpath_slash_led (p : str) (ws : list str) :
  startswith (slash :: p) (py "//") = false ->
  fold_left (posixpath.normpath_step 1) (split slash (slash :: p)) [] = ws ->
  posixpath.normpath (slash :: p) = url_of ws.
Proof.
  intros H2 Hfold. unfold posixpath.normpath.
  change (is_empty (slash :: p)) with false. cbv iota.
  change (startswith (slash :: p) posixpath.sep) with true. cbv iota.
  change (posixpath.sep ++ posixpath.sep) with (py "//").
  rewrite H2. simpl andb. cbv iota zeta.
  rewrite Hfold. reflexivity.
Qed.

Lemma split_url_of_raw (ws : list str) :
  forallb simple_name ws = true ->
  split slash (url_of ws) = [] :: (if no_items ws then [[]] else ws).
Proof.
  intros H. rewrite url_of_cons.
  change (split slash ([] ++ slash :: str_join [slash] ws)
          = [] :: (if no_items ws then [[]] else ws)).
  rewrite split_app_sep.
  destruct ws as [|w ws]; [reflexivity|].
  rewrite split_str_join by (discriminate || exact H). reflexivity.
Qed.

Lemma simple_or_empty (ws : list str) :
  forallb simple_name ws = true ->
  forallb (fun w => is_empty w || simple_name w) ws = true.
Proof.
  apply forallb_weaken. intros w ->. apply orb_true_r.
Qed.

(** [normpath] leaves ["/w1/.../wn"] as it is, and takes the final ['/']
    off ["/w1/.../wn/"]. *)
Lemma normpath_url_of (ws : list str) :
  forallb simple_name ws = true ->
  posixpath.normpath (url_of ws) = url_of ws.
Proof.
  intros H. rewrite url_of_cons at 1.
  apply normpath_slash_led.
  - rewrite <- url_of_cons. apply url_of_single_slash, H.
  - rewrite <- url_of_cons, (split_url_of_raw _ H).
    destruct ws as [|w ws]; [reflexivity|].
    rewrite normpath_fold.
    + change (filter (fun w => negb (is_empty w)) (w :: ws) = w :: ws).
      apply filter_simple, H.
    + change (forallb (fun w => is_empty w || simple_name w) (w :: ws) = true).
      apply simple_or_empty, H.
Qed.

Lemma normpath_dir_url_of (ws : list str) :
  forallb simple_name ws = true ->
  posixpath.normpath (dir_url_of ws) = url_of ws.
Proof.
  intros H.
  change (dir_url_of ws)
    with (slash :: List.concat (map (fun w => w ++ py "/") ws)).
  apply normpath_slash_led.
  - apply (dir_url_of_single_slash _ H).
  - change (slash :: List.concat (map (fun w => w ++ py "/") ws))
      with (dir_url_of ws).
    rewrite (split_dir_url_of _ H), normpath_fold.
    + change (filter (fun w => negb (is_empty w)) (ws ++ [[]]) = ws).
      rewrite filter_app. simpl filter at 2. rewrite app_nil_r.
      apply filter_simple, H.
    + change (forallb (fun w => is_empty w || simple_name w) (ws ++ [[]])
              = true).
      rewrite forallb_app, (simple_or_empty _ H). reflexivity.
Qed.

Lemma dirname_simple (w : str) :
  has_char slash w = false -> posixpath.dirname w = [].
Proof.
  intros H. unfold posixpath.dirname, posixpath.upto_last_sep.
  rewrite lstrip_by_all; [reflexivity|].
  rewrite forallb_rev.
  induction w as [|c w IH]; [reflexivity|].
  simpl in *. apply orb_false_iff in H as [H1 H2].
  rewrite Ascii.eqb_sym, H1. simpl. apply IH, H2.
Qed.

(** On file names the loop of [translate_path] is [os.path.join]. *)
Lemma translate_fold (ws : list str) (d : str) :
  forallb simple_name ws = true ->
  fold_left translate_step ws d = join_all d ws.
Proof.
  unfold join_all. revert d; induction ws as [|w ws IH]; intros d H;
    [reflexivity|].
  simpl in H. apply andb_true_iff in H as [Hw H].
  apply simple_name_inv in Hw as (_ & H1 & H2 & H3).
  simpl. unfold translate_step at 2.
  rewrite (dirname_simple _ H1), H2, H3. simpl. apply IH, H.
Qed.

Lemma before_nosep (c : ascii) (s : str) :
  has_char c s = false -> before c s = s.
Proof.
  induction s as [|d s IH]; simpl; intros H; [reflexivity|].
  apply orb_false_iff in H as [H1 H2].
  rewrite Ascii.eqb_sym, H1, (IH H2). reflexivity.
Qed.

Lemma plain_url_char (c : ascii) : plain_char c = true -> url_char c = true.
Proof.
  unfold plain_char, url_char. simpl existsb.
  rewrite !andb_true_iff, !negb_true_iff, !orb_false_iff. tauto.
Qed.

Lemma url_chars_names (ws : list str) :
  forallb plain_name ws = true -> forallb (forallb url_char) ws = true.
Proof.
  apply forallb_weaken. intros w H.
  apply plain_name_inv in H as (_ & H & _).
  revert H. apply forallb_weaken, plain_url_char.
Qed.

Lemma url_chars_dir_url_of (ws : list str) :
  forallb plain_name ws = true -> forallb url_char (dir_url_of ws) = true.
Proof.
  intros H. apply url_chars_names in H.
  induction ws as [|w ws IH]; [reflexivity|].
  simpl in H. apply andb_true_iff in H as [Hw H].
  rewrite dir_url_of_cons.
  change (forallb url_char (slash :: w ++ dir_url_of ws))
    with (url_char slash && forallb url_char (w ++ dir_url_of ws)).
  rewrite forallb_app, Hw, (IH H). reflexivity.
Qed.

(** What the handler's first steps make of such a target. *)
Lemma url_chars_facts (p : str) :
  forallb url_char p = true ->
  has_char (chr 63) p = false /\ has_char (chr 35) p = false
  /\ has_char (chr 37) p = false
  /\ forallb (fun c => negb (isspace c)) p = true.
Proof.
  intros H. repeat split.
  - apply (has_char_forallb url_char); [reflexivity | exact H].
  - apply (has_char_forallb url_char); [reflexivity | exact H].
  - apply (has_char_forallb url_char); [reflexivity | exact H].
  - revert H. apply forallb_weaken. intros c.
    unfold url_char. rewrite andb_true_iff. tauto.
Qed.

(** A file name ends with a character other than ['/']. *)
Lemma simple_name_last (w : str) :
  simple_name w = true ->
  exists x c, w = x ++ [c] /\ Ascii.eqb slash c = false.
Proof.
  intros H. apply simple_name_inv in H as (He & Hs & _).
  destruct (exists_last (l := w)) as (x & c & ->).
  { destruct w; [discriminate | discriminate]. }
  exists x, c. split; [reflexivity|].
  rewrite has_char_app in Hs. apply orb_false_iff in Hs as [_ Hs].
  simpl in Hs. apply orb_false_iff in Hs as [Hs _]. exact Hs.
Qed.

Lemma endswith_app_simple (x w : str) :
  simple_name w = true -> endswith (x ++ w) (py "/") = false.
Proof.
  intros H. destruct (simple_name_last _ H) as (y & c & -> & Hc).
  rewrite app_assoc. change (py "/") with [slash].
  rewrite endswith_snoc. exact Hc.
Qed.

Lemma forallb_last {A} (p : A -> bool) (l : list A) (x : A) :
  forallb p (l ++ [x]) = true -> forallb p l = true /\ p x = true.
Proof.
  rewrite forallb_app. simpl. rewrite andb_true_r, andb_true_iff. tauto.
Qed.

Lemma dir_url_of_trailing_slash (ws : list str) :
  endswith (dir_url_of ws) (py "/") = true.
Proof.
  assert (E : exists x, dir_url_of ws = x ++ [slash]).
  { destruct ws as [|w0 ws0]; [exists []; reflexivity|].
    destruct (exists_last (l := w0 :: ws0)) as (ws' & w & ->);
      [discriminate|].
    unfold dir_url_of. rewrite map_app, concat_app.
    exists (py "/" ++ List.concat (map (fun w => w ++ py "/") ws') ++ w).
    simpl List.concat at 2. rewrite app_nil_r, <- !app_assoc. reflexivity. }
  destruct E as [x ->]. change (py "/") with [slash].
  rewrite endswith_snoc. apply Ascii.eqb_refl.
Qed.

Lemma translate_path_dir_url_of (L : Lib) (d : str) (ws : list str) :
  unquote_plain L -> forallb plain_name ws = true ->
  translate_path L d (dir_url_of ws) = join_all d ws ++ py "/".
Proof.
  intros Hunq H.
  pose proof (plain_names_simple _ H) as Hs.
  destruct (url_chars_facts _ (url_chars_dir_url_of _ H))
    as (Hq & Hf & Hp & Hw).
  unfold translate_path. cbv zeta.
  rewrite (before_nosep _ _ Hq), (before_nosep _ _ Hf), (rstrip_none _ Hw).
  unfold unquote_path. rewrite (Hunq _ Hp).
  rewrite (normpath_dir_url_of _ Hs), (split_url_of _ Hs),
    (translate_fold _ _ Hs).
  rewrite dir_url_of_trailing_slash. reflexivity.
Qed.

(** [os.path.join] with a file name appends it, after a ['/'] if one is
    needed. *)
Lemma join_simple (a w : str) :
  simple_name w = true ->
  posixpath.join a w
  = if is_empty a || endswith a posixpath.sep then a ++ w
    else a ++ posixpath.sep ++ w.
Proof.
  intros H. apply simple_name_inv in H as (He & Hs & _).
  unfold posixpath.join.
  destruct w as [|c w]; [discriminate|].
  simpl in Hs. apply orb_false_iff in Hs as [Hs _].
  change (startswith (c :: w) posixpath.sep) with (Ascii.eqb slash c && true).
  rewrite Hs. reflexivity.
Qed.

Lemma join_all_snoc (d : str) (ws : list str) (w : str) :
  join_all d (ws ++ [w]) = posixpath.join (join_all d ws) w.
Proof. unfold join_all. rewrite fold_left_app. reflexivity. Qed.

(** The path of a file under [d] does not end with ['/']. *)
Lemma join_all_no_trailing_slash (d : str) (ws : list str) :
  ws <> [] -> forallb simple_name ws = true ->
  endswith (join_all d ws) (py "/") = false.
Proof.
  intros Hne H.
  destruct (exists_last Hne) as (ws' & w & ->).
  apply forallb_last in H as [_ Hw].
  rewrite join_all_snoc, (join_simple _ _ Hw).
  destruct (is_empty (join_all d ws') || endswith (join_all d ws') posixpath.sep).
  - apply endswith_app_simple, Hw.
  - rewrite app_assoc. apply endswith_app_simple, Hw.
Qed.

(** ** What [parse_request] leaves behind *)

Lemma seq_silent_l (o : out) : (silent ;; o)%out = o.
Proof. destruct o; reflexivity. Qed.

(** Case analysis on every test a hypothesis still holds. *)
Ltac break_tests :=
  repeat match goal with
  | H : context [(_ && false)%bool] |- _ => rewrite andb_false_r in H
  | H : false = true |- _ => discriminate H
  | H : true = false |- _ => discriminate H
  | H : inl _ = inr _ |- _ => discriminate H
  | H : inr _ = inl _ |- _ => discriminate H
  | H : ParseFailed _ = ParseOk _ _ _ |- _ => discriminate H
  | H : ParseOk _ _ _ = ParseOk _ _ _ |- _ => inversion H; clear H; subst
  | H : inl _ = inl _ |- _ => inversion H; clear H; subst
  | H : context [match ?x with _ => _ end] |- _ => destruct x eqn:?
  end.

(** With [protocol_version = "HTTP/1.0"] a successful [parse_request]
    has written nothing and leaves [close_connection] set: the handler
    serves one request per connection. *)
Lemma parse_request_ok (L : Lib) (raw : raw_request) (self : handler)
    (o : out) (c : bool) :
  parse_request L raw = ParseOk self o c ->
  o = silent /\ c = true /\ is_empty (raw_requestline raw) = false.
Proof.
  intros H.
  assert (Hraw : is_empty (raw_requestline raw) = false).
  { destruct (raw_requestline raw) eqn:E; [|reflexivity].
    unfold parse_request in H. rewrite E in H. discriminate. }
  unfold parse_request in H.
  change (str_geb protocol_version (py "HTTP/1.1")) with false in H.
  break_tests; cbn [andb] in *; try discriminate;
    (split; [reflexivity | split; [|assumption]]);
    repeat match goal with
           | |- context [if ?b then _ else _] => destruct b
           end; reflexivity.
Qed.

Lemma handle_accepted (L : Lib) (fs : FS) (d : str) (raw : raw_request)
    (self : handler) :
  accepts L raw self ->
  handle_one_request L fs d raw
  = match method L fs d (self_command self) with
    | None =>
        {| sent := send_error L self 501
                     (Some (py "Unsupported method ("
                            ++ repr L (self_command self) ++ py ")")) None;
           raised := None; close_connection := true |}
    | Some m =>
        let '(o, e) := m self in
        {| sent := o; raised := e; close_connection := true |}
    end.
Proof.
  intros [Hlen (o & c & Hp)].
  destruct (parse_request_ok _ _ _ _ _ Hp) as (-> & -> & Hraw).
  unfold handle_one_request.
  apply N.ltb_ge in Hlen. rewrite Hlen, Hraw, Hp.
  destruct (method L fs d (self_command self)) as [m|].
  - destruct (m self) as [o' e]. rewrite seq_silent_l. reflexivity.
  - rewrite seq_silent_l. reflexivity.
Qed.

(** ** Responses *)

(** Unfolds the methods that write to the connection. *)
Ltac unfold_senders :=
  unfold send_error, send_response, send_response_only, send_header,
    end_headers, log_request.

Lemma send_error_status (L : Lib) (self : handler) (code : N)
    (message explain : option str) :
  http1x self ->
  status_of (wire (send_error L self code message explain)) = Some code.
Proof.
  intros H. unfold http1x in H. unfold_senders. rewrite H.
  destruct (responses code) as [[shortmsg longmsg]|];
    destruct ((200 <=? code)%N && negb (existsb (N.eqb code) [204; 205; 304]%N));
    reflexivity.
Qed.

Lemma os_stat_found (fs : FS) (p : str) (e : entry) :
  os.stat fs p = Found e -> stat fs p = Found e.
Proof.
  unfold os.stat. destruct (has_char (chr 0) p); [discriminate | auto].
Qed.

Lemma send_file_missing (L : Lib) (fs : FS) (self : handler) (p : str) :
  os.stat fs p = NoEntry ->
  send_file L fs self p
  = Finished (send_error L self 404 (Some (py "File not found")) None).
Proof.
  intros H. unfold send_file, os.open. rewrite H.
  destruct (endswith p (py "/")); reflexivity.
Qed.

(** ** Exceptions stay inside the connection *)

Lemma send_head_raises (L : Lib) (fs : FS) (d : str) (self : handler)
    (o : out) (e : exn) :
  send_head L fs d self = Raised o e -> is_Exception e = true.
Proof.
  unfold send_head, send_file, list_directory. intros H.
  repeat match type of H with
         | context [match ?x with _ => _ end] => destruct x eqn:?
         end; inversion H; reflexivity.
Qed.

Lemma method_raises (L : Lib) (fs : FS) (d : str) (cmd : str)
    (m : handler -> out * option exn) (self : handler) (e : exn) :
  method L fs d cmd = Some m -> snd (m self) = Some e ->
  is_Exception e = true.
Proof.
  unfold method. intros Hm He.
  destruct (str_eqb cmd (py "GET")); [|destruct (str_eqb cmd (py "HEAD"))];
    inversion Hm; subst m; clear Hm.
  - unfold do_GET in He.
    destruct (send_head L fs d self) as [o f|o|o e'] eqn:Hh.
    + unfold copyfile in He. destruct f as [f|data].
      * destruct (f_fails_after f); inversion He. reflexivity.
      * inversion He.
    + inversion He.
    + inversion He; subst. exact (send_head_raises _ _ _ _ _ _ Hh).
  - unfold do_HEAD in He.
    destruct (send_head L fs d self) as [o f|o|o e'] eqn:Hh;
      inversion He; subst. exact (send_head_raises _ _ _ _ _ _ Hh).
Qed.

Lemma handle_one_request_raises (L : Lib) (fs : FS) (d : str)
    (raw : raw_request) (e : exn) :
  raised (handle_one_request L fs d raw) = Some e -> is_Exception e = true.
Proof.
  unfold handle_one_request. intros H.
  destruct (65536 <? N.of_nat (List.length (raw_requestline raw)))%N;
    [inversion H|].
  destruct (is_empty (raw_requestline raw)); [inversion H|].
  destruct (parse_request L raw) as [self o c|o]; [|inversion H].
  destruct (method L fs d (self_command self)) as [m|] eqn:Hm; [|inversion H].
  destruct (m self) as [o' e'] eqn:Hms. simpl in H. subst e'.
  apply (method_raises _ _ _ _ _ self _ Hm). rewrite Hms. reflexivity.
Qed.

(** Whatever a connection sends, the handler raises nothing but
    [Exception]s. *)
Lemma handle_raises (L : Lib) (fs : FS) (d : str)
    (requests : list raw_request) (e : exn) :
  snd (handle L fs d requests) = Some e -> is_Exception e = true.
Proof.
  induction requests as [|raw rest IH]; simpl; [discriminate|].
  destruct (raised (handle_one_request L fs d raw)) as [e'|] eqn:Hr.
  - simpl. intros H; inversion H; subst.
    exact (handle_one_request_raises _ _ _ _ _ Hr).
  - destruct (close_connection (handle_one_request L fs d raw));
      [discriminate|].
    destruct (handle L fs d rest) as [o e']. simpl in *. exact IH.
Qed.

(** So no connection stops the accept loop. *)
Lemma every_connection_keeps_serving (L : Lib) (sys : OS)
    (requests : list raw_request) :
  keeps_serving L sys requests.
Proof.
  intros rest. simpl.
  unfold process_request, Handler.
  pose proof (handle_raises L (files sys) (getcwd sys) requests) as Hx.
  destruct (handle L (files sys) (getcwd sys) requests) as [o [e|]].
  - rewrite (Hx e eq_refl).
    destruct (serve_forever L sys rest); reflexivity.
  - destruct (serve_forever L sys rest); reflexivity.
Qed.

Lemma is_request_handled (L : Lib) (fs : FS) (d : str) (raw : raw_request)
    (self : handler) (cmd target : str) :
  is_request L raw self cmd target ->
  handle_one_request L fs d raw
  = match method L fs d cmd with
    | None =>
        {| sent := send_error L self 501
                     (Some (py "Unsupported method ("
                            ++ repr L cmd ++ py ")")) None;
           raised := None; close_connection := true |}
    | Some m =>
        let '(o, e) := m self in
        {| sent := o; raised := e; close_connection := true |}
    end.
Proof.
  intros (Ha & _ & <- & _). apply handle_accepted, Ha.
Qed.

(** ** Targets that spell a path *)

Lemma split_ws_aux_words (cur s w : str) :
  forallb (fun c => negb (isspace c)) cur = true ->
  In w (split_ws_aux cur s) ->
  forallb (fun c => negb (isspace c)) w = true.
Proof.
  revert cur; induction s as [|c s IH]; intros cur Hcur Hin.
  - cbn [split_ws_aux] in Hin. destruct (is_empty cur); [destruct Hin|].
    destruct Hin as [<- | []]. rewrite forallb_rev. exact Hcur.
  - cbn [split_ws_aux] in Hin. destruct (isspace c) eqn:E.
    + destruct (is_empty cur).
      * exact (IH [] eq_refl Hin).
      * destruct Hin as [<- | Hin];
          [rewrite forallb_rev; exact Hcur | exact (IH [] eq_refl Hin)].
    + apply (IH (c :: cur)); [|exact Hin].
      cbn [forallb]. rewrite E. exact Hcur.
Qed.

Lemma forallb_lstrip_by (p q : ascii -> bool) (s : str) :
  forallb p s = true -> forallb p (lstrip_by q s) = true.
Proof.
  induction s as [|c s IH]; intros H; [reflexivity|].
  cbn [lstrip_by]. destruct (q c); [|exact H].
  cbn [forallb] in H. apply andb_true_iff in H as [_ H]. exact (IH H).
Qed.

Lemma lstrip_by_head (c : ascii) (s : str) :
  startswith (lstrip_by (Ascii.eqb c) s) [c] = false.
Proof.
  induction s as [|x s IH]; [reflexivity|].
  cbn [lstrip_by]. destruct (Ascii.eqb c x) eqn:E; [exact IH|].
  rewrite startswith_cons, E. reflexivity.
Qed.

(** The target [parse_request] leaves in [self.path] is the second word
    of the request line, its leading slashes reduced to one when there
    are several. *)
Lemma parse_request_target (L : Lib) (raw : raw_request) (self : handler)
    (o : out) (c : bool) :
  parse_request L raw = ParseOk self o c ->
  exists w,
    In w (split_ws (rstrip_chars CRLF (raw_requestline raw)))
    /\ self_path self
       = if startswith w (py "//")
         then py "/" ++ lstrip_by (Ascii.eqb slash) w else w.
Proof.
  intros H. unfold parse_request in H.
  break_tests; cbn [self_path];
    (eexists; split; [right; left; reflexivity|]);
    repeat match goal with
           | E : startswith _ _ = _ |- _ => rewrite E
           end; reflexivity.
Qed.

(** A target that was accepted holds no whitespace and does not start
    with two slashes. *)
Lemma accepted_target (L : Lib) (raw : raw_request) (self : handler) :
  accepts L raw self ->
  forallb (fun c => negb (isspace c)) (self_path self) = true
  /\ startswith (self_path self) (py "//") = false.
Proof.
  intros [_ (o & c & Hp)].
  destruct (parse_request_target _ _ _ _ _ Hp) as (w & Hin & ->).
  apply (split_ws_aux_words [] _ w eq_refl) in Hin.
  destruct (startswith w (py "//")) eqn:E.
  - split.
    + change (forallb (fun c => negb (isspace c))
                (slash :: lstrip_by (Ascii.eqb slash) w) = true).
      cbn [forallb]. rewrite (forallb_lstrip_by _ _ _ Hin). reflexivity.
    + change (startswith (slash :: lstrip_by (Ascii.eqb slash) w)
                [slash; slash] = false).
      rewrite startswith_cons, lstrip_by_head. apply andb_false_r.
  - split; assumption.
Qed.

(** [translate_path] maps any spelling of ["/w1/.../wn"] to
    [directory/w1/.../wn], with a final ['/'] when the target has
    one. *)
Lemma translate_path_spelled (L : Lib) (d t : str) (ws : list str) :
  spells L t ws -> forallb simple_name ws = true ->
  forallb (fun c => negb (isspace c)) t = true ->
  translate_path L d t
  = if endswith t (py "/") then join_all d ws ++ py "/" else join_all d ws.
Proof.
  intros (Hq & Hf & Hdec) Hs Hw.
  assert (E : posixpath.normpath (unquote_path L t t) = url_of ws).
  { unfold unquote_path.
    destruct Hdec as [[H | [H1 H2]] | [H | [H1 H2]]];
      rewrite ?H, ?H1, ?H2;
      first [apply normpath_url_of | apply normpath_dir_url_of]; exact Hs. }
  unfold translate_path. cbv zeta.
  rewrite (before_nosep _ _ Hq), (before_nosep _ _ Hf), (rstrip_none _ Hw).
  rewrite E, (split_url_of _ Hs), (translate_fold _ _ Hs). reflexivity.
Qed.

(** The path looked up for an accepted request whose target spells
    ["/w1/.../wn"]. *)
Lemma request_path (L : Lib) (d : str) (raw : raw_request) (self : handler)
    (cmd target : str) (ws : list str) :
  is_request L raw self cmd target ->
  spells L target ws -> forallb simple_name ws = true ->
  translate_path L d (self_path self)
  = if endswith target (py "/") then join_all d ws ++ py "/"
    else join_all d ws.
Proof.
  intros (Ha & _ & _ & Hp) Hsp Hs.
  destruct (accepted_target _ _ _ Ha) as [Hw _].
  rewrite Hp in *. apply translate_path_spelled; assumption.
Qed.

(** An accepted target with one leading slash, no query and no fragment
    is a path and nothing else for [urlsplit]. *)
Lemma request_plain_url (L : Lib) (raw : raw_request) (self : handler)
    (cmd target : str) (ws : list str) :
  is_request L raw self cmd target -> spells L target ws ->
  startswith target (py "/") = true ->
  plain_url target = true.
Proof.
  intros (Ha & _ & _ & Hp) (Hq & Hf & _) Hs.
  destruct (accepted_target _ _ _ Ha) as [Hw H2]. rewrite Hp in *.
  unfold plain_url. rewrite Hs, H2. cbn [negb andb].
  apply forallb_forall. intros c Hc.
  rewrite forallb_forall in Hw. rewrite (Hw c Hc). cbn [andb existsb].
  destruct (Ascii.eqb c (chr 63)) eqn:E1.
  { apply Ascii.eqb_eq in E1. subst c.
    assert (has_char (chr 63) target = true)
      by (apply existsb_exists; exists (chr 63); split;
          [exact Hc | apply Ascii.eqb_refl]).
    congruence. }
  destruct (Ascii.eqb c (chr 35)) eqn:E2; [|reflexivity].
  apply Ascii.eqb_eq in E2. subst c.
  assert (has_char (chr 35) target = true)
    by (apply existsb_exists; exists (chr 35); split;
        [exact Hc | apply Ascii.eqb_refl]).
  congruence.
Qed.

(** ** C4: a path that does not exist *)

(** C4, as stated, fails on the code.  Nothing lies at [missing.txt]
    under the served root, and an HTTP/0.9 request for it (a request
    line without a version) gets the error page without a status line:
    for that version no status line and no header is written.  And the
    target ["/%00"] decodes to a path with a NUL character, at which
    neither a file nor a directory can exist: [os.path.isdir] answers
    [False], but [open] raises [ValueError], which the [except OSError]
    of [send_head] does not catch, so nothing is sent, no 404, and the
    exception leaves the handler. *)
Lemma missing_path_not_always_404 :
  os.stat Demo.fs (join_all Demo.cwd [py "missing.txt"]) = NoEntry
  /\ status_of (wire (sent (Demo.serve (Demo.request "GET /missing.txt"))))
     = None
  /\ translate_path Demo.lib Demo.cwd (py "/%00") = Demo.cwd ++ [slash; chr 0]
  /\ os.isdir Demo.fs (Demo.cwd ++ [slash; chr 0]) = false
  /\ os.isfile Demo.fs (Demo.cwd ++ [slash; chr 0]) = false
  /\ wire (sent (Demo.serve (Demo.request "GET /%00 HTTP/1.0"))) = []
  /\ status_of (wire (sent (Demo.serve (Demo.request "GET /%00 HTTP/1.0"))))
     = None
  /\ raised (Demo.serve (Demo.request "GET /%00 HTTP/1.0")) = Some ValueError.
Proof. repeat split; vm_compute; reflexivity. Qed.

(** C4, amended. Let the target be any spelling of a path
    ["/w1/.../wn"], with or without a final slash, at which the system
    finds nothing under the served root ([os.stat] raises [OSError]).
    An HTTP/1.x GET for it is answered with status 404; the handler
    raises nothing, and the accept loop goes on with whatever arrives
    next. *)
Theorem missing_path_404 (L : Lib) (sys : OS) (raw : raw_request)
    (self : handler) (target : str) (ws : list str) :
  is_request L raw self (py "GET") target ->
  spells L target ws -> forallb simple_name ws = true ->
  nothing_at (files sys) (join_all (getcwd sys) ws) ->
  let r := handle_one_request L (files sys) (getcwd sys) raw in
  status_of (wire (sent r)) = Some 404%N
  /\ raised r = None
  /\ keeps_serving L sys [raw].
Proof.
  intros Hreq Hsp Hws [Hn1 Hn2] r. subst r.
  rewrite (is_request_handled _ _ _ _ _ _ _ Hreq).
  pose proof (request_path L (getcwd sys) _ _ _ _ _ Hreq Hsp Hws) as Ht.
  destruct Hreq as (_ & Hv & _ & _).
  change (method L (files sys) (getcwd sys) (py "GET"))
    with (Some (do_GET L (files sys) (getcwd sys))).
  cbv iota. unfold do_GET, send_head. rewrite Ht.
  assert (Hm : os.stat (files sys)
                 (if endswith target (py "/")
                  then join_all (getcwd sys) ws ++ py "/"
                  else join_all (getcwd sys) ws) = NoEntry)
    by (destruct (endswith target (py "/")); assumption).
  unfold os.isdir. rewrite Hm, (send_file_missing _ _ _ _ Hm).
  cbv iota. cbn [sent raised].
  repeat split.
  - apply send_error_status, Hv.
  - apply every_connection_keeps_serving.
Qed.

Lemma missing_path_404_witness :
  status_of (wire (sent (Demo.serve
               (Demo.request "GET /pub/no%20such%3Ffile HTTP/1.0"))))
  = Some 404%N.
Proof.
  refine (proj1 (missing_path_404 Demo.lib Demo.free_port
                   (Demo.request "GET /pub/no%20such%3Ffile HTTP/1.0")
                   (Demo.parsed "GET" "/pub/no%20such%3Ffile" "HTTP/1.0"
                      Demo.no_headers)
                   (py "/pub/no%20such%3Ffile") [py "pub"; py "no such?file"]
                   _ _ _ _)).
  - repeat split; try reflexivity.
    + vm_compute. discriminate.
    + exists silent, true. reflexivity.
  - repeat split; try reflexivity. left. left. reflexivity.
  - reflexivity.
  - split; reflexivity.
Defined.

(** ** C8: methods other than GET and HEAD *)

(** C8. A request whose method is neither GET nor HEAD is answered with
    status 501 (the handler class has no [do_] method for it); the
    handler raises nothing, and the accept loop goes on. *)
Theorem unsupported_method_501 (L : Lib) (sys : OS) (raw : raw_request)
    (self : handler) (cmd target : str) :
  is_request L raw self cmd target ->
  cmd <> py "GET" -> cmd <> py "HEAD" ->
  let r := handle_one_request L (files sys) (getcwd sys) raw in
  status_of (wire (sent r)) = Some 501%N
  /\ raised r = None
  /\ keeps_serving L sys [raw].
Proof.
  intros Hreq Hg Hh r. subst r.
  rewrite (is_request_handled _ _ _ _ _ _ _ Hreq).
  destruct Hreq as (_ & Hv & _ & _).
  unfold method.
  apply str_eqb_neq in Hg, Hh. rewrite Hg, Hh. cbn [sent raised].
  repeat split.
  - apply send_error_status, Hv.
  - apply every_connection_keeps_serving.
Qed.

Lemma unsupported_method_501_witness :
  status_of (wire (sent (Demo.serve (Demo.request "POST /a.txt HTTP/1.1"))))
  = Some 501%N.
Proof.
  refine (proj1 (unsupported_method_501 Demo.lib Demo.free_port
                   (Demo.request "POST /a.txt HTTP/1.1")
                   (Demo.parsed "POST" "/a.txt" "HTTP/1.1" Demo.no_headers)
                   (py "POST") (py "/a.txt") _ _ _)).
  - repeat split; try reflexivity.
    + vm_compute. discriminate.
    + exists silent, true. reflexivity.
  - discriminate.
  - discriminate.
Defined.

(** ** The example environment meets the library contracts *)

Lemma pct_unquote_cons (c : ascii) (s : str) :
  Ascii.eqb c (chr 37) = false ->
  Demo.pct_unquote (c :: s) = c :: Demo.pct_unquote s.
Proof.
  intros H. destruct s as [|a [|b s]]; simpl; rewrite ?H; reflexivity.
Qed.

Lemma demo_lib_unquote_plain : unquote_plain Demo.lib.
Proof.
  intros s H. cbn [unquote_surrogatepass Demo.lib]. f_equal.
  induction s as [|c s IH]; [reflexivity|].
  simpl in H. apply orb_false_iff in H as [H1 H2].
  rewrite pct_unquote_cons by (rewrite Ascii.eqb_sym; exact H1).
  rewrite (IH H2). reflexivity.
Qed.

Lemma after_nosep (c : ascii) (s : str) :
  has_char c s = false -> after c s = None.
Proof.
  induction s as [|d s IH]; simpl; intros H; [reflexivity|].
  apply orb_false_iff in H as [H1 H2].
  rewrite Ascii.eqb_sym, H1. exact (IH H2).
Qed.

Lemma demo_lib_urlsplit_plain : urlsplit_plain Demo.lib.
Proof.
  intros u H. unfold plain_url in H.
  apply andb_true_iff in H as [_ H].
  assert (Hq : has_char (chr 63) u = false).
  { revert H. apply has_char_forallb. reflexivity. }
  assert (Hf : has_char (chr 35) u = false).
  { revert H. apply has_char_forallb. reflexivity. }
  cbn [urlsplit Demo.lib]. unfold Demo.path_urlsplit.
  rewrite (before_nosep _ _ Hf), (before_nosep _ _ Hq),
    (after_nosep _ _ Hq), (after_nosep _ _ Hf).
  reflexivity.
Qed.

(** ** Targets that name a file or a directory *)

Lemma not_modified_iff (self : handler) (f : file) :
  not_modified self f = true <-> cache_hit self f.
Proof.
  unfold not_modified, cache_hit. split.
  - intros H.
    destruct (If_Modified_Since (self_headers self)) as [[|t|]|];
      destruct (has_If_None_Match (self_headers self));
      try discriminate H.
    exists t. repeat split. apply Z.leb_le. exact H.
  - intros (t & -> & -> & H). apply Z.leb_le. exact H.
Qed.

(** [send_head] from [guess_type] on, for the path of a regular file. *)
Lemma send_file_regular (L : Lib) (fs : FS) (self : handler) (p : str)
    (f : file) :
  os.stat fs p = Found (RegularFile f) -> endswith p (py "/") = false ->
  send_file L fs self p
  = if f_readable f then
      if not_modified self f
      then Finished (send_response L self 304 None ;; end_headers self)%out
      else Opened (file_headers L self (guess_type L p) f) (DiskFile f)
    else Finished (send_error L self 404 (Some (py "File not found")) None).
Proof.
  intros Hs He. unfold send_file, os.open. rewrite He, Hs.
  destruct (f_readable f); reflexivity.
Qed.

(** What reaches the client when an opened file is copied out. *)
Lemma file_reply (L : Lib) (self : handler) (ctype : str) (f : file) :
  http1x self ->
  let o := (file_headers L self ctype f ;; fst (copyfile (DiskFile f)))%out in
  statuses_of (wire o) = [200%N]
  /\ status_of (wire o) = Some 200%N
  /\ header_of (py "Content-type") (wire o) = Some ctype
  /\ header_of (py "Content-Length") (wire o) = Some (str_of_N (f_size f))
  /\ body_of (wire o)
     = match f_fails_after f with
       | None => f_data f
       | Some n => firstn n (f_data f)
       end
  /\ snd (copyfile (DiskFile f))
     = match f_fails_after f with
       | None => None
       | Some _ => Some (OSError EIO)
       end.
Proof.
  intros Hv. unfold http1x in Hv. unfold copyfile, file_headers.
  destruct (f_fails_after f) as [n|];
    unfold_senders; rewrite Hv; cbn; rewrite app_nil_r; auto 10.
Qed.

(** The reply that tells a client its copy is still good. *)
Lemma not_modified_reply (L : Lib) (self : handler) :
  http1x self ->
  let o := (send_response L self 304 None ;; end_headers self)%out in
  status_of (wire o) = Some 304%N /\ body_of (wire o) = [].
Proof.
  intros Hv. unfold http1x in Hv. unfold_senders. rewrite Hv.
  split; reflexivity.
Qed.

(** A GET that [send_head] answers from the regular file at [p]: 404
    when the file cannot be opened, 304 on a cache hit, and otherwise
    200 with the headers of the file and the bytes read from it. *)
Lemma get_regular_file (L : Lib) (fs : FS) (d : str) (raw : raw_request)
    (self : handler) (target p : str) (f : file) :
  is_request L raw self (py "GET") target ->
  send_head L fs d self = send_file L fs self p ->
  os.stat fs p = Found (RegularFile f) -> endswith p (py "/") = false ->
  let r := handle_one_request L fs d raw in
  (f_readable f = false ->
   status_of (wire (sent r)) = Some 404%N /\ raised r = None)
  /\ (f_readable f = true -> cache_hit self f ->
      status_of (wire (sent r)) = Some 304%N
      /\ body_of (wire (sent r)) = [] /\ raised r = None)
  /\ (f_readable f = true -> ~ cache_hit self f ->
      statuses_of (wire (sent r)) = [200%N]
      /\ status_of (wire (sent r)) = Some 200%N
      /\ header_of (py "Content-type") (wire (sent r))
         = Some (guess_type L p)
      /\ header_of (py "Content-Length") (wire (sent r))
         = Some (str_of_N (f_size f))
      /\ body_of (wire (sent r))
         = match f_fails_after f with
           | None => f_data f
           | Some n => firstn n (f_data f)
           end
      /\ raised r
         = match f_fails_after f with
           | None => None
           | Some _ => Some (OSError EIO)
           end).
Proof.
  intros Hreq Hhead Hs He r. subst r.
  rewrite (is_request_handled _ _ _ _ _ _ _ Hreq).
  destruct Hreq as (_ & Hv & _ & _).
  change (method L fs d (py "GET")) with (Some (do_GET L fs d)).
  cbv iota. unfold do_GET.
  rewrite Hhead, (send_file_regular _ _ _ _ _ Hs He).
  split; [|split].
  - intros Hr. rewrite Hr. cbn [sent raised].
    split; [apply send_error_status, Hv | reflexivity].
  - intros Hr Hc. apply not_modified_iff in Hc. rewrite Hr, Hc.
    cbn [sent raised].
    destruct (not_modified_reply L self Hv) as [H1 H2]. auto.
  - intros Hr Hc. rewrite Hr.
    destruct (not_modified self f) eqn:E;
      [exfalso; apply Hc, not_modified_iff, E|].
    pose proof (file_reply L self (guess_type L p) f Hv) as H.
    destruct (copyfile (DiskFile f)) as [c e]. cbn [fst snd] in H.
    cbn [sent raised]. exact H.
Qed.

(** [send_head] for a target without a final slash that spells the path
    of a regular file. *)
Lemma send_head_file (L : Lib) (fs : FS) (d : str) (raw : raw_request)
    (self : handler) (cmd target : str) (ws : list str) (f : file) :
  is_request L raw self cmd target ->
  spells L target ws -> forallb simple_name ws = true ->
  endswith target (py "/") = false ->
  os.stat fs (join_all d ws) = Found (RegularFile f) ->
  send_head L fs d self = send_file L fs self (join_all d ws).
Proof.
  intros Hreq Hsp Hws He Hs. unfold send_head.
  rewrite (request_path L d _ _ _ _ _ Hreq Hsp Hws), He.
  unfold os.isdir. rewrite Hs. reflexivity.
Qed.

Lemma find_index_cases (fs : FS) (D index : str) :
  index_of fs D index -> endswith D (py "/") = true ->
  find_index fs D = Some index.
Proof.
  intros [H Hf] HD. unfold find_index. cbn [map find].
  assert (J : forall name, simple_name name = true ->
                           posixpath.join D name = D ++ name).
  { intros name Hn. rewrite (join_simple _ _ Hn).
    change posixpath.sep with (py "/"). rewrite HD, orb_true_r. reflexivity. }
  rewrite !J by reflexivity.
  destruct H as [-> | [-> H']].
  - rewrite Hf. reflexivity.
  - rewrite H', Hf. reflexivity.
Qed.

Lemma endswith_dir (p : str) : endswith (p ++ py "/") (py "/") = true.
Proof.
  change (py "/") with [slash]. rewrite endswith_snoc. apply Ascii.eqb_refl.
Qed.

(** [send_head] for a target with a final slash that spells the path of
    a directory, up to the choice between an index file and a
    listing. *)
Lemma send_head_directory (L : Lib) (fs : FS) (d : str) (raw : raw_request)
    (self : handler) (cmd target : str) (ws : list str) :
  urlsplit_plain L ->
  is_request L raw self cmd target ->
  spells L target ws -> forallb simple_name ws = true ->
  startswith target (py "/") = true -> endswith target (py "/") = true ->
  os.isdir fs (join_all d ws ++ py "/") = true ->
  send_head L fs d self
  = match find_index fs (join_all d ws ++ py "/") with
    | Some index => send_file L fs self index
    | None => list_directory L fs self (join_all d ws ++ py "/")
    end.
Proof.
  intros Hsplit Hreq Hsp Hws Hl He Hd. unfold send_head.
  rewrite (request_path L d _ _ _ _ _ Hreq Hsp Hws), He, Hd.
  pose proof (request_plain_url _ _ _ _ _ _ Hreq Hsp Hl) as Hu.
  destruct Hreq as (_ & _ & _ & ->).
  rewrite (Hsplit _ Hu). cbn [url_path]. rewrite He. reflexivity.
Qed.

Lemma index_no_trailing_slash (fs : FS) (D index : str) :
  index_of fs D index -> endswith index (py "/") = false.
Proof.
  intros [[-> | [-> _]] _]; apply endswith_app_simple; reflexivity.
Qed.

(** [send_head] for a request answered from the file at [p]. *)
Lemma send_head_answered_from (L : Lib) (fs : FS) (d : str)
    (raw : raw_request) (self : handler) (cmd target : str) (ws : list str)
    (p : str) (f : file) :
  urlsplit_plain L ->
  is_request L raw self cmd target ->
  spells L target ws -> forallb simple_name ws = true ->
  answered_from fs d target ws p ->
  os.stat fs p = Found (RegularFile f) ->
  send_head L fs d self = send_file L fs self p
  /\ endswith p (py "/") = false.
Proof.
  intros Hsplit Hreq Hsp Hws [(He & Hne & ->) | (He & Hl & Hd & Hi)] Hs.
  - split; [exact (send_head_file _ _ _ _ _ _ _ _ _ Hreq Hsp Hws He Hs)|].
    apply join_all_no_trailing_slash; assumption.
  - split; [|exact (index_no_trailing_slash _ _ _ Hi)].
    rewrite (send_head_directory _ _ _ _ _ _ _ _ Hsplit Hreq Hsp Hws Hl He Hd).
    rewrite (find_index_cases _ _ _ Hi (endswith_dir _)). reflexivity.
Qed.

(** ** C10: a directory requested without the final slash *)

(** C10, as stated, fails on the code.  [docs] is a directory under the
    served root.  An HTTP/0.9 request for it (a request line without a
    version) gets no status line and no header, so no redirect at all:
    nothing is written.  And when the target carries a query string, the
    slash is appended to the path, before the ['?'], not to the
    target. *)
Lemma directory_without_slash_not_always_301 :
  os.isdir Demo.fs (join_all Demo.cwd [py "docs"]) = true
  /\ wire (sent (Demo.serve (Demo.request "GET /docs"))) = []
  /\ status_of (wire (sent (Demo.serve (Demo.request "GET /docs")))) = None
  /\ header_of (py "Location")
       (wire (sent (Demo.serve (Demo.request "GET /docs?x=1 HTTP/1.0"))))
     = Some (py "/docs/?x=1")
  /\ py "/docs/?x=1" <> py "/docs?x=1" ++ py "/".
Proof.
  repeat split; try (vm_compute; reflexivity). discriminate.
Qed.

(** C10, amended. Let the target be any spelling of a path
    ["/w1/.../wn"] that starts with a slash, ends without one and holds
    no query and no fragment, and let that path be a directory under the
    served root.  An HTTP/1.x GET for it is answered with status 301 and
    a [Location] header holding the target with ['/'] appended; no body
    follows. *)
Theorem directory_without_slash_301 (L : Lib) (sys : OS) (raw : raw_request)
    (self : handler) (target : str) (ws : list str)
    (names : option (list str)) :
  urlsplit_plain L ->
  is_request L raw self (py "GET") target ->
  spells L target ws -> forallb simple_name ws = true ->
  startswith target (py "/") = true -> endswith target (py "/") = false ->
  os.stat (files sys) (join_all (getcwd sys) ws) = Found (Directory names) ->
  let r := handle_one_request L (files sys) (getcwd sys) raw in
  status_of (wire (sent r)) = Some 301%N
  /\ header_of (py "Location") (wire (sent r)) = Some (target ++ py "/")
  /\ header_of (py "Content-Length") (wire (sent r)) = Some (py "0")
  /\ body_of (wire (sent r)) = []
  /\ raised r = None.
Proof.
  intros Hsplit Hreq Hsp Hws Hl He Hstat r. subst r.
  rewrite (is_request_handled _ _ _ _ _ _ _ Hreq).
  pose proof (request_path L (getcwd sys) _ _ _ _ _ Hreq Hsp Hws) as Ht.
  pose proof (request_plain_url _ _ _ _ _ _ Hreq Hsp Hl) as Hu.
  destruct Hreq as (_ & Hv & _ & Hp).
  change (method L (files sys) (getcwd sys) (py "GET"))
    with (Some (do_GET L (files sys) (getcwd sys))).
  cbv iota. unfold do_GET, send_head.
  rewrite Ht, He. unfold os.isdir. rewrite Hstat, Hp, (Hsplit _ Hu).
  cbn [url_path scheme netloc query fragment]. rewrite He.
  unfold http1x in Hv. unfold_senders. rewrite Hv. cbn.
  auto 10.
Qed.

Lemma directory_without_slash_301_witness :
  header_of (py "Location")
    (wire (sent (Demo.serve (Demo.request "GET /my%20dir HTTP/1.0"))))
  = Some (py "/my%20dir/").
Proof.
  refine (proj1 (proj2 (directory_without_slash_301 Demo.lib Demo.free_port
                   (Demo.request "GET /my%20dir HTTP/1.0")
                   (Demo.parsed "GET" "/my%20dir" "HTTP/1.0" Demo.no_headers)
                   (py "/my%20dir") [py "my dir"]
                   (Some [py "index.htm"; py "torn.bin"])
                   _ _ _ _ _ _ _))).
  - exact demo_lib_urlsplit_plain.
  - repeat split; try reflexivity.
    + vm_compute. discriminate.
    + exists silent, true. reflexivity.
  - repeat split; try reflexivity. left. left. reflexivity.
  - reflexivity.
  - reflexivity.
  - reflexivity.
  - reflexivity.
Defined.

(** ** C2: a regular file *)

(** C2, as stated, fails on the code.  [locked.txt] is a regular file
    under the served root which the process may not open: the GET for it
    is answered 404.  [a.txt] is readable, but a GET that names a time
    after its last modification is answered 304, without a body. *)
Lemma existing_file_not_always_200 :
  os.isfile Demo.fs (join_all Demo.cwd [py "locked.txt"]) = true
  /\ status_of (wire (sent (Demo.serve
                 (Demo.request "GET /locked.txt HTTP/1.0")))) = Some 404%N
  /\ os.isfile Demo.fs (join_all Demo.cwd [py "a.txt"]) = true
  /\ status_of (wire (sent (Demo.serve
                 (Demo.conditional_request "GET /a.txt HTTP/1.0" 600))))
     = Some 304%N
  /\ body_of (wire (sent (Demo.serve
                 (Demo.conditional_request "GET /a.txt HTTP/1.0" 600)))) = [].
Proof. repeat split; vm_compute; reflexivity. Qed.

(** C2, amended. Let the target be any spelling, without a final slash,
    of a path ["/w1/.../wn"] at which a regular file [f] lies under the
    served root.  An HTTP/1.x GET for it is answered 404 when the
    process may not open [f]; 304 without a body when [f] can be opened
    and the request passes the browser-cache test for it; and otherwise
    with status 200, the content type [guess_type] gives the path, the
    size [os.fstat] reports as [Content-Length] and, when reading [f]
    does not fail, the bytes of [f] as the body. *)
Theorem readable_file_200 (L : Lib) (sys : OS) (raw : raw_request)
    (self : handler) (target : str) (ws : list str) (f : file) :
  is_request L raw self (py "GET") target ->
  spells L target ws -> forallb simple_name ws = true -> ws <> [] ->
  endswith target (py "/") = false ->
  os.stat (files sys) (join_all (getcwd sys) ws) = Found (RegularFile f) ->
  let r := handle_one_request L (files sys) (getcwd sys) raw in
  (f_readable f = false ->
   status_of (wire (sent r)) = Some 404%N /\ raised r = None)
  /\ (f_readable f = true -> cache_hit self f ->
      status_of (wire (sent r)) = Some 304%N
      /\ body_of (wire (sent r)) = [] /\ raised r = None)
  /\ (f_readable f = true -> ~ cache_hit self f ->
      status_of (wire (sent r)) = Some 200%N
      /\ header_of (py "Content-type") (wire (sent r))
         = Some (guess_type L (join_all (getcwd sys) ws))
      /\ header_of (py "Content-Length") (wire (sent r))
         = Some (str_of_N (f_size f))
      /\ (f_fails_after f = None ->
          body_of (wire (sent r)) = f_data f /\ raised r = None)).
Proof.
  intros Hreq Hsp Hws Hne He Hstat r.
  pose proof (send_head_file L (files sys) (getcwd sys) _ _ _ _ _ _
                Hreq Hsp Hws He Hstat) as Hhead.
  pose proof (join_all_no_trailing_slash (getcwd sys) ws Hne Hws) as Hp.
  destruct (get_regular_file L (files sys) (getcwd sys) raw self target _ f
              Hreq Hhead Hstat Hp) as (H1 & H2 & H3).
  split; [exact H1 | split; [exact H2|]].
  intros Hr Hc. destruct (H3 Hr Hc) as (_ & S & T & C & B & R).
  split; [exact S | split; [exact T | split; [exact C|]]].
  intros Hio. rewrite Hio in B, R. split; assumption.
Qed.

Lemma readable_file_200_witness :
  body_of (wire (sent (Demo.serve (Demo.request "GET /pub/b%26w.txt HTTP/1.0"))))
  = py "bw".
Proof.
  destruct (readable_file_200 Demo.lib Demo.free_port
              (Demo.request "GET /pub/b%26w.txt HTTP/1.0")
              (Demo.parsed "GET" "/pub/b%26w.txt" "HTTP/1.0" Demo.no_headers)
              (py "/pub/b%26w.txt") [py "pub"; py "b&w.txt"]
              (Demo.regular true "bw" None)) as (_ & _ & H).
  - repeat split; try reflexivity.
    + vm_compute. discriminate.
    + exists silent, true. reflexivity.
  - repeat split; try reflexivity. left. left. reflexivity.
  - reflexivity.
  - discriminate.
  - reflexivity.
  - reflexivity.
  - destruct H as (_ & _ & _ & H).
    + reflexivity.
    + intros (t & Ht & _). discriminate Ht.
    + exact (proj1 (H eq_refl)).
Defined.

(** ** The accept loop *)

Lemma serve_forever_uninterrupted (L : Lib) (sys : OS)
    (arrivals : list incoming) :
  interrupted arrivals = false -> snd (serve_forever L sys arrivals) = None.
Proof.
  induction arrivals as [|a rest IH]; intros H; [reflexivity|].
  destruct a as [requests| |].
  - rewrite (every_connection_keeps_serving L sys requests rest).
    apply IH, H.
  - apply IH, H.
  - discriminate.
Qed.

(** Once the socket is bound, only an interruption from outside ends the
    process. *)
Lemma main_keeps_serving (L : Lib) (sys : OS) (arrivals : list incoming) :
  bind sys [] PORT = None -> interrupted arrivals = false ->
  snd (main L sys arrivals) = Serving.
Proof.
  intros Hb Hi. unfold main. rewrite Hb.
  pose proof (serve_forever_uninterrupted L sys arrivals Hi) as H.
  destruct (serve_forever L sys arrivals) as [t [e|]];
    [discriminate | reflexivity].
Qed.

(** ** C6: a read that fails *)

(** C6, as stated, fails on the code: reading [bad.bin] fails after two
    bytes, and what the client gets is the status line 200, the headers
    and those two bytes; no 500-class status is sent. *)
Lemma failed_read_sends_no_500 :
  statuses_of (wire (sent (Demo.serve
                 (Demo.request "GET /bad.bin HTTP/1.0")))) = [200%N]
  /\ existsb server_error
       (statuses_of (wire (sent (Demo.serve
                       (Demo.request "GET /bad.bin HTTP/1.0"))))) = false
  /\ body_of (wire (sent (Demo.serve
                 (Demo.request "GET /bad.bin HTTP/1.0")))) = py "ab"
  /\ raised (Demo.serve (Demo.request "GET /bad.bin HTTP/1.0"))
     = Some (OSError EIO).
Proof. repeat split; vm_compute; reflexivity. Qed.

(** C6, amended. Let an HTTP/1.x GET be answered from a regular file
    that the process may open, with no cache hit: the file at the path
    the target spells, or the index file of the directory it spells.
    When reading the file fails with an I/O error, the status line 200
    and the headers have already been sent, the bytes read so far follow
    and no 500-class status is sent; the exception is caught by the
    server, which logs a traceback, closes that connection and goes on
    with what arrives next.  No connection ends the process: after a
    successful bind it keeps serving until it is interrupted from
    outside. *)
Theorem read_failure_is_isolated (L : Lib) (sys : OS) (raw : raw_request)
    (self : handler) (target : str) (ws : list str) (p : str) (f : file)
    (n : nat) :
  urlsplit_plain L ->
  is_request L raw self (py "GET") target ->
  spells L target ws -> forallb simple_name ws = true ->
  answered_from (files sys) (getcwd sys) target ws p ->
  os.stat (files sys) p = Found (RegularFile f) ->
  f_readable f = true -> ~ cache_hit self f ->
  f_fails_after f = Some n ->
  let r := handle_one_request L (files sys) (getcwd sys) raw in
  statuses_of (wire (sent r)) = [200%N]
  /\ existsb server_error (statuses_of (wire (sent r))) = false
  /\ body_of (wire (sent r)) = firstn n (f_data f)
  /\ raised r = Some (OSError EIO)
  /\ process_request L sys [raw]
     = (EvSend (wire (sent r)) :: map EvStderr (log (sent r))
        ++ [EvStderr (LogTraceback (OSError EIO)); EvShutdownRequest], None)
  /\ keeps_serving L sys [raw]
  /\ (forall arrivals,
        bind sys [] PORT = None -> interrupted arrivals = false ->
        snd (main L sys arrivals) = Serving).
Proof.
  intros Hsplit Hreq Hsp Hws Hfrom Hstat Hr Hc Hio r.
  destruct (send_head_answered_from L (files sys) (getcwd sys) _ _ _ _ _ _ _
              Hsplit Hreq Hsp Hws Hfrom Hstat) as [Hhead He].
  destruct (get_regular_file L (files sys) (getcwd sys) raw self target p f
              Hreq Hhead Hstat He) as (_ & _ & H).
  destruct (H Hr Hc) as (H1 & _ & _ & _ & H2 & H3).
  fold r in H1, H2, H3. rewrite Hio in H2, H3.
  split; [exact H1|]. split; [rewrite H1; reflexivity|].
  split; [exact H2|]. split; [exact H3|].
  split; [|split].
  - unfold process_request, Handler. cbn [handle]. fold r. rewrite H3.
    reflexivity.
  - apply every_connection_keeps_serving.
  - intros arrivals. apply main_keeps_serving.
Qed.

Lemma read_failure_is_isolated_witness :
  raised (Demo.serve (Demo.request "GET /my%20dir/ HTTP/1.0"))
  = Some (OSError EIO).
Proof.
  refine (proj1 (proj2 (proj2 (proj2
            (read_failure_is_isolated Demo.lib Demo.free_port
               (Demo.request "GET /my%20dir/ HTTP/1.0")
               (Demo.parsed "GET" "/my%20dir/" "HTTP/1.0" Demo.no_headers)
               (py "/my%20dir/") [py "my dir"]
               (py "/srv/www/my dir/index.htm")
               (Demo.regular true "<p>torn</p>" (Some 2))
               2 _ _ _ _ _ _ _ _ _))))).
  - exact demo_lib_urlsplit_plain.
  - repeat split; try reflexivity.
    + vm_compute. discriminate.
    + exists silent, true. reflexivity.
  - repeat split; try reflexivity. right. left. reflexivity.
  - reflexivity.
  - right. repeat split; try reflexivity. right. split; reflexivity.
  - reflexivity.
  - reflexivity.
  - intros (t & Ht & _). discriminate Ht.
  - reflexivity.
Defined.

(** ** C3 and C7: start-up *)

Lemma filter_map_none {A B} (p : B -> bool) (g : A -> B) (l : list A) :
  (forall x, p (g x) = false) -> filter p (map g l) = [].
Proof.
  intros H. induction l as [|x l IH]; simpl; [reflexivity|].
  rewrite H. exact IH.
Qed.

Lemma flat_map_map_none {A B C} (h : B -> list C) (g : A -> B) (l : list A) :
  (forall x, h (g x) = []) -> flat_map h (map g l) = [].
Proof.
  intros H. induction l as [|x l IH]; simpl; [reflexivity|].
  rewrite H. exact IH.
Qed.

(** Serving one connection closes it once, prints nothing on standard
    output and binds nothing. *)
Lemma process_request_events (L : Lib) (sys : OS)
    (requests : list raw_request) :
  let t := fst (process_request L sys requests) in
  served_of t = 1 /\ stdout_of t = [] /\ binds_of t = [].
Proof.
  unfold process_request.
  destruct (Handler L sys requests) as [o e].
  assert (H1 : forall tl,
             served_of ((EvSend (wire o) :: map EvStderr (log o)) ++ tl)
             = served_of tl).
  { intros tl. unfold served_of. cbn [app filter].
    rewrite filter_app, filter_map_none by reflexivity. reflexivity. }
  assert (H2 : forall tl,
             stdout_of ((EvSend (wire o) :: map EvStderr (log o)) ++ tl)
             = stdout_of tl).
  { intros tl. unfold stdout_of. cbn [app flat_map].
    rewrite flat_map_app, flat_map_map_none by reflexivity. reflexivity. }
  assert (H3 : forall tl,
             binds_of ((EvSend (wire o) :: map EvStderr (log o)) ++ tl)
             = binds_of tl).
  { intros tl. unfold binds_of. cbn [app flat_map].
    rewrite flat_map_app, flat_map_map_none by reflexivity. reflexivity. }
  destruct e as [e|]; [destruct (is_Exception e)|];
    cbn [fst]; rewrite H1, H2, H3; repeat split; reflexivity.
Qed.

Lemma served_of_app (a b : list event) :
  served_of (a ++ b) = served_of a + served_of b.
Proof. unfold served_of. rewrite filter_app. apply length_app. Qed.

Lemma stdout_of_app (a b : list event) :
  stdout_of (a ++ b) = stdout_of a ++ stdout_of b.
Proof. apply flat_map_app. Qed.

Lemma binds_of_app (a b : list event) :
  binds_of (a ++ b) = binds_of a ++ binds_of b.
Proof. apply flat_map_app. Qed.

(** The accept loop closes as many connections as clients arrived,
    prints nothing on standard output and binds nothing. *)
Lemma serve_forever_events (L : Lib) (sys : OS) (arrivals : list incoming) :
  interrupted arrivals = false ->
  let t := fst (serve_forever L sys arrivals) in
  served_of t = clients_of arrivals /\ stdout_of t = [] /\ binds_of t = [].
Proof.
  induction arrivals as [|a rest IH]; intros H; [repeat split; reflexivity|].
  destruct a as [requests| |].
  - rewrite (every_connection_keeps_serving L sys requests rest).
    cbn [fst].
    destruct (process_request_events L sys requests) as (P1 & P2 & P3).
    destruct (IH H) as (I1 & I2 & I3).
    rewrite served_of_app, stdout_of_app, binds_of_app,
      P1, P2, P3, I1, I2, I3.
    repeat split; reflexivity.
  - apply IH, H.
  - discriminate.
Qed.

(** C3. If binding the configured port fails because the address is in
    use, the script makes that one attempt and ends with the [OSError]
    uncaught, reported in a traceback on standard error: nothing is
    announced on standard output and no connection is served, whatever
    arrives. *)
Theorem bind_failure_is_fatal (L : Lib) (sys : OS)
    (arrivals : list incoming) :
  bind sys [] PORT = Some EADDRINUSE ->
  main L sys arrivals
  = ([EvBind [] 8888 (Some EADDRINUSE); EvServerClose;
      EvStderr (LogTraceback (OSError EADDRINUSE))],
     Uncaught (OSError EADDRINUSE))
  /\ binds_of (fst (main L sys arrivals)) = [([], 8888%N)]
  /\ stdout_of (fst (main L sys arrivals)) = []
  /\ served_of (fst (main L sys arrivals)) = 0
  /\ snd (main L sys arrivals) <> Serving.
Proof.
  intros H. unfold main. rewrite H.
  repeat split; try reflexivity. discriminate.
Qed.

Lemma bind_failure_is_fatal_witness :
  snd (main Demo.lib Demo.busy_port
         [Client [Demo.request "GET /a.txt HTTP/1.0"]])
  = Uncaught (OSError EADDRINUSE).
Proof.
  exact (f_equal snd
           (proj1 (bind_failure_is_fatal Demo.lib Demo.busy_port
                     [Client [Demo.request "GET /a.txt HTTP/1.0"]] eq_refl))).
Defined.

(** C7. When the bind succeeds the script, in this order, binds one
    socket to host [""] (every interface) on port 8888, starts
    listening, prints the single line
    ["Serving at http://localhost:8888"] on standard output, and enters
    the accept loop, which handles every client that arrives and is
    still running afterwards, for as long as the process is not
    interrupted. *)
Theorem startup_sequence (L : Lib) (sys : OS) (arrivals : list incoming) :
  bind sys [] PORT = None -> interrupted arrivals = false ->
  let t := fst (main L sys arrivals) in
  firstn 3 t
  = [EvBind [] 8888 None; EvListen;
     EvStdout (py "Serving at http://localhost:8888" ++ LF)]
  /\ binds_of t = [([], 8888%N)]
  /\ stdout_of t = [py "Serving at http://localhost:8888" ++ LF]
  /\ served_of t = clients_of arrivals
  /\ snd (main L sys arrivals) = Serving.
Proof.
  intros Hb Hi t.
  pose proof (main_keeps_serving L sys arrivals Hb Hi) as Hs.
  destruct (serve_forever_events L sys arrivals Hi) as (E1 & E2 & E3).
  pose proof (serve_forever_uninterrupted L sys arrivals Hi) as Hn.
  subst t. unfold main in *. rewrite Hb in *.
  destruct (serve_forever L sys arrivals) as [t' [e|]]; [discriminate|].
  cbn [fst snd] in *.
  rewrite served_of_app, stdout_of_app, binds_of_app, E1, E2, E3.
  repeat split; reflexivity.
Qed.

Lemma startup_sequence_witness :
  stdout_of (fst (main Demo.lib Demo.free_port
                    [Client [Demo.request "GET /bad.bin HTTP/1.0"];
                     AcceptFails;
                     Client [Demo.request "GET /a.txt HTTP/1.0"]]))
  = [py "Serving at http://localhost:8888" ++ LF].
Proof.
  exact (proj1 (proj2 (proj2
           (startup_sequence Demo.lib Demo.free_port
              [Client [Demo.request "GET /bad.bin HTTP/1.0"];
               AcceptFails;
               Client [Demo.request "GET /a.txt HTTP/1.0"]]
              eq_refl eq_refl)))).
Defined.

(** ** C9: a directory with an index file *)

(** C9, as stated, fails on the code: the directory [vault] contains a
    regular file [index.html] which the process may not open, and the
    GET for ["/vault/"] is answered 404 instead of that file's contents.
    And [docs/index.html] is not sent again to a client that names a time
    after its last modification: the answer is 304, without a body. *)
Lemma index_file_not_always_served :
  os.isdir Demo.fs (join_all Demo.cwd [py "vault"] ++ py "/") = true
  /\ os.isfile Demo.fs
       (join_all Demo.cwd [py "vault"] ++ py "/" ++ py "index.html") = true
  /\ status_of (wire (sent (Demo.serve
                 (Demo.request "GET /vault/ HTTP/1.0")))) = Some 404%N
  /\ os.isfile Demo.fs
       (join_all Demo.cwd [py "docs"] ++ py "/" ++ py "index.html") = true
  /\ status_of (wire (sent (Demo.serve
                 (Demo.conditional_request "GET /docs/ HTTP/1.0" 600))))
     = Some 304%N
  /\ body_of (wire (sent (Demo.serve
                 (Demo.conditional_request "GET /docs/ HTTP/1.0" 600)))) = [].
Proof. repeat split; vm_compute; reflexivity. Qed.

(** C9, amended. Let the target be any spelling, with a leading and a
    final slash, of a path ["/w1/.../wn"] that is a directory [D] under
    the served root, and [index] the regular file [D/index.html] or,
    when there is no regular file of that name, the regular file
    [D/index.htm].  An HTTP/1.x GET for the target is answered from
    [index] and no listing is generated: 404 when the process may not
    open [index] (neither the other index file nor a listing is tried);
    304 without a body when it can be opened and the request passes the
    browser-cache test for it; and otherwise status 200, the content
    type of [index] and, when reading it does not fail, its bytes as the
    body. *)
Theorem index_file_served (L : Lib) (sys : OS) (raw : raw_request)
    (self : handler) (target : str) (ws : list str) (index : str)
    (f : file) :
  urlsplit_plain L ->
  is_request L raw self (py "GET") target ->
  spells L target ws -> forallb simple_name ws = true ->
  startswith target (py "/") = true -> endswith target (py "/") = true ->
  let D := join_all (getcwd sys) ws ++ py "/" in
  os.isdir (files sys) D = true ->
  index_of (files sys) D index ->
  os.stat (files sys) index = Found (RegularFile f) ->
  let r := handle_one_request L (files sys) (getcwd sys) raw in
  (f_readable f = false ->
   status_of (wire (sent r)) = Some 404%N /\ raised r = None)
  /\ (f_readable f = true -> cache_hit self f ->
      status_of (wire (sent r)) = Some 304%N
      /\ body_of (wire (sent r)) = [] /\ raised r = None)
  /\ (f_readable f = true -> ~ cache_hit self f ->
      status_of (wire (sent r)) = Some 200%N
      /\ header_of (py "Content-type") (wire (sent r))
         = Some (guess_type L index)
      /\ header_of (py "Content-Length") (wire (sent r))
         = Some (str_of_N (f_size f))
      /\ (f_fails_after f = None ->
          body_of (wire (sent r)) = f_data f /\ raised r = None)).
Proof.
  intros Hsplit Hreq Hsp Hws Hl He D Hd Hi Hstat r.
  assert (Hfrom : answered_from (files sys) (getcwd sys) target ws index)
    by (right; auto).
  destruct (send_head_answered_from L (files sys) (getcwd sys) _ _ _ _ _ _ _
              Hsplit Hreq Hsp Hws Hfrom Hstat) as [Hhead Hp].
  destruct (get_regular_file L (files sys) (getcwd sys) raw self target _ f
              Hreq Hhead Hstat Hp) as (H1 & H2 & H3).
  split; [exact H1 | split; [exact H2|]].
  intros Hr Hc. destruct (H3 Hr Hc) as (_ & S & T & C & B & R).
  split; [exact S | split; [exact T | split; [exact C|]]].
  intros Hio. rewrite Hio in B, R. split; assumption.
Qed.

Lemma index_file_served_witness :
  body_of (wire (sent (Demo.serve (Demo.request "GET /docs/ HTTP/1.0"))))
  = py "<h1>hi</h1>".
Proof.
  destruct (index_file_served Demo.lib Demo.free_port
              (Demo.request "GET /docs/ HTTP/1.0")
              (Demo.parsed "GET" "/docs/" "HTTP/1.0" Demo.no_headers)
              (py "/docs/") [py "docs"]
              (py "/srv/www/docs/index.html")
              (Demo.regular true "<h1>hi</h1>" None)) as (_ & _ & H).
  - exact demo_lib_urlsplit_plain.
  - repeat split; try reflexivity.
    + vm_compute. discriminate.
    + exists silent, true. reflexivity.
  - repeat split; try reflexivity. right. left. reflexivity.
  - reflexivity.
  - reflexivity.
  - reflexivity.
  - reflexivity.
  - split; [left|]; reflexivity.
  - reflexivity.
  - destruct H as (_ & _ & _ & H).
    + reflexivity.
    + intros (t & Ht & _). discriminate Ht.
    + exact (proj1 (H eq_refl)).
Defined.

(** ** C5: a directory listing *)

Lemma insert_by_In (key : str -> str) (x y : str) (l : list str) :
  In y (insert_by key x l) <-> y = x \/ In y l.
Proof.
  induction l as [|z l IH]; simpl.
  - intuition.
  - destruct (str_leb (key z) (key x)); simpl; rewrite ?IH; intuition.
Qed.

Lemma sort_by_fold_In (key : str -> str) (y : str) (l acc : list str) :
  In y (fold_left (fun acc x => insert_by key x acc) l acc)
  <-> In y l \/ In y acc.
Proof.
  revert acc; induction l as [|x l IH]; intros acc; simpl.
  - intuition.
  - rewrite IH, insert_by_In. intuition.
Qed.

(** Sorting loses no name and invents none. *)
Lemma sort_by_In (key : str -> str) (y : str) (l : list str) :
  In y (sort_by key l) <-> In y l.
Proof.
  unfold sort_by. rewrite sort_by_fold_In. simpl. intuition.
Qed.

(** The list item of an entry shows its name, escaped for HTML. *)
Lemma list_item_shows_name (L : Lib) (fs : FS) (p name : str) :
  infix (html_escape name) (list_item L fs p name).
Proof.
  unfold list_item.
  assert (H : forall display,
             infix (html_escape name) (html_escape display) ->
             forall link,
               infix (html_escape name)
                 (py "<li><a href=" ++ dq ++ quote L link ++ dq ++ py ">"
                  ++ html_escape display ++ py "</a></li>")).
  { intros display Hd link. do 5 apply infix_app_r. apply infix_app_l, Hd. }
  destruct (os.isdir fs (posixpath.join p name));
    destruct (os.islink fs (posixpath.join p name)); cbv beta iota zeta;
    apply H; rewrite ?html_escape_app;
    first [apply infix_refl | apply infix_app_l, infix_refl].
Qed.

(** The listing shows every name [os.listdir] returned. *)
Lemma listing_shows_names (L : Lib) (fs : FS) (self : handler) (p : str)
    (names : list str) (name : str) :
  In name names ->
  infix (html_escape name) (listing_text L fs self p names).
Proof.
  intros H. unfold listing_text. cbv zeta.
  apply (infix_trans _ (list_item L fs p name)).
  - apply list_item_shows_name.
  - apply infix_str_join, in_or_app. right. apply in_or_app. left.
    apply in_map, sort_by_In, H.
Qed.

(** C5, as stated, fails on the code: the directory [docs] has the
    entries [index.html] and [notes.txt], and the GET for ["/docs/"] is
    answered with the contents of [index.html], in which [notes.txt] is
    not named.  The directory [dark] cannot be listed, and the GET for
    ["/dark/"] is answered 404.  In the listing of [pub] the entry
    [b&w.txt] is written [b&amp;w.txt]. *)
Lemma directory_not_always_listed :
  os.listdir Demo.fs (join_all Demo.cwd [py "docs"] ++ py "/")
  = Returns [py "index.html"; py "notes.txt"]
  /\ body_of (wire (sent (Demo.serve (Demo.request "GET /docs/ HTTP/1.0"))))
     = py "<h1>hi</h1>"
  /\ contains
       (body_of (wire (sent (Demo.serve (Demo.request "GET /docs/ HTTP/1.0")))))
       (py "notes.txt") = false
  /\ os.isdir Demo.fs (join_all Demo.cwd [py "dark"] ++ py "/") = true
  /\ status_of (wire (sent (Demo.serve
                 (Demo.request "GET /dark/ HTTP/1.0")))) = Some 404%N
  /\ In (py "b&w.txt")
       (match os.listdir Demo.fs (join_all Demo.cwd [py "pub"] ++ py "/") with
        | Returns names => names
        | _ => []
        end)
  /\ contains
       (body_of (wire (sent (Demo.serve (Demo.request "GET /pub/ HTTP/1.0")))))
       (py "b&w.txt") = false.
Proof.
  repeat split; try (vm_compute; reflexivity).
  left. reflexivity.
Qed.

(** C5, amended. Let the target be any spelling, with a leading and a
    final slash, of a path ["/w1/.../wn"] that is a directory under the
    served root and holds no regular file [index.html] or [index.htm].
    When the directory can be listed, an HTTP/1.x GET for the target is
    answered with status 200, content type ["text/html; charset="]
    followed by the file-system encoding, and as body the encoding of an
    HTML text in which every entry of the directory is named, escaped
    for HTML.  When it cannot be listed, the answer is 404. *)
Theorem directory_listing_200 (L : Lib) (sys : OS) (raw : raw_request)
    (self : handler) (target : str) (ws : list str)
    (listing : option (list str)) :
  urlsplit_plain L ->
  is_request L raw self (py "GET") target ->
  spells L target ws -> forallb simple_name ws = true ->
  startswith target (py "/") = true -> endswith target (py "/") = true ->
  let D := join_all (getcwd sys) ws ++ py "/" in
  os.stat (files sys) D = Found (Directory listing) ->
  os.isfile (files sys) (D ++ py "index.html") = false ->
  os.isfile (files sys) (D ++ py "index.htm") = false ->
  let r := handle_one_request L (files sys) (getcwd sys) raw in
  match listing with
  | Some names =>
      status_of (wire (sent r)) = Some 200%N
      /\ header_of (py "Content-type") (wire (sent r))
         = Some (py "text/html; charset=" ++ getfilesystemencoding L)
      /\ (exists text,
            body_of (wire (sent r)) = encode_fs L text
            /\ forall name, In name names ->
                            contains text (html_escape name) = true)
      /\ raised r = None
  | None =>
      status_of (wire (sent r)) = Some 404%N /\ raised r = None
  end.
Proof.
  intros Hsplit Hreq Hsp Hws Hl He D Hstat Hi1 Hi2 r. subst r.
  rewrite (is_request_handled _ _ _ _ _ _ _ Hreq).
  assert (Hd : os.isdir (files sys) D = true)
    by (unfold os.isdir; rewrite Hstat; reflexivity).
  pose proof (send_head_directory L (files sys) (getcwd sys) _ _ _ _ _
                Hsplit Hreq Hsp Hws Hl He Hd) as Hhead.
  destruct Hreq as (_ & Hv & _ & Hp).
  change (method L (files sys) (getcwd sys) (py "GET"))
    with (Some (do_GET L (files sys) (getcwd sys))).
  cbv iota.
  assert (Hfind : find_index (files sys) D = None).
  { unfold find_index. cbn [map find].
    assert (J : forall name, simple_name name = true ->
                             posixpath.join D name = D ++ name).
    { intros name Hn. rewrite (join_simple _ _ Hn).
      change posixpath.sep with (py "/"). unfold D.
      rewrite endswith_dir, orb_true_r. reflexivity. }
    rewrite !J by reflexivity. rewrite Hi1, Hi2. reflexivity. }
  unfold do_GET. rewrite Hhead. fold D. rewrite Hfind.
  unfold list_directory, os.listdir. rewrite Hstat.
  unfold http1x in Hv.
  destruct listing as [names|].
  - unfold copyfile. unfold_senders. rewrite Hv.
    cbn. rewrite app_nil_r.
    repeat split; try reflexivity.
    exists (listing_text L (files sys) self D names). split; [reflexivity|].
    intros name Hn. apply contains_infix, listing_shows_names, Hn.
  - cbn [sent raised].
    split; [apply send_error_status, Hv | reflexivity].
Qed.

Lemma directory_listing_200_witness :
  status_of (wire (sent (Demo.serve (Demo.request "GET /pub/ HTTP/1.0"))))
  = Some 200%N.
Proof.
  refine (proj1
            (directory_listing_200 Demo.lib Demo.free_port
               (Demo.request "GET /pub/ HTTP/1.0")
               (Demo.parsed "GET" "/pub/" "HTTP/1.0" Demo.no_headers)
               (py "/pub/") [py "pub"]
               (Some [py "b&w.txt"; py "Zed"; py "x.gz"])
               _ _ _ _ _ _ _ _ _)).
  - exact demo_lib_urlsplit_plain.
  - repeat split; try reflexivity.
    + vm_compute. discriminate.
    + exists silent, true. reflexivity.
  - repeat split; try reflexivity. right. left. reflexivity.
  - reflexivity.
  - reflexivity.
  - reflexivity.
  - reflexivity.
  - reflexivity.
  - reflexivity.
Defined.

(** ** C1: the served root is not left *)

(** The side condition of [under]: the rest starts at a component
    boundary. *)
Lemma boundary_app (d rest x : str) :
  rest <> [] ->
  (is_empty rest || startswith rest (py "/")
   || is_empty d || endswith d (py "/")) = true ->
  (is_empty (rest ++ x) || startswith (rest ++ x) (py "/")
   || is_empty d || endswith d (py "/")) = true.
Proof.
  intros Hne H. destruct rest as [|c rest]; [congruence|].
  exact H.
Qed.

Lemma under_refl (d : str) : under d d.
Proof.
  exists []. rewrite app_nil_r. repeat split; reflexivity.
Qed.

Lemma forallb_split_snoc (rest : str) :
  forallb no_dots (split slash (rest ++ [slash])) = true ->
  forallb no_dots (split slash rest) = true.
Proof.
  change (rest ++ [slash]) with (rest ++ slash :: []).
  rewrite split_app_sep, forallb_app. intros H.
  apply andb_true_iff in H as [H _]. exact H.
Qed.

Lemma no_dots_simple (w : str) : simple_name w = true -> no_dots w = true.
Proof.
  intros H. apply simple_name_inv in H as (_ & _ & H1 & H2).
  unfold no_dots. rewrite H1, H2. reflexivity.
Qed.

Lemma snoc_cases {A} (l : list A) : l = [] \/ exists r c, l = r ++ [c].
Proof.
  destruct l as [|x l]; [left; reflexivity | right].
  destruct (exists_last (l := x :: l)) as (r & c & E); [discriminate|].
  exists r, c. exact E.
Qed.

(** Appending a file name to a path under [d] stays under [d]. *)
Lemma under_join (d p w : str) :
  under d p -> simple_name w = true -> under d (posixpath.join p w).
Proof.
  intros (rest & -> & Hb & Hc) Hw.
  pose proof (no_dots_simple _ Hw) as Hnd.
  pose proof (simple_name_inv _ Hw) as (_ & Hs & _).
  rewrite (join_simple _ _ Hw).
  destruct (is_empty (d ++ rest) || endswith (d ++ rest) posixpath.sep) eqn:E.
  - destruct (snoc_cases rest) as [-> | (r & c & ->)].
    + rewrite app_nil_r in *. exists w. repeat split.
      * change posixpath.sep with (py "/") in E.
        rewrite <- !orb_assoc, E, !orb_true_r. reflexivity.
      * rewrite (split_nosep _ _ Hs). simpl. rewrite Hnd. reflexivity.
    + assert (Hc' : c = slash).
      { rewrite app_assoc in E. change posixpath.sep with [slash] in E.
        rewrite endswith_snoc in E.
        replace (is_empty ((d ++ r) ++ [c])) with false in E
          by (destruct (d ++ r); reflexivity).
        apply Ascii.eqb_eq in E. auto. }
      subst c. exists ((r ++ [slash]) ++ w). repeat split.
      * rewrite <- app_assoc. reflexivity.
      * apply boundary_app; [destruct r; discriminate | exact Hb].
      * rewrite <- app_assoc. change ([slash] ++ w) with (slash :: w).
        rewrite split_app_sep, forallb_app, (split_nosep _ _ Hs).
        rewrite (forallb_split_snoc _ Hc). simpl. rewrite Hnd. reflexivity.
  - exists (rest ++ slash :: w). repeat split.
    + rewrite <- app_assoc. reflexivity.
    + destruct rest as [|c rest]; [reflexivity | exact Hb].
    + rewrite split_app_sep, forallb_app, Hc, (split_nosep _ _ Hs).
      simpl. rewrite Hnd. reflexivity.
Qed.

Lemma under_slash (d p : str) : under d p -> under d (p ++ py "/").
Proof.
  intros (rest & -> & Hb & Hc). exists (rest ++ slash :: []). repeat split.
  - rewrite <- app_assoc. reflexivity.
  - destruct rest as [|c rest]; [reflexivity | exact Hb].
  - rewrite split_app_sep, forallb_app, Hc. reflexivity.
Qed.

(** A word that [translate_path] appends is a file name. *)
Lemma translate_step_under (d p s w : str) :
  under d p -> In w (filter (fun w => negb (is_empty w)) (split slash s)) ->
  under d (translate_step p w).
Proof.
  intros Hu Hin. apply filter_In in Hin as [Hin Hne].
  apply negb_true_iff in Hne.
  pose proof (split_pieces _ _ _ Hin) as Hs.
  unfold translate_step. rewrite (dirname_simple _ Hs). cbn [is_empty negb orb].
  destruct (str_eqb w posixpath.curdir) eqn:E1; [exact Hu|].
  destruct (str_eqb w posixpath.pardir) eqn:E2; [exact Hu|].
  cbn [orb]. apply under_join; [exact Hu|].
  unfold simple_name. rewrite Hne, Hs, E1, E2. reflexivity.
Qed.

Lemma translate_fold_under (d s : str) (ws : list str) (p : str) :
  (forall w, In w ws ->
             In w (filter (fun w => negb (is_empty w)) (split slash s))) ->
  under d p -> under d (fold_left translate_step ws p).
Proof.
  revert p; induction ws as [|w ws IH]; intros p Hin Hu; [exact Hu|].
  simpl. apply IH.
  - intros v Hv. apply Hin. right. exact Hv.
  - apply (translate_step_under d p s w Hu). apply Hin. left. reflexivity.
Qed.

(** Whatever the target, and whatever percent decoding makes of it, the
    path [translate_path] returns is under [directory]. *)
Lemma translate_path_under (L : Lib) (d target : str) :
  under d (translate_path L d target).
Proof.
  unfold translate_path. cbv zeta.
  set (s := posixpath.normpath _).
  assert (H : under d (fold_left translate_step
                         (filter (fun w => negb (is_empty w)) (split slash s))
                         d)).
  { apply (translate_fold_under d s); [auto | apply under_refl]. }
  destruct (endswith _ _); [apply under_slash, H | exact H].
Qed.

(** On a path under [d], two file systems that agree there answer the
    handler's questions alike. *)
Section Agreement.

Variable L : Lib.
Variables fs1 fs2 : FS.
Variable d : str.
Hypothesis names_ok : listings_hold_names fs1.
Hypothesis agree : agree_under d fs1 fs2.

Lemma agree_isdir (p : str) :
  under d p -> os.isdir fs1 p = os.isdir fs2 p.
Proof.
  intros H. unfold os.isdir, os.stat. rewrite (proj1 (agree p H)).
  reflexivity.
Qed.

Lemma agree_isfile (p : str) :
  under d p -> os.isfile fs1 p = os.isfile fs2 p.
Proof.
  intros H. unfold os.isfile, os.stat. rewrite (proj1 (agree p H)).
  reflexivity.
Qed.

Lemma agree_send_file (self : handler) (p : str) :
  under d p -> send_file L fs1 self p = send_file L fs2 self p.
Proof.
  intros H. unfold send_file, os.open, os.stat.
  rewrite (proj1 (agree p H)). reflexivity.
Qed.

Lemma agree_find_index (p : str) :
  under d p -> find_index fs1 p = find_index fs2 p.
Proof.
  intros H. unfold find_index. cbn [map find].
  rewrite !agree_isfile by (apply under_join; [exact H | reflexivity]).
  reflexivity.
Qed.

Lemma agree_list_item (p name : str) :
  under d p -> simple_name name = true ->
  list_item L fs1 p name = list_item L fs2 p name.
Proof.
  intros H Hn. unfold list_item.
  pose proof (under_join d p name H Hn) as Hj.
  unfold os.islink. rewrite (agree_isdir _ Hj), (proj2 (agree _ Hj)).
  reflexivity.
Qed.

Lemma agree_list_directory (self : handler) (p : str) :
  under d p -> list_directory L fs1 self p = list_directory L fs2 self p.
Proof.
  intros H. unfold list_directory, os.listdir, os.stat.
  rewrite <- (proj1 (agree p H)).
  destruct (has_char (chr 0) p); [reflexivity|].
  destruct (stat fs1 p) as [[f|[names|]]| |] eqn:Hs; try reflexivity.
  assert (E : listing_text L fs1 self p names
              = listing_text L fs2 self p names).
  { unfold listing_text. cbv zeta. do 3 f_equal.
    apply map_ext_in. intros name Hin. apply agree_list_item; [exact H|].
    apply sort_by_In in Hin.
    pose proof (names_ok p names Hs) as Hn.
    rewrite forallb_forall in Hn. auto. }
  rewrite E. reflexivity.
Qed.

Lemma agree_send_head (self : handler) :
  send_head L fs1 d self = send_head L fs2 d self.
Proof.
  unfold send_head.
  pose proof (translate_path_under L d (self_path self)) as H.
  rewrite (agree_isdir _ H), (agree_find_index _ H),
    (agree_list_directory self _ H), (agree_send_file self _ H).
  destruct (os.isdir fs2 _); [|reflexivity].
  destruct (urlsplit L (self_path self)); [|reflexivity].
  destruct (negb _); [reflexivity|].
  destruct (find_index fs2 _) as [index|] eqn:E; [|reflexivity].
  apply agree_send_file.
  unfold find_index in E. apply find_some in E as [E _].
  cbn [map] in E. destruct E as [<- | [<- | []]];
    (apply under_join; [exact H | reflexivity]).
Qed.

Lemma agree_handle_one_request (raw : raw_request) :
  handle_one_request L fs1 d raw = handle_one_request L fs2 d raw.
Proof.
  unfold handle_one_request, method.
  destruct (parse_request L raw) as [self o c|o]; [|reflexivity].
  destruct (str_eqb (self_command self) (py "GET")).
  - unfold do_GET. rewrite (agree_send_head self). reflexivity.
  - destruct (str_eqb (self_command self) (py "HEAD")); [|reflexivity].
    unfold do_HEAD. rewrite (agree_send_head self). reflexivity.
Qed.

Lemma agree_handle (requests : list raw_request) :
  handle L fs1 d requests = handle L fs2 d requests.
Proof.
  induction requests as [|raw rest IH]; [reflexivity|].
  simpl. rewrite (agree_handle_one_request raw), IH. reflexivity.
Qed.

End Agreement.

(** C1. Whatever the request target (parent-directory segments, percent
    escapes, absolute forms), the path the handler looks up is the
    served root followed by components none of which is ["."] or [".."];
    and what the handler sends and raises on a connection depends on
    nothing but what lies at such paths: two file systems that agree
    under the served root get the same replies, whatever they hold
    elsewhere. *)
Theorem served_root_is_not_left (L : Lib) (d : str) (fs1 fs2 : FS) :
  listings_hold_names fs1 ->
  agree_under d fs1 fs2 ->
  (forall target, under d (translate_path L d target))
  /\ (forall requests, handle L fs1 d requests = handle L fs2 d requests).
Proof.
  intros Hn Ha. split.
  - intros target. apply translate_path_under.
  - intros requests. apply agree_handle; assumption.
Qed.

Lemma lookup_names_ok (tbl : list (string * entry)) (p : str)
    (names : list str) :
  forallb (fun e => match snd e with
                    | Directory (Some ns) => forallb simple_name ns
                    | _ => true
                    end) tbl = true ->
  Demo.lookup tbl p = Found (Directory (Some names)) ->
  forallb simple_name names = true.
Proof.
  unfold Demo.lookup. induction tbl as [|[k e] tbl IH]; simpl;
    [discriminate|].
  intros H. apply andb_true_iff in H as [He H].
  destruct (str_eqb (py k) p).
  - simpl. intros E. inversion E; subst. exact He.
  - apply IH, H.
Qed.

Lemma demo_listings_hold_names : listings_hold_names Demo.fs.
Proof.
  intros p names H. apply (lookup_names_ok Demo.table p names); [|exact H].
  vm_compute. reflexivity.
Qed.

Lemma demo_agree_under : agree_under Demo.cwd Demo.fs Demo.fs_with_passwd.
Proof.
  intros p (rest & -> & _). split; [|reflexivity].
  cbn [stat Demo.fs Demo.fs_with_passwd]. unfold Demo.lookup at 2.
  cbn [find fst].
  replace (str_eqb (py "/etc/passwd") (Demo.cwd ++ rest)) with false
    by (vm_compute; reflexivity).
  reflexivity.
Qed.

Lemma served_root_is_not_left_witness :
  under Demo.cwd (translate_path Demo.lib Demo.cwd (py "/../../etc/passwd"))
  /\ handle Demo.lib Demo.fs Demo.cwd
       [Demo.request "GET /../../etc/passwd HTTP/1.0"]
     = handle Demo.lib Demo.fs_with_passwd Demo.cwd
         [Demo.request "GET /../../etc/passwd HTTP/1.0"].
Proof.
  destruct (served_root_is_not_left Demo.lib Demo.cwd Demo.fs
              Demo.fs_with_passwd demo_listings_hold_names demo_agree_under)
    as [H1 H2].
  split; [apply H1 | apply H2].
Defined.

(* ================================================================= *)
(** * Further properties of the code *)

(** ** The accept loop in every run *)

Lemma serve_forever_quiet (L : Lib) (sys : OS) (arrivals : list incoming) :
  stdout_of (fst (serve_forever L sys arrivals)) = []
  /\ binds_of (fst (serve_forever L sys arrivals)) = [].
Proof.
  induction arrivals as [|a rest [IH1 IH2]]; [split; reflexivity|].
  destruct a as [requests| |]; [|split; assumption | split; reflexivity].
  rewrite (every_connection_keeps_serving L sys requests rest).
  cbn [fst].
  destruct (process_request_events L sys requests) as (_ & P2 & P3).
  rewrite stdout_of_app, binds_of_app, P2, P3, IH1, IH2.
  split; reflexivity.
Qed.

(** X1. In every run, whatever the bind returns and whatever arrives,
    the script makes exactly one bind attempt, on the empty host and
    port 8888, and standard output holds the announcement alone, or
    nothing when the bind failed. *)
Theorem one_bind_one_line (L : Lib) (sys : OS) (arrivals : list incoming) :
  binds_of (fst (main L sys arrivals)) = [([], 8888%N)]
  /\ stdout_of (fst (main L sys arrivals))
     = match bind sys [] PORT with
       | Some _ => []
       | None => [py "Serving at http://localhost:8888" ++ LF]
       end.
Proof.
  unfold main.
  destruct (serve_forever_quiet L sys arrivals) as [Q1 Q2].
  destruct (bind sys [] PORT); [split; reflexivity|].
  destruct (serve_forever L sys arrivals) as [t [e|]]; cbn [fst] in *;
    rewrite ?stdout_of_app, ?binds_of_app, Q1, Q2; split; reflexivity.
Qed.

Lemma serve_forever_app (L : Lib) (sys : OS) (a b : list incoming) :
  interrupted a = false ->
  serve_forever L sys (a ++ b)
  = (fst (serve_forever L sys a) ++ fst (serve_forever L sys b),
     snd (serve_forever L sys b)).
Proof.
  induction a as [|x a IH]; intros H.
  - cbn [app]. destruct (serve_forever L sys b); reflexivity.
  - destruct x as [requests| |]; [| exact (IH H) | discriminate].
    change ((Client requests :: a) ++ b) with (Client requests :: (a ++ b)).
    rewrite !(every_connection_keeps_serving L sys requests).
    rewrite (IH H). cbn [fst snd]. rewrite app_assoc. reflexivity.
Qed.

(** X2. The accept loop keeps no state between connections: serving
    two uninterrupted runs of arrivals one after the other produces the
    events of the first followed by the events of the second, each as if
    served alone. *)
Theorem serving_composes (L : Lib) (sys : OS) (a b : list incoming) :
  interrupted a = false ->
  serve_forever L sys (a ++ b)
  = (fst (serve_forever L sys a) ++ fst (serve_forever L sys b),
     snd (serve_forever L sys b)).
Proof. apply serve_forever_app. Qed.

Lemma serving_composes_witness :
  serve_forever Demo.lib Demo.free_port
    ([Client [Demo.request "GET /bad.bin HTTP/1.0"]]
     ++ [Client [Demo.request "GET /a.txt HTTP/1.0"]])
  = (fst (serve_forever Demo.lib Demo.free_port
            [Client [Demo.request "GET /bad.bin HTTP/1.0"]])
     ++ fst (serve_forever Demo.lib Demo.free_port
               [Client [Demo.request "GET /a.txt HTTP/1.0"]]),
     snd (serve_forever Demo.lib Demo.free_port
            [Client [Demo.request "GET /a.txt HTTP/1.0"]])).
Proof.
  exact (serving_composes Demo.lib Demo.free_port
           [Client [Demo.request "GET /bad.bin HTTP/1.0"]]
           [Client [Demo.request "GET /a.txt HTTP/1.0"]] eq_refl).
Defined.

(** X3. An [accept] that fails ([get_request] raising [OSError]) leaves
    no trace: the run goes as if that arrival had not happened. *)
Theorem failed_accept_is_skipped (L : Lib) (sys : OS)
    (a b : list incoming) :
  serve_forever L sys (a ++ AcceptFails :: b) = serve_forever L sys (a ++ b).
Proof.
  induction a as [|x a IH]; [reflexivity|].
  destruct x as [requests| |]; [| exact IH | reflexivity].
  change (serve_forever L sys (Client requests :: (a ++ AcceptFails :: b))
          = serve_forever L sys (Client requests :: (a ++ b))).
  rewrite !(every_connection_keeps_serving L sys requests), IH.
  reflexivity.
Qed.

(** X4. An interruption from outside ends the run at once: the clients
    that arrived before it were served as usual, nothing that arrives
    after it is looked at, the listening socket is closed on the way out
    of the [with] block, and the process ends with [KeyboardInterrupt]
    uncaught. *)
Theorem interruption_ends_the_run (L : Lib) (sys : OS)
    (before_it after_it : list incoming) :
  bind sys [] PORT = None -> interrupted before_it = false ->
  main L sys (before_it ++ Interrupt :: after_it)
  = (fst (main L sys before_it)
     ++ [EvServerClose; EvStderr (LogTraceback KeyboardInterrupt)],
     Uncaught KeyboardInterrupt).
Proof.
  intros Hb Hi. unfold main. rewrite Hb.
  rewrite (serve_forever_app L sys before_it (Interrupt :: after_it) Hi).
  pose proof (serve_forever_uninterrupted L sys before_it Hi) as Hn.
  destruct (serve_forever L sys before_it) as [t e]. cbn [fst snd] in *.
  subst e. cbn [serve_forever fst snd]. rewrite app_nil_r. reflexivity.
Qed.

Lemma interruption_ends_the_run_witness :
  snd (main Demo.lib Demo.free_port
         ([Client [Demo.request "GET /a.txt HTTP/1.0"]]
          ++ Interrupt :: [Client [Demo.request "GET /docs/ HTTP/1.0"]]))
  = Uncaught KeyboardInterrupt.
Proof.
  exact (f_equal snd
           (interruption_ends_the_run Demo.lib Demo.free_port
              [Client [Demo.request "GET /a.txt HTTP/1.0"]]
              [Client [Demo.request "GET /docs/ HTTP/1.0"]]
              eq_refl eq_refl)).
Defined.

(** ** One request per connection *)

Lemma close_connection_always (L : Lib) (fs : FS) (d : str)
    (raw : raw_request) :
  close_connection (handle_one_request L fs d raw) = true.
Proof.
  unfold handle_one_request.
  destruct (65536 <? N.of_nat (List.length (raw_requestline raw)))%N;
    [reflexivity|].
  destruct (is_empty (raw_requestline raw)); [reflexivity|].
  destruct (parse_request L raw) as [self o c|o] eqn:Hp; [|reflexivity].
  destruct (parse_request_ok _ _ _ _ _ Hp) as (_ & -> & _).
  destruct (method L fs d (self_command self)) as [m|]; [|reflexivity].
  destruct (m self); reflexivity.
Qed.

(** X5. The handler speaks HTTP/1.0: after the first request of a
    connection [close_connection] is set, whatever the request asked
    for ([Connection: keep-alive], HTTP/1.1), so requests that follow on
    the same connection are never read. *)
Theorem one_request_per_connection (L : Lib) (fs : FS) (d : str)
    (raw : raw_request) (rest : list raw_request) :
  close_connection (handle_one_request L fs d raw) = true
  /\ handle L fs d (raw :: rest)
     = (sent (handle_one_request L fs d raw),
        raised (handle_one_request L fs d raw)).
Proof.
  split; [apply close_connection_always|].
  cbn [handle]. rewrite close_connection_always.
  destruct (raised (handle_one_request L fs d raw)); reflexivity.
Qed.

(** ** The shape of a reply *)

Lemma statuses_of_reply (h : bool) (code : N) (m : str)
    (hs : list (str * str)) (chunks : list bytes) :
  statuses_of (reply h code m hs chunks) = if h then [] else [code].
Proof.
  assert (P : statuses_of (map Payload chunks) = []).
  { induction chunks as [|c cs IH]; [reflexivity | exact IH]. }
  assert (H : statuses_of (header_lines hs ++ [EndHeaders]) = []).
  { induction hs as [|kv hs IH]; [reflexivity | exact IH]. }
  unfold reply. destruct h.
  - exact P.
  - unfold statuses_of in *. cbn [app flat_map].
    rewrite flat_map_app, H, P. reflexivity.
Qed.

Lemma status_of_reply (code : N) (m : str) (hs : list (str * str))
    (chunks : list bytes) :
  status_of (reply false code m hs chunks) = Some code.
Proof. reflexivity. Qed.

Lemma header_of_reply (k : str) (code : N) (m : str) (hs : list (str * str))
    (chunks : list bytes) :
  header_of k (reply false code m hs chunks) = field_of k hs.
Proof.
  unfold reply. cbn [app header_of].
  induction hs as [|[k' v] hs IH].
  - cbn [header_lines map app header_of]. 
    induction chunks as [|c cs IHc]; [reflexivity | exact IHc].
  - cbn [header_lines map app header_of field_of fst snd].
    destruct (str_eqb k' k); [reflexivity | exact IH].
Qed.

Lemma body_of_reply (h : bool) (code : N) (m : str) (hs : list (str * str))
    (chunks : list bytes) :
  body_of (reply h code m hs chunks) = List.concat chunks.
Proof.
  assert (P : body_of (map Payload chunks) = List.concat chunks).
  { unfold body_of. induction chunks as [|c cs IH]; [reflexivity|].
    cbn [map flat_map List.concat]. rewrite IH. reflexivity. }
  assert (H : body_of (header_lines hs ++ [EndHeaders]) = []).
  { induction hs as [|kv hs IH]; [reflexivity | exact IH]. }
  unfold reply. destruct h; [exact P|].
  unfold body_of in *. cbn [app flat_map].
  rewrite flat_map_app, H, P. reflexivity.
Qed.

Lemma payloads_only_map (chunks : list bytes) :
  payloads_only (map Payload chunks) = true.
Proof. induction chunks as [|c cs IH]; [reflexivity | exact IH]. Qed.

Lemma framed_reply (code : N) (m : str) (hs : list (str * str))
    (chunks : list bytes) :
  framed (reply false code m hs chunks) = true.
Proof.
  unfold reply. cbn [app framed].
  induction hs as [|kv hs IH]; [apply payloads_only_map | exact IH].
Qed.

Lemma without_body_reply (h : bool) (code : N) (m : str)
    (hs : list (str * str)) (chunks : list bytes) :
  without_body (reply h code m hs chunks) = reply h code m hs [].
Proof.
  assert (P : without_body (map Payload chunks) = []).
  { induction chunks as [|c cs IH]; [reflexivity | exact IH]. }
  assert (H : without_body (header_lines hs ++ [EndHeaders])
              = header_lines hs ++ [EndHeaders]).
  { induction hs as [|kv hs IH]; [reflexivity|].
    unfold without_body in *. cbn [header_lines map app filter is_payload negb].
    f_equal. exact IH. }
  unfold reply. destruct h.
  - cbn [app map]. exact P.
  - unfold without_body in *. cbn [app map filter is_payload negb].
    rewrite filter_app, H, P. reflexivity.
Qed.

(** What [send_error] writes, for the same request under any method. *)
Lemma send_error_reply (L : Lib) (self : handler) (code : N)
    (message explain : option str) :
  exists m hs b,
    (forall cmd,
       wire (send_error L (with_command cmd self) code message explain)
       = reply (is_http09 self) code m hs
           (if negb (str_eqb cmd (py "HEAD")) && negb (is_empty b)
            then [b] else []))
    /\ field_of (py "Connection") hs = Some (py "close")
    /\ (forall v, field_of (py "Content-Length") hs = Some v ->
                  v = str_of_N (N.of_nat (List.length b))).
Proof.
  unfold send_error.
  destruct (match responses code with
            | Some p => p
            | None => (py "???", py "???")
            end) as [shortmsg longmsg].
  set (msg := match message with Some m => m | None => shortmsg end).
  set (expl := match explain with Some e => e | None => longmsg end).
  destruct ((200 <=? code)%N && negb (existsb (N.eqb code) [204; 205; 304]%N)).
  - set (b := encode_utf8 L (error_message_format code (html_escape msg)
                               (html_escape expl))).
    exists msg,
      [(py "Server", version_string L); (py "Date", date_time_string L None);
       (py "Connection", py "close");
       (py "Content-Type", error_content_type);
       (py "Content-Length", str_of_N (N.of_nat (List.length b)))], b.
    repeat split.
    + intros cmd. unfold_senders.
      change (is_http09 (with_command cmd self)) with (is_http09 self).
      change (self_command (with_command cmd self)) with cmd.
      destruct (is_http09 self);
        destruct (negb (str_eqb cmd (py "HEAD")) && negb (is_empty b));
        reflexivity.
    + intros v Hv.
      change (Some (str_of_N (N.of_nat (List.length b))) = Some v) in Hv.
      inversion Hv. reflexivity.
  - exists msg,
      [(py "Server", version_string L); (py "Date", date_time_string L None);
       (py "Connection", py "close")], [].
    repeat split.
    + intros cmd. unfold_senders.
      change (is_http09 (with_command cmd self)) with (is_http09 self).
      rewrite andb_false_r.
      destruct (is_http09 self); reflexivity.
    + intros v Hv. discriminate Hv.
Qed.

Lemma with_command_same (self : handler) :
  with_command (self_command self) self = self.
Proof. destruct self; reflexivity. Qed.

Lemma chunk_length (b : bytes) :
  List.length (List.concat (if negb (is_empty b) then [b] else []))
  = List.length b.
Proof.
  destruct b as [|c b]; [reflexivity|].
  cbn [is_empty negb List.concat]. rewrite app_nil_r. reflexivity.
Qed.

Lemma os_open_returns (fs : FS) (p : str) (f : file) :
  os.open fs p = Returns f -> stat fs p = Found (RegularFile f).
Proof.
  unfold os.open. intros H. apply os_stat_found.
  destruct (os.stat fs p) as [[g|names]| |]; try discriminate H.
  destruct (f_readable g); inversion H. reflexivity.
Qed.

(** [send_error(404)] under both methods. *)
Lemma joint_reply_404 (L : Lib) (fs : FS) (self : handler) (codes : list N)
    (path : option str) (message : option str) :
  In 404%N codes ->
  joint_reply fs self codes path
    (Finished (send_error L (with_command (py "GET") self) 404 message None))
    (Finished (send_error L (with_command (py "HEAD") self) 404 message None)).
Proof.
  intros Hin.
  destruct (send_error_reply L self 404 message None) as (m & hs & b & Hw & _ & Hcl).
  exists 404%N, m, hs, (if negb (is_empty b) then [b] else []).
  repeat split.
  - exact Hin.
  - cbn [finish_GET fst]. rewrite Hw. reflexivity.
  - cbn [finish_HEAD fst]. rewrite Hw. reflexivity.
  - intros _ _ v Hv. rewrite chunk_length. apply Hcl, Hv.
  - discriminate.
  - discriminate.
Qed.

(** [send_file] under GET and under HEAD: either [open] raises
    [ValueError] before anything is written, or the two replies differ
    in the body alone. *)
Lemma send_file_joint (L : Lib) (fs : FS) (self : handler) (p : str) :
  (send_file L fs (with_command (py "GET") self) p = Raised silent ValueError
   /\ send_file L fs (with_command (py "HEAD") self) p
      = Raised silent ValueError)
  \/ joint_reply fs self [200; 301; 304; 404]%N (Some p)
       (send_file L fs (with_command (py "GET") self) p)
       (send_file L fs (with_command (py "HEAD") self) p).
Proof.
  unfold send_file.
  destruct (endswith p (py "/")).
  { right. apply joint_reply_404. cbn; auto. }
  destruct (os.open fs p) as [f| |] eqn:Ho.
  2:{ right. apply joint_reply_404. cbn; auto. }
  2:{ left. split; reflexivity. }
  right.
  change (not_modified (with_command (py "GET") self) f)
    with (not_modified self f).
  change (not_modified (with_command (py "HEAD") self) f)
    with (not_modified self f).
  destruct (not_modified self f) eqn:Hn.
  - exists 304%N, (py "Not Modified"),
      [(py "Server", version_string L); (py "Date", date_time_string L None)],
      [].
    repeat split.
    + cbn; auto.
    + cbn [finish_GET fst]. unfold_senders.
      change (is_http09 (with_command (py "GET") self)) with (is_http09 self).
      destruct (is_http09 self); reflexivity.
    + cbn [finish_HEAD fst]. unfold_senders.
      change (is_http09 (with_command (py "HEAD") self)) with (is_http09 self).
      destruct (is_http09 self); reflexivity.
    + intros _ _ v Hv. discriminate Hv.
    + intros _. exists p, f. split; [reflexivity|]. split; [exact Ho|].
      apply not_modified_iff, Hn.
    + discriminate.
  - exists 200%N, (py "OK"),
      [(py "Server", version_string L); (py "Date", date_time_string L None);
       (py "Content-type", guess_type L p);
       (py "Content-Length", str_of_N (f_size f));
       (py "Last-Modified", date_time_string L (Some (f_mtime f)))],
      [match f_fails_after f with
       | None => f_data f
       | Some n => firstn n (f_data f)
       end].
    repeat split.
    + cbn; auto.
    + cbn [finish_GET copyfile]. unfold file_headers. unfold_senders.
      change (is_http09 (with_command (py "GET") self)) with (is_http09 self).
      destruct (f_fails_after f); destruct (is_http09 self); reflexivity.
    + cbn [finish_HEAD fst]. unfold file_headers. unfold_senders.
      change (is_http09 (with_command (py "HEAD") self)) with (is_http09 self).
      destruct (is_http09 self); reflexivity.
    + cbn [finish_GET copyfile]. intros Hsz He v Hv.
      destruct (f_fails_after f); [discriminate He|].
      change (Some (str_of_N (f_size f)) = Some v) in Hv.
      inversion Hv. cbn [List.concat]. rewrite app_nil_r.
      rewrite (Hsz p f (os_open_returns _ _ _ Ho)). reflexivity.
    + discriminate.
Qed.

Lemma list_directory_joint (L : Lib) (fs : FS) (self : handler) (p : str)
    (path : option str) :
  (list_directory L fs (with_command (py "GET") self) p
   = Raised silent ValueError
   /\ list_directory L fs (with_command (py "HEAD") self) p
      = Raised silent ValueError)
  \/ joint_reply fs self [200; 301; 304; 404]%N path
       (list_directory L fs (with_command (py "GET") self) p)
       (list_directory L fs (with_command (py "HEAD") self) p).
Proof.
  unfold list_directory.
  destruct (os.listdir fs p) as [names| |].
  2:{ right. apply joint_reply_404. cbn; auto. }
  2:{ left. split; reflexivity. }
  right.
  change (listing_text L fs (with_command (py "HEAD") self) p names)
    with (listing_text L fs (with_command (py "GET") self) p names).
  set (encoded := encode_fs L _).
  exists 200%N, (py "OK"),
    [(py "Server", version_string L); (py "Date", date_time_string L None);
     (py "Content-type", py "text/html; charset=" ++ getfilesystemencoding L);
     (py "Content-Length", str_of_N (N.of_nat (List.length encoded)))],
    [encoded].
  repeat split.
  - cbn; auto.
  - cbn [finish_GET copyfile]. unfold_senders.
    change (is_http09 (with_command (py "GET") self)) with (is_http09 self).
    destruct (is_http09 self); reflexivity.
  - cbn [finish_HEAD fst]. unfold_senders.
    change (is_http09 (with_command (py "HEAD") self)) with (is_http09 self).
    destruct (is_http09 self); reflexivity.
  - intros _ _ v Hv.
    change (Some (str_of_N (N.of_nat (List.length encoded))) = Some v) in Hv.
    inversion Hv. cbn [List.concat]. rewrite app_nil_r. reflexivity.
  - discriminate.
Qed.

(** [send_head] under GET and under HEAD: either a [ValueError] is
    raised before anything is written (by [urlsplit], [open] or
    [os.listdir]), or the two replies differ in the body alone. *)
Lemma send_head_joint (L : Lib) (fs : FS) (d : str) (self : handler) :
  (send_head L fs d (with_command (py "GET") self) = Raised silent ValueError
   /\ send_head L fs d (with_command (py "HEAD") self)
      = Raised silent ValueError)
  \/ joint_reply fs self [200; 301; 304; 404]%N (opened_path L fs d self)
       (send_head L fs d (with_command (py "GET") self))
       (send_head L fs d (with_command (py "HEAD") self)).
Proof.
  unfold send_head, opened_path.
  change (self_path (with_command (py "GET") self)) with (self_path self).
  change (self_path (with_command (py "HEAD") self)) with (self_path self).
  destruct (os.isdir fs (translate_path L d (self_path self)));
    [|apply send_file_joint].
  destruct (urlsplit L (self_path self)) as [parts|]; [|left; split; reflexivity].
  destruct (negb (endswith (url_path parts) (py "/"))).
  - right. set (new_url := urlunsplit _).
    exists 301%N, (py "Moved Permanently"),
      [(py "Server", version_string L); (py "Date", date_time_string L None);
       (py "Location", new_url); (py "Content-Length", py "0")],
      [].
    repeat split.
    + cbn; auto.
    + cbn [finish_GET fst]. unfold_senders.
      change (is_http09 (with_command (py "GET") self)) with (is_http09 self).
      destruct (is_http09 self); reflexivity.
    + cbn [finish_HEAD fst]. unfold_senders.
      change (is_http09 (with_command (py "HEAD") self)) with (is_http09 self).
      destruct (is_http09 self); reflexivity.
    + intros _ _ v Hv. change (Some (py "0") = Some v) in Hv.
      inversion Hv. reflexivity.
    + discriminate.
    + discriminate.
  - destruct (find_index fs (translate_path L d (self_path self))).
    + apply send_file_joint.
    + apply list_directory_joint.
Qed.

Lemma do_GET_finish (L : Lib) (fs : FS) (d : str) (self : handler) :
  do_GET L fs d self = finish_GET (send_head L fs d self).
Proof. reflexivity. Qed.

Lemma do_HEAD_finish (L : Lib) (fs : FS) (d : str) (self : handler) :
  do_HEAD L fs d self = finish_HEAD (send_head L fs d self).
Proof. reflexivity. Qed.

(** ** HEAD is GET without the body *)

(** X6. For the same target and headers, the reply to HEAD is the reply
    to GET with the body left out: the same status line and the same
    header lines (a [Content-Length] included), whether the target is a
    file, a directory, a redirect or an error; and HEAD never sends a
    body. *)
Theorem head_is_get_without_body (L : Lib) (fs : FS) (d : str)
    (self : handler) :
  without_body (wire (fst (do_GET L fs d (with_command (py "GET") self))))
  = wire (fst (do_HEAD L fs d (with_command (py "HEAD") self)))
  /\ body_of (wire (fst (do_HEAD L fs d (with_command (py "HEAD") self)))) = [].
Proof.
  rewrite do_GET_finish, do_HEAD_finish.
  destruct (send_head_joint L fs d self) as [[-> ->] | J].
  - split; reflexivity.
  - destruct J as (code & m & hs & chunks & _ & -> & -> & _).
    rewrite without_body_reply, body_of_reply. split; reflexivity.
Qed.

(** ** Content-Length *)

Lemma lookup_sizes_ok (tbl : list (string * entry)) (p : str) (f : file) :
  forallb (fun e => match snd e with
                    | RegularFile g =>
                        N.eqb (f_size g) (N.of_nat (List.length (f_data g)))
                    | _ => true
                    end) tbl = true ->
  Demo.lookup tbl p = Found (RegularFile f) ->
  f_size f = N.of_nat (List.length (f_data f)).
Proof.
  unfold Demo.lookup. induction tbl as [|[k e] tbl IH]; simpl;
    [discriminate|].
  intros H. apply andb_true_iff in H as [He H].
  destruct (str_eqb (py k) p).
  - simpl. intros E. inversion E; subst. apply N.eqb_eq. exact He.
  - apply IH, H.
Qed.

Lemma demo_sizes_are_exact : sizes_are_exact Demo.fs.
Proof.
  intros p f H. apply (lookup_sizes_ok Demo.table p f); [|exact H].
  vm_compute. reflexivity.
Qed.

(** X7. Let every file be as long as [os.fstat] reported when it was
    opened.  Whenever the reply to a GET request carries a
    [Content-Length] header and the handler did not raise, its value is
    the decimal length of the body that follows: for files, listings,
    redirects and error pages alike. *)
Theorem content_length_is_body_length (L : Lib) (fs : FS) (d : str)
    (raw : raw_request) (self : handler) (target v : str) :
  sizes_are_exact fs ->
  is_request L raw self (py "GET") target ->
  let r := handle_one_request L fs d raw in
  raised r = None ->
  header_of (py "Content-Length") (wire (sent r)) = Some v ->
  v = str_of_N (N.of_nat (List.length (body_of (wire (sent r))))).
Proof.
  intros Hsz Hreq r. subst r.
  rewrite (is_request_handled _ _ _ _ _ _ _ Hreq).
  destruct Hreq as (_ & Hv & Hc & _).
  change (method L fs d (py "GET")) with (Some (do_GET L fs d)). cbv iota.
  rewrite <- (with_command_same self), Hc, do_GET_finish.
  unfold http1x in Hv.
  destruct (send_head_joint L fs d self) as [[-> _] | J].
  - cbn. discriminate.
  - destruct J as (code & m & hs & chunks & _ & Hg & _ & Hcl & _).
    specialize (Hcl Hsz).
    destruct (finish_GET _) as [o e]. cbn [fst snd] in Hg, Hcl.
    cbn [sent raised]. intros He Hh.
    rewrite Hg, Hv in Hh. rewrite Hg, Hv.
    rewrite header_of_reply in Hh. rewrite body_of_reply.
    apply Hcl; [exact He | exact Hh].
Qed.

Lemma content_length_is_body_length_witness :
  py "5"
  = str_of_N (N.of_nat (List.length
      (body_of (wire (sent (Demo.serve (Demo.request "GET /a.txt HTTP/1.0"))))))).
Proof.
  refine (content_length_is_body_length Demo.lib Demo.fs Demo.cwd
            (Demo.request "GET /a.txt HTTP/1.0")
            (Demo.parsed "GET" "/a.txt" "HTTP/1.0" Demo.no_headers)
            (py "/a.txt") (py "5") _ _ _ _).
  - exact demo_sizes_are_exact.
  - repeat split; try reflexivity.
    + vm_compute. discriminate.
    + exists silent, true. reflexivity.
  - reflexivity.
  - reflexivity.
Defined.

(** ** Every reply *)

(** What [send_error] writes, for a code other than 304. *)
Lemma send_error_shape (L : Lib) (self : handler) (code : N)
    (message explain : option str) (codes : list N) :
  In code codes -> code <> 304%N ->
  exists h c m hs chunks,
    In c codes /\ c <> 304%N
    /\ wire (send_error L self code message explain) = reply h c m hs chunks.
Proof.
  intros Hin Hne.
  destruct (send_error_reply L self code message explain)
    as (m & hs & b & Hw & _).
  specialize (Hw (self_command self)). rewrite with_command_same in Hw.
  exists (is_http09 self), code, m, hs,
    (if negb (str_eqb (self_command self) (py "HEAD")) && negb (is_empty b)
     then [b] else []).
  repeat split; assumption.
Qed.

(** Case analysis on every test of a failed [parse_request]. *)
Ltac break_failed :=
  repeat match goal with
  | H : context [(_ && false)%bool] |- _ => rewrite andb_false_r in H
  | H : inl _ = inr _ |- _ => discriminate H
  | H : inr _ = inl _ |- _ => discriminate H
  | H : ParseOk _ _ _ = ParseFailed _ |- _ => discriminate H
  | H : ParseFailed _ = ParseFailed _ |- _ => inversion H; clear H; subst
  | H : inl _ = inl _ |- _ => inversion H; clear H; subst
  | H : inr _ = inr _ |- _ => inversion H; clear H; subst
  | H : context [match ?x with _ => _ end] |- _ => destruct x eqn:?
  end.

(** A request that [parse_request] refuses gets nothing (an empty
    line) or an error page with code 400, 505 or 431. *)
Lemma parse_failed_shape (L : Lib) (raw : raw_request) (o : out) :
  parse_request L raw = ParseFailed o ->
  wire o = []
  \/ exists h c m hs chunks,
       In c [400; 505; 431]%N /\ c <> 304%N /\ wire o = reply h c m hs chunks.
Proof.
  intros H. unfold parse_request in H.
  break_failed;
    first [ left; reflexivity
          | right; apply send_error_shape; [cbn; auto | discriminate] ].
Qed.

(** The reply to any request: nothing at all, or one reply with a code
    the handler has a path to; and a 304 only on a cache hit for the
    file that was opened. *)
Lemma handle_one_request_shape (L : Lib) (fs : FS) (d : str)
    (raw : raw_request) :
  wire (sent (handle_one_request L fs d raw)) = []
  \/ exists h c m hs chunks,
       In c sent_statuses
       /\ wire (sent (handle_one_request L fs d raw)) = reply h c m hs chunks
       /\ (c = 304%N -> served_from_cache L fs d raw).
Proof.
  assert (Lift : forall (w : list wire_item) (codes : list N),
             (forall c, In c codes -> In c sent_statuses) ->
             (exists h c m hs chunks,
                In c codes /\ c <> 304%N /\ w = reply h c m hs chunks) ->
             exists h c m hs chunks,
               In c sent_statuses /\ w = reply h c m hs chunks
               /\ (c = 304%N -> served_from_cache L fs d raw)).
  { intros w codes Hsub (h & c & m & hs & chunks & Hin & Hne & Hw).
    exists h, c, m, hs, chunks. repeat split; auto. contradiction. }
  unfold handle_one_request.
  destruct (65536 <? N.of_nat (List.length (raw_requestline raw)))%N.
  { right. cbn [sent]. apply (Lift _ [414%N]).
    - intros c [<- | []]. cbn; auto 10.
    - apply send_error_shape; [cbn; auto | discriminate]. }
  destruct (is_empty (raw_requestline raw)); [left; reflexivity|].
  destruct (parse_request L raw) as [self o cl|o] eqn:Hp.
  2:{ cbn [sent]. destruct (parse_failed_shape L raw o Hp) as [E | E];
        [left; exact E | right].
      apply (Lift _ [400; 505; 431]%N); [|exact E].
      intros c Hc. cbn in Hc |- *. intuition. }
  destruct (parse_request_ok _ _ _ _ _ Hp) as (-> & -> & _).
  assert (Cache : forall c,
             (c = 304%N ->
              exists p f, opened_path L fs d self = Some p
                          /\ os.open fs p = Returns f /\ cache_hit self f) ->
             c = 304%N -> served_from_cache L fs d raw).
  { intros c H Hc. destruct (H Hc) as (p & f & H1 & H2 & H3).
    exists self, silent, true, p, f. auto. }
  clear Lift. unfold method.
  destruct (str_eqb (self_command self) (py "GET")) eqn:Eg.
  - apply str_eqb_eq in Eg.
    assert (E : do_GET L fs d self
                = finish_GET (send_head L fs d (with_command (py "GET") self)))
      by (rewrite <- Eg, with_command_same; reflexivity).
    rewrite E.
    destruct (send_head_joint L fs d self) as [[-> _] | J];
      [left; reflexivity | right].
    destruct J as (c & m & hs & chunks & Hin & Hg & _ & _ & H304 & _).
    destruct (finish_GET _) as [o' e]. cbn [fst sent] in *.
    rewrite seq_silent_l, Hg.
    exists (is_http09 self), c, m, hs, chunks. repeat split.
    + cbn in Hin |- *. intuition.
    + apply Cache, H304.
  - destruct (str_eqb (self_command self) (py "HEAD")) eqn:Eh.
    + apply str_eqb_eq in Eh.
      assert (E : do_HEAD L fs d self
                  = finish_HEAD
                      (send_head L fs d (with_command (py "HEAD") self)))
        by (rewrite <- Eh, with_command_same; reflexivity).
      rewrite E.
      destruct (send_head_joint L fs d self) as [[_ ->] | J];
        [left; reflexivity | right].
      destruct J as (c & m & hs & chunks & Hin & _ & Hh & _ & H304 & _).
      destruct (finish_HEAD _) as [o' e]. cbn [fst sent] in *.
      rewrite seq_silent_l, Hh.
      exists (is_http09 self), c, m, hs, []. repeat split.
      * cbn in Hin |- *. intuition.
      * apply Cache, H304.
    + right. cbn [sent]. rewrite seq_silent_l.
      exists (is_http09 self).
      destruct (send_error_shape L self 501
                  (Some (py "Unsupported method ("
                         ++ repr L (self_command self) ++ py ")")) None
                  [501%N]) as (h & c & m & hs & chunks & Hin & Hne & Hw);
        [cbn; auto | discriminate |].
      destruct (send_error_reply L self 501
                  (Some (py "Unsupported method ("
                         ++ repr L (self_command self) ++ py ")")) None)
        as (m' & hs' & b & Hw' & _).
      specialize (Hw' (self_command self)). rewrite with_command_same in Hw'.
      exists 501%N, m', hs',
        (if negb (str_eqb (self_command self) (py "HEAD")) && negb (is_empty b)
         then [b] else []).
      repeat split; [cbn; auto 10 | exact Hw' | discriminate].
Qed.

Lemma reply_http09 (code : N) (m : str) (hs : list (str * str))
    (chunks : list bytes) :
  reply true code m hs chunks = map Payload chunks.
Proof. reflexivity. Qed.

Lemma status_of_payloads (chunks : list bytes) :
  status_of (map Payload chunks) = None.
Proof. induction chunks as [|c cs IH]; [reflexivity | exact IH]. Qed.

(** X8. Whatever the request, what goes out on the connection is well
    framed: either body bytes alone (an HTTP/0.9 request, a request line
    refused before its version was accepted, or nothing at all), or
    exactly one status line, then header lines, then the blank line,
    then body bytes. *)
Theorem every_reply_is_framed (L : Lib) (fs : FS) (d : str)
    (raw : raw_request) :
  let w := wire (sent (handle_one_request L fs d raw)) in
  payloads_only w = true \/ framed w = true.
Proof.
  intros w. subst w.
  destruct (handle_one_request_shape L fs d raw)
    as [-> | (h & c & m & hs & chunks & _ & -> & _)].
  - left. reflexivity.
  - destruct h.
    + left. rewrite reply_http09. apply payloads_only_map.
    + right. apply framed_reply.
Qed.

(** X9. Whatever the request, at most one status line is sent, and its
    code is one of 200, 301, 304, 400, 404, 414, 431, 501 and 505: the
    handler has no path to 405, 500 or any other code. *)
Theorem only_known_statuses (L : Lib) (fs : FS) (d : str)
    (raw : raw_request) :
  let codes := statuses_of (wire (sent (handle_one_request L fs d raw))) in
  List.length codes <= 1
  /\ (forall c, In c codes -> In c sent_statuses)
  /\ ~ In 405%N codes /\ ~ In 500%N codes.
Proof.
  intros codes. subst codes.
  assert (H : statuses_of (wire (sent (handle_one_request L fs d raw))) = []
              \/ exists c, In c sent_statuses
                           /\ statuses_of (wire (sent (handle_one_request
                                                         L fs d raw))) = [c]).
  { destruct (handle_one_request_shape L fs d raw)
      as [-> | (h & c & m & hs & chunks & Hin & -> & _)].
    - left. reflexivity.
    - rewrite statuses_of_reply. destruct h; [left; reflexivity|].
      right. exists c. split; [exact Hin | reflexivity]. }
  destruct H as [-> | (c & Hin & ->)].
  - split; [apply le_S, le_n|]. split; [intros c []|].
    split; intros [].
  - split; [apply le_n|]. split; [intros c' [<- | []]; exact Hin|].
    split; intros [E | []]; subst c; cbn in Hin; intuition discriminate.
Qed.

(** X10. A 304 is sent only on a cache hit for the file the request
    resolves to: the request was accepted, [send_head] opened the file
    at the translated target (or, for a directory, its index file), the
    request carries an [If-Modified-Since] time in UTC and no
    [If-None-Match], and that file was last modified at or before that
    time. *)
Theorem not_modified_only_on_cache_hit (L : Lib) (fs : FS) (d : str)
    (raw : raw_request) :
  status_of (wire (sent (handle_one_request L fs d raw))) = Some 304%N ->
  exists self o cl p f,
    parse_request L raw = ParseOk self o cl
    /\ opened_path L fs d self = Some p
    /\ os.open fs p = Returns f
    /\ cache_hit self f.
Proof.
  intros H.
  destruct (handle_one_request_shape L fs d raw)
    as [E | (h & c & m & hs & chunks & _ & E & H304)];
    rewrite E in H.
  - discriminate H.
  - destruct h.
    + rewrite reply_http09, status_of_payloads in H. discriminate H.
    + rewrite status_of_reply in H. inversion H. exact (H304 H1).
Qed.

Lemma not_modified_only_on_cache_hit_witness :
  exists self o cl p f,
    parse_request Demo.lib (Demo.conditional_request "GET /a.txt HTTP/1.0" 600)
    = ParseOk self o cl
    /\ opened_path Demo.lib Demo.fs Demo.cwd self = Some p
    /\ os.open Demo.fs p = Returns f
    /\ cache_hit self f.
Proof.
  exact (not_modified_only_on_cache_hit Demo.lib Demo.fs Demo.cwd
           (Demo.conditional_request "GET /a.txt HTTP/1.0" 600) eq_refl).
Defined.

(** X11. An accepted HTTP/0.9 request (a request line without a version,
    or one that names HTTP/0.9) gets body bytes and nothing else: no
    status line and no header is written, whatever the outcome. *)
Theorem http09_reply_is_body_only (L : Lib) (fs : FS) (d : str)
    (raw : raw_request) (self : handler) :
  accepts L raw self -> is_http09 self = true ->
  payloads_only (wire (sent (handle_one_request L fs d raw))) = true.
Proof.
  intros Ha H9. rewrite (handle_accepted _ _ _ _ _ Ha). unfold method.
  destruct (str_eqb (self_command self) (py "GET")) eqn:Eg.
  - apply str_eqb_eq in Eg.
    rewrite <- (with_command_same self), Eg, do_GET_finish.
    destruct (send_head_joint L fs d self) as [[-> _] | J]; [reflexivity|].
    destruct J as (c & m & hs & chunks & _ & Hg & _).
    destruct (finish_GET _) as [o e]. cbn [fst sent] in *.
    rewrite Hg, H9, reply_http09. apply payloads_only_map.
  - destruct (str_eqb (self_command self) (py "HEAD")) eqn:Eh.
    + apply str_eqb_eq in Eh.
      rewrite <- (with_command_same self), Eh, do_HEAD_finish.
      destruct (send_head_joint L fs d self) as [[_ ->] | J]; [reflexivity|].
      destruct J as (c & m & hs & chunks & _ & _ & Hh & _).
      destruct (finish_HEAD _) as [o e]. cbn [fst sent] in *.
      rewrite Hh, H9. reflexivity.
    + cbn [sent].
      destruct (send_error_reply L self 501
                  (Some (py "Unsupported method ("
                         ++ repr L (self_command self) ++ py ")")) None)
        as (m & hs & b & Hw & _).
      specialize (Hw (self_command self)). rewrite with_command_same in Hw.
      rewrite Hw, H9, reply_http09. apply payloads_only_map.
Qed.

Lemma http09_reply_is_body_only_witness :
  payloads_only (wire (sent (Demo.serve (Demo.request "GET /a.txt")))) = true.
Proof.
  refine (http09_reply_is_body_only Demo.lib Demo.fs Demo.cwd
            (Demo.request "GET /a.txt")
            {| self_requestline := py "GET /a.txt"; self_command := py "GET";
               self_path := py "/a.txt"; self_request_version := py "HTTP/0.9";
               self_headers := Demo.no_headers |} _ _).
  - split.
    + vm_compute. discriminate.
    + exists silent, true. reflexivity.
  - reflexivity.
Defined.

(** ** What [parse_request] accepts *)

(** X12. The target a request is served under never starts with two
    slashes: [parse_request] reduces any run of leading slashes to one,
    so that the redirect for a directory cannot send a client to another
    host. *)
Theorem target_has_one_leading_slash (L : Lib) (raw : raw_request)
    (self : handler) (o : out) (c : bool) :
  parse_request L raw = ParseOk self o c ->
  startswith (self_path self) (py "//") = false.
Proof.
  intros H. unfold parse_request in H.
  break_tests; cbn [self_path];
    match goal with
    | |- context [if ?b then _ else _] => destruct b eqn:E
    end; try exact E.
  all: match goal with
       | |- startswith (_ :: lstrip_by _ ?s) _ = false =>
           change (startswith (slash :: lstrip_by (Ascii.eqb slash) s)
                     [slash; slash] = false)
       end;
       rewrite startswith_cons, lstrip_by_head; apply andb_false_r.
Qed.

Lemma target_has_one_leading_slash_witness :
  startswith (py "/docs") (py "//") = false.
Proof.
  exact (target_has_one_leading_slash Demo.lib
           (Demo.request "GET ///docs HTTP/1.0")
           {| self_requestline := py "GET ///docs HTTP/1.0";
              self_command := py "GET"; self_path := py "/docs";
              self_request_version := py "HTTP/1.0";
              self_headers := Demo.no_headers |}
           silent true eq_refl).
Defined.

(** X13. What [parse_request] accepts: the headers were read without
    error, and the request line consists either of two words, the first
    being [GET] (an HTTP/0.9 request), or of three words whose last is a
    version [HTTP/major.minor] below 2.0, which becomes the request
    version; the first word is the method. *)
Theorem accepted_request_lines (L : Lib) (raw : raw_request)
    (self : handler) (o : out) (c : bool) :
  parse_request L raw = ParseOk self o c ->
  let words := split_ws (rstrip_chars CRLF (raw_requestline raw)) in
  raw_headers raw = HeadersOk (self_headers self)
  /\ self_requestline self = rstrip_chars CRLF (raw_requestline raw)
  /\ ((exists target,
         words = [self_command self; target]
         /\ self_command self = py "GET"
         /\ self_request_version self = py "HTTP/0.9")
      \/ (exists target v,
            words = [self_command self; target; self_request_version self]
            /\ version_number L (self_request_version self) = Some v
            /\ version_geb v (2, 0)%Z = false)).
Proof.
  intros H words. subst words. unfold parse_request in H.
  change (str_geb protocol_version (py "HTTP/1.1")) with false in H.
  break_tests; cbn [andb] in *; try discriminate;
    cbn [self_headers self_requestline self_command self_request_version];
    (split; [reflexivity | split; [reflexivity|]]);
    repeat match goal with
           | l : list str |- _ => destruct l; cbn in * |-; try discriminate
           end.
  all: first
         [ left; eexists; split; [reflexivity|];
           split; [|reflexivity];
           match goal with
           | E : negb (str_eqb _ _) = false |- _ =>
               apply negb_false_iff, str_eqb_eq in E; exact E
           end
         | right; eexists; eexists; split; [reflexivity|];
           split; eassumption ].
Qed.

Lemma accepted_request_lines_witness :
  raw_headers (Demo.request "GET /a.txt HTTP/1.1") = HeadersOk Demo.no_headers.
Proof.
  exact (proj1 (accepted_request_lines Demo.lib
                  (Demo.request "GET /a.txt HTTP/1.1")
                  (Demo.parsed "GET" "/a.txt" "HTTP/1.1" Demo.no_headers)
                  silent true eq_refl)).
Defined.

(** ** Targets and paths *)

Lemma before_app_nosep (c : ascii) (p s : str) :
  has_char c p = false -> before c (p ++ s) = p ++ before c s.
Proof.
  induction p as [|x p IH]; intros H; [reflexivity|].
  simpl in H. apply orb_false_iff in H as [H1 H2].
  cbn [app before]. rewrite Ascii.eqb_sym, H1, (IH H2). reflexivity.
Qed.

Lemma before_app_sep (c : ascii) (p q : str) :
  has_char c p = false -> before c (p ++ c :: q) = p.
Proof.
  intros H. rewrite (before_app_nosep _ _ _ H).
  cbn [before]. rewrite Ascii.eqb_refl. apply app_nil_r.
Qed.

(** X14. A query string or a fragment has no part in which file is
    served: for a target [p] without ['?'] and ['#'], [translate_path]
    returns the same path for [p], for [p?q] and for [p#q], whatever [q]
    holds (slashes and [..] included). *)
Theorem query_and_fragment_are_dropped (L : Lib) (d p q : str) :
  has_char (chr 63) p = false -> has_char (chr 35) p = false ->
  translate_path L d (p ++ chr 63 :: q) = translate_path L d p
  /\ translate_path L d (p ++ chr 35 :: q) = translate_path L d p.
Proof.
  intros Hq Hf. unfold translate_path. split.
  - rewrite (before_app_sep _ _ _ Hq), (before_nosep _ _ Hq). reflexivity.
  - rewrite (before_app_nosep _ _ _ Hq), (before_nosep _ _ Hq).
    change (before (chr 63) (chr 35 :: q)) with (chr 35 :: before (chr 63) q).
    rewrite (before_app_sep _ _ _ Hf), (before_nosep _ _ Hf). reflexivity.
Qed.

Lemma query_and_fragment_are_dropped_witness :
  translate_path Demo.lib Demo.cwd (py "/a.txt" ++ chr 63 :: py "x=/../..")
  = translate_path Demo.lib Demo.cwd (py "/a.txt").
Proof.
  exact (proj1 (query_and_fragment_are_dropped Demo.lib Demo.cwd
                  (py "/a.txt") (py "x=/../..") eq_refl eq_refl)).
Defined.

(** X15. A target with a final slash that is not a directory is not
    found, whatever lies at the path without the slash: a GET for
    ["/w1/.../wn/"] whose path is not a directory is answered 404. *)
Theorem file_with_final_slash_404 (L : Lib) (fs : FS) (d : str)
    (raw : raw_request) (self : handler) (ws : list str) :
  unquote_plain L -> forallb plain_name ws = true ->
  is_request L raw self (py "GET") (dir_url_of ws) ->
  os.isdir fs (join_all d ws ++ py "/") = false ->
  let r := handle_one_request L fs d raw in
  status_of (wire (sent r)) = Some 404%N /\ raised r = None.
Proof.
  intros Hunq Hws Hreq Hd r. subst r.
  rewrite (is_request_handled _ _ _ _ _ _ _ Hreq).
  destruct Hreq as (_ & Hv & _ & Hp).
  change (method L fs d (py "GET")) with (Some (do_GET L fs d)). cbv iota.
  unfold do_GET, send_head.
  rewrite Hp, (translate_path_dir_url_of _ _ _ Hunq Hws), Hd.
  unfold send_file. rewrite endswith_dir. cbn [sent raised].
  split; [apply send_error_status, Hv | reflexivity].
Qed.

Lemma file_with_final_slash_404_witness :
  status_of (wire (sent (Demo.serve (Demo.request "GET /a.txt/ HTTP/1.0"))))
  = Some 404%N.
Proof.
  refine (proj1 (file_with_final_slash_404 Demo.lib Demo.fs Demo.cwd
                   (Demo.request "GET /a.txt/ HTTP/1.0")
                   (Demo.parsed "GET" "/a.txt/" "HTTP/1.0" Demo.no_headers)
                   [py "a.txt"] _ _ _ _)).
  - exact demo_lib_unquote_plain.
  - reflexivity.
  - repeat split; try reflexivity.
    + vm_compute. discriminate.
    + exists silent, true. reflexivity.
  - reflexivity.
Defined.

(** ** [normpath] on absolute paths *)

Lemma forallb_removelast {A} (p : A -> bool) (l : list A) :
  forallb p l = true -> forallb p (removelast l) = true.
Proof.
  induction l as [|x l IH]; [reflexivity|].
  intros H. cbn [forallb] in H. apply andb_true_iff in H as [Hx H].
  destruct l as [|y l]; [reflexivity|].
  change (removelast (x :: y :: l)) with (x :: removelast (y :: l)).
  cbn [forallb]. rewrite Hx, (IH H). reflexivity.
Qed.

Lemma forallb_last_elt {A} (p : A -> bool) (l : list A) (dflt : A) :
  l <> [] -> forallb p l = true -> p (last l dflt) = true.
Proof.
  induction l as [|x l IH]; [congruence|].
  intros _ H. cbn [forallb] in H. apply andb_true_iff in H as [Hx H].
  destruct l as [|y l]; [exact Hx|].
  change (last (x :: y :: l) dflt) with (last (y :: l) dflt).
  apply IH; [discriminate | exact H].
Qed.

(** Below a leading slash the loop of [normpath] keeps nothing but file
    names. *)
Lemma normpath_fold_simple (n : nat) (l acc : list str) :
  n <> 0 ->
  (forall w, In w l -> has_char slash w = false) ->
  forallb simple_name acc = true ->
  forallb simple_name (fold_left (posixpath.normpath_step n) l acc) = true.
Proof.
  intros Hn. revert acc. induction l as [|w l IH]; intros acc Hl Hacc;
    [exact Hacc|].
  cbn [fold_left]. apply IH; [intros v Hv; apply Hl; right; exact Hv|].
  assert (Hs : has_char slash w = false) by (apply Hl; left; reflexivity).
  unfold posixpath.normpath_step.
  destruct (str_eqb w []) eqn:E0; [exact Hacc|].
  destruct (str_eqb w posixpath.curdir) eqn:E1; [exact Hacc|].
  cbn [orb].
  destruct (str_eqb w posixpath.pardir) eqn:E2.
  - assert (En : Nat.eqb n 0 = false) by (apply Nat.eqb_neq; exact Hn).
    rewrite En. cbn [negb andb orb].
    destruct acc as [|a acc']; [exact Hacc|].
    cbn [no_items negb andb].
    assert (Hl' : simple_name (last (a :: acc') []) = true).
    { apply forallb_last_elt; [discriminate | exact Hacc]. }
    apply simple_name_inv in Hl' as (_ & _ & _ & ->).
    apply forallb_removelast, Hacc.
  - cbn [negb orb]. rewrite forallb_app, Hacc. cbn [forallb].
    unfold simple_name. rewrite <- is_empty_eqb, E0, Hs, E1, E2. reflexivity.
Qed.

(** [normpath] leaves ["//w1/.../wn"] as it is. *)
Lemma normpath_double_slash (comps : list str) :
  forallb simple_name comps = true ->
  posixpath.normpath (slash :: url_of comps) = slash :: url_of comps.
Proof.
  intros H. unfold posixpath.normpath.
  change (is_empty (slash :: url_of comps)) with false. cbv iota.
  change (startswith (slash :: url_of comps) posixpath.sep) with true.
  change (startswith (slash :: url_of comps)
            (posixpath.sep ++ posixpath.sep)) with true.
  assert (E3 : startswith (slash :: url_of comps)
                 (posixpath.sep ++ posixpath.sep ++ posixpath.sep) = false).
  { change (posixpath.sep ++ posixpath.sep ++ posixpath.sep)
      with (slash :: py "//").
    rewrite startswith_cons, (url_of_single_slash _ H). apply andb_false_r. }
  rewrite E3. cbn [negb andb]. cbv iota zeta.
  change (slash :: url_of comps) with ([] ++ slash :: url_of comps).
  rewrite split_app_sep, (split_url_of_raw _ H).
  cbn [split app fold_left].
  change (posixpath.normpath_step 2 (posixpath.normpath_step 2 [] []) [])
    with (@nil str).
  destruct comps as [|w ws]; [reflexivity|].
  cbn [no_items].
  rewrite normpath_fold by (apply simple_or_empty, H).
  rewrite (filter_simple _ H). reflexivity.
Qed.

(** X16. [normpath] on an absolute path returns one slash, or two when
    the path starts with exactly two, followed by file names separated
    by single slashes: no empty component, no ["."] and no [".."] is
    left.  It changes such a result no further. *)
Theorem normpath_of_absolute_path (p : str) :
  startswith p (py "/") = true ->
  exists comps,
    forallb simple_name comps = true
    /\ (posixpath.normpath p = url_of comps
        \/ posixpath.normpath p = py "/" ++ url_of comps)
    /\ posixpath.normpath (posixpath.normpath p) = posixpath.normpath p.
Proof.
  intros Hs.
  destruct p as [|c p]; [discriminate|].
  set (n := if startswith (c :: p) (posixpath.sep ++ posixpath.sep)
               && negb (startswith (c :: p)
                          (posixpath.sep ++ posixpath.sep ++ posixpath.sep))
            then 2 else 1).
  set (comps := fold_left (posixpath.normpath_step n) (split slash (c :: p)) []).
  assert (Hn : n <> 0) by (subst n; destruct (_ && _); discriminate).
  assert (Hc : forallb simple_name comps = true).
  { apply normpath_fold_simple; [exact Hn | | reflexivity].
    intros w Hw. exact (split_pieces _ _ _ Hw). }
  assert (E : posixpath.normpath (c :: p)
              = List.concat (repeat posixpath.sep n) ++ str_join posixpath.sep comps).
  { unfold posixpath.normpath. cbn [is_empty].
    change (startswith (c :: p) posixpath.sep) with (startswith (c :: p) (py "/")).
    rewrite Hs. fold n. cbv zeta. fold comps.
    destruct (List.concat (repeat posixpath.sep n)
              ++ str_join posixpath.sep comps) eqn:Ep; [|reflexivity].
    exfalso. subst n. destruct (_ && _); discriminate Ep. }
  exists comps. split; [exact Hc|].
  rewrite E. subst n.
  destruct (startswith (c :: p) (posixpath.sep ++ posixpath.sep)
            && negb (startswith (c :: p)
                       (posixpath.sep ++ posixpath.sep ++ posixpath.sep))).
  - change (List.concat (repeat posixpath.sep 2) ++ str_join posixpath.sep comps)
      with (slash :: url_of comps).
    split; [right; reflexivity | apply normpath_double_slash, Hc].
  - change (List.concat (repeat posixpath.sep 1) ++ str_join posixpath.sep comps)
      with (url_of comps).
    split; [left; reflexivity | apply normpath_url_of, Hc].
Qed.

Lemma normpath_of_absolute_path_witness :
  exists comps,
    forallb simple_name comps = true
    /\ (posixpath.normpath (py "/a/../../b//c/./d/") = url_of comps
        \/ posixpath.normpath (py "/a/../../b//c/./d/") = py "/" ++ url_of comps)
    /\ posixpath.normpath (posixpath.normpath (py "/a/../../b//c/./d/"))
       = posixpath.normpath (py "/a/../../b//c/./d/").
Proof.
  exact (normpath_of_absolute_path (py "/a/../../b//c/./d/") eq_refl).
Defined.

(** ** Escaping, content types and the order of a listing *)

Lemma has_char_replace_other (c x : ascii) (t s : str) :
  has_char c t = false -> has_char c s = false ->
  has_char c (replace x t s) = false.
Proof.
  intros Ht. induction s as [|y s IH]; intros Hs; [reflexivity|].
  simpl in Hs. apply orb_false_iff in Hs as [H1 H2].
  unfold replace in *. cbn [flat_map]. rewrite has_char_app, (IH H2).
  destruct (Ascii.eqb y x); [rewrite Ht; reflexivity|].
  simpl. rewrite H1. reflexivity.
Qed.

Lemma has_char_replace_self (c : ascii) (t s : str) :
  has_char c t = false -> has_char c (replace c t s) = false.
Proof.
  intros Ht. induction s as [|y s IH]; [reflexivity|].
  unfold replace in *. cbn [flat_map]. rewrite has_char_app, IH.
  destruct (Ascii.eqb y c) eqn:E; [rewrite Ht; reflexivity|].
  simpl. rewrite Ascii.eqb_sym, E. reflexivity.
Qed.

(** X17. What [html.escape] returns holds neither ['<'] nor ['>']: the
    names of a listing and the messages of an error page are written so
    that nothing in them can open or close a tag. *)
Theorem html_escape_leaves_no_angle_bracket (s : str) :
  has_char (chr 60) (html_escape s) = false
  /\ has_char (chr 62) (html_escape s) = false.
Proof.
  unfold html_escape. split.
  - apply has_char_replace_other; [reflexivity|].
    apply has_char_replace_self. reflexivity.
  - apply has_char_replace_self. reflexivity.
Qed.

(** X18. [guess_type] never returns an empty content type: a path whose
    extension is in neither table, or for which [mimetypes] answers with
    nothing or with an empty guess, gets [application/octet-stream]. *)
Theorem guess_type_is_never_empty (L : Lib) (p : str) :
  is_empty (guess_type L p) = false.
Proof.
  assert (M : forall ext t, extensions_map_get ext = Some t ->
                            is_empty t = false).
  { intros ext t. unfold extensions_map_get, extensions_map. cbn [find fst].
    repeat match goal with
           | |- context [if ?b then _ else _] => destruct b
           end; cbn; intros E; inversion E; reflexivity. }
  unfold guess_type.
  destruct (extensions_map_get (posixpath.splitext_ext p)) as [t|] eqn:E1;
    [exact (M _ _ E1)|].
  destruct (extensions_map_get (lower L (posixpath.splitext_ext p)))
    as [t|] eqn:E2; [exact (M _ _ E2)|].
  destruct (mimetypes_guess_type L p) as [g|]; [|reflexivity].
  destruct (is_empty g) eqn:Eg; [reflexivity | exact Eg].
Qed.

Lemma str_leb_total (a b : str) : str_leb a b = false -> str_leb b a = true.
Proof.
  revert b; induction a as [|c a IH]; intros [|d b] H; try discriminate;
    try reflexivity.
  cbn [str_leb] in *.
  destruct (ord c <? ord d)%N; [discriminate|].
  destruct (ord d <? ord c)%N; [reflexivity|].
  apply IH, H.
Qed.

Lemma insert_by_perm (key : str -> str) (x : str) (l : list str) :
  Permutation (x :: l) (insert_by key x l).
Proof.
  induction l as [|y l IH]; [apply Permutation_refl|].
  cbn [insert_by]. destruct (str_leb (key y) (key x)).
  - apply perm_trans with (y :: x :: l); [apply perm_swap|].
    apply perm_skip, IH.
  - apply Permutation_refl.
Qed.

Lemma insert_by_sorted (key : str -> str) (x : str) (l : list str) :
  Sorted (fun a b => str_leb (key a) (key b) = true) l ->
  Sorted (fun a b => str_leb (key a) (key b) = true) (insert_by key x l).
Proof.
  induction l as [|y l IH]; intros H.
  - repeat constructor.
  - cbn [insert_by]. inversion H as [|? ? Hl Hy]; subst.
    destruct (str_leb (key y) (key x)) eqn:E.
    + constructor; [apply IH, Hl|].
      destruct l as [|z l]; cbn [insert_by].
      * constructor. exact E.
      * inversion Hy; subst.
        destruct (str_leb (key z) (key x)); constructor; assumption.
    + constructor; [exact H|]. constructor. apply str_leb_total, E.
Qed.

Lemma sort_by_fold (key : str -> str) (l acc : list str) :
  Sorted (fun a b => str_leb (key a) (key b) = true) acc ->
  Sorted (fun a b => str_leb (key a) (key b) = true)
    (fold_left (fun acc x => insert_by key x acc) l acc)
  /\ Permutation (acc ++ l)
       (fold_left (fun acc x => insert_by key x acc) l acc).
Proof.
  revert acc; induction l as [|x l IH]; intros acc H.
  - split; [exact H | rewrite app_nil_r; apply Permutation_refl].
  - cbn [fold_left].
    destruct (IH (insert_by key x acc) (insert_by_sorted key x acc H))
      as [S P].
    split; [exact S|].
    apply perm_trans with (insert_by key x acc ++ l); [|exact P].
    apply perm_trans with ((x :: acc) ++ l).
    + apply Permutation_sym, Permutation_middle.
    + apply Permutation_app_tail, insert_by_perm.
Qed.

(** X19. The entries of a listing are put in order of their lower-cased
    names: [sort_by (lower L)] returns a rearrangement of the names
    [os.listdir] gave, each name's key at most the key of the next. *)
Theorem listing_order (key : str -> str) (names : list str) :
  Permutation names (sort_by key names)
  /\ Sorted (fun a b => str_leb (key a) (key b) = true) (sort_by key names).
Proof.
  unfold sort_by.
  destruct (sort_by_fold key names [] (Sorted_nil _)) as [S P].
  split; [exact P | exact S].
Qed.

(** ** The extension of a path *)

Lemma has_char_rev (c : ascii) (s : str) :
  has_char c (rev s) = has_char c s.
Proof.
  induction s as [|y s IH]; [reflexivity|].
  cbn [rev]. rewrite has_char_app, IH. simpl.
  rewrite orb_false_r. apply orb_comm.
Qed.

Lemma before_has_no_sep (c : ascii) (s : str) :
  has_char c (before c s) = false.
Proof.
  induction s as [|y s IH]; [reflexivity|].
  cbn [before]. destruct (Ascii.eqb y c) eqn:E; [reflexivity|].
  simpl. rewrite Ascii.eqb_sym, E. exact IH.
Qed.

Lemma before_keeps_absent (c d : ascii) (s : str) :
  has_char c s = false -> has_char c (before d s) = false.
Proof.
  induction s as [|y s IH]; intros H; [reflexivity|].
  simpl in H. apply orb_false_iff in H as [H1 H2].
  cbn [before]. destruct (Ascii.eqb y d); [reflexivity|].
  simpl. rewrite H1. exact (IH H2).
Qed.

Lemma startswith_before_sep (c : ascii) (s : str) :
  has_char c s = true -> startswith s (before c s ++ [c]) = true.
Proof.
  induction s as [|y s IH]; intros H; [discriminate|].
  simpl in H. cbn [before].
  destruct (Ascii.eqb y c) eqn:E.
  - apply Ascii.eqb_eq in E. subst y.
    cbn [app startswith]. rewrite Ascii.eqb_refl. reflexivity.
  - rewrite Ascii.eqb_sym, E in H. cbn [orb] in H.
    cbn [app startswith]. rewrite Ascii.eqb_refl. exact (IH H).
Qed.

Lemma startswith_of_before (c : ascii) (s q : str) :
  startswith (before c s) q = true -> startswith s q = true.
Proof.
  revert s; induction q as [|x q IH]; intros s H; [reflexivity|].
  destruct s as [|y s]; [discriminate|].
  cbn [before] in H. destruct (Ascii.eqb y c); [discriminate|].
  cbn [startswith] in *. apply andb_true_iff in H as [H1 H2].
  rewrite H1. exact (IH _ H2).
Qed.

(** X20. The extension [splitext] finds, on which the content type is
    chosen, is empty or a final part of the path that starts with a dot
    and holds no further dot and no slash: it is taken from the last
    component only. *)
Theorem extension_is_of_the_last_component (p : str) :
  posixpath.splitext_ext p = []
  \/ exists body,
       posixpath.splitext_ext p = chr 46 :: body
       /\ has_char (chr 46) body = false
       /\ has_char slash body = false
       /\ endswith p (chr 46 :: body) = true.
Proof.
  unfold posixpath.splitext_ext.
  rewrite rev_involutive.
  destruct (has_char (chr 46) (rev (before slash (rev p)))) eqn:Hdot;
    [|left; reflexivity].
  match goal with
  | |- context [if ?b then _ else _] => destruct b
  end; [|left; reflexivity].
  right. eexists. split; [reflexivity|].
  rewrite has_char_rev in Hdot.
  repeat split.
  - rewrite has_char_rev. apply before_has_no_sep.
  - rewrite has_char_rev. apply before_keeps_absent, before_has_no_sep.
  - unfold endswith. cbn [rev]. rewrite rev_involutive.
    apply (startswith_of_before slash).
    apply startswith_before_sep, Hdot.
Qed.
